(** * Result processing and citation pipeline of the research agent

    A shallow embedding of [backend/src/agent/tavily_processor.py] and of the
    citation part of [finalize_answer] in [backend/src/agent/graph.py],
    followed by the properties of the pipeline.

    Conventions of the embedding
    - a Python [str] is a [string]; its characters are code points below 256,
      classified as CPython classifies them (whitespace, word characters,
      lower-casing);
    - a Python [int] parameter is a [Z]; a counter that starts at 0 and is
      only incremented is a [nat];
    - a value of unknown shape ([Any], a decoded JSON document) is a [PyVal];
    - a call that may raise returns a [result]; the exception is named. *)

From Stdlib Require Import ZArith NArith List String Ascii Bool Lia.
From Stdlib Require Import DecimalString DecimalNat.
Import ListNotations.
Open Scope string_scope.

(** ** Exceptions and the error monad *)

Inductive exn : Type :=
| AttributeError
| TypeError
| KeyError
| IndexError
| ValueError
| RecursionError.

Inductive result (A : Type) : Type :=
| Ok (a : A)
| Raise (e : exn).

Arguments Ok {A} a.
Arguments Raise {A} e.

Definition bind {A B : Type} (m : result A) (f : A -> result B) : result B :=
  match m with
  | Ok a => f a
  | Raise e => Raise e
  end.

Notation "x <- m ;; k" := (bind m (fun x => k))
  (at level 61, m at next level, right associativity).

(** ** Python values *)

#[warnings="-register-all"]
Inductive PyVal : Type :=
| PNone
| PBool (b : bool)
| PInt (z : Z)
| PStr (s : string)
| PList (l : list PyVal)
| PDict (d : list (string * PyVal)).

(** [d.get(key)] on a dict kept in insertion order. *)
Fixpoint dict_lookup {V : Type} (key : string) (d : list (string * V)) : option V :=
  match d with
  | [] => None
  | (k, v) :: d' => if String.eqb k key then Some v else dict_lookup key d'
  end.

Definition dict_get {V : Type} (d : list (string * V)) (key : string) (default : V) : V :=
  match dict_lookup key d with
  | Some v => v
  | None => default
  end.

(** [d[key]] *)
Definition dict_getitem {V : Type} (d : list (string * V)) (key : string) : result V :=
  match dict_lookup key d with
  | Some v => Ok v
  | None => Raise KeyError
  end.

(** ** Strings as Python sees them *)

Module PyStr.

Definition nl : string := String "010" "".

Definition code (c : ascii) : N := N_of_ascii c.

Definition in_range (lo hi : N) (c : ascii) : bool :=
  (N.leb lo (code c) && N.leb (code c) hi)%bool.

(** [str.isspace] on one character: 9-13, 28-32, 0x85, 0xA0. *)
Definition is_space (c : ascii) : bool :=
  in_range 9 13 c || in_range 28 32 c || N.eqb (code c) 133 || N.eqb (code c) 160.

(** The regex class [\w]: alphanumerics and the underscore. *)
Definition is_word (c : ascii) : bool :=
  in_range 48 57 c || in_range 65 90 c || N.eqb (code c) 95 || in_range 97 122 c
  || N.eqb (code c) 170 || in_range 178 179 c || N.eqb (code c) 181
  || in_range 185 186 c || in_range 188 190 c
  || in_range 192 214 c || in_range 216 246 c || in_range 248 255 c.

Definition lower_char (c : ascii) : ascii :=
  if in_range 65 90 c || (in_range 192 222 c && negb (N.eqb (code c) 215))
  then ascii_of_N (code c + 32)
  else c.

Fixpoint lower (s : string) : string :=
  match s with
  | EmptyString => EmptyString
  | String c s' => String (lower_char c) (lower s')
  end.

Definition len (s : string) : Z := Z.of_nat (String.length s).

Definition is_empty (s : string) : bool :=
  match s with
  | EmptyString => true
  | String _ _ => false
  end.

Fixpoint lstrip (s : string) : string :=
  match s with
  | EmptyString => EmptyString
  | String c s' => if is_space c then lstrip s' else s
  end.

Fixpoint rstrip (s : string) : string :=
  match s with
  | EmptyString => EmptyString
  | String c s' =>
      let r := rstrip s' in
      if (is_empty r && is_space c)%bool then EmptyString else String c r
  end.

Definition strip (s : string) : string := rstrip (lstrip s).

(** [needle in hay] *)
Fixpoint contains (needle hay : string) : bool :=
  if String.prefix needle hay then true
  else match hay with
       | EmptyString => false
       | String _ hay' => contains needle hay'
       end.

(** [hay.find(needle)], [None] for -1. *)
Fixpoint find (needle hay : string) : option nat :=
  if String.prefix needle hay then Some 0
  else match hay with
       | EmptyString => None
       | String _ hay' => option_map S (find needle hay')
       end.

(** [s.replace(old, new)] for a non-empty [old]: occurrences are taken left
    to right and do not overlap; [skip] counts the characters of the
    occurrence being consumed. *)
Fixpoint replace_from (old new s : string) (skip : nat) : string :=
  match s with
  | EmptyString => EmptyString
  | String c s' =>
      match skip with
      | S k => replace_from old new s' k
      | O =>
          if String.prefix old s
          then new ++ replace_from old new s' (String.length old - 1)
          else String c (replace_from old new s' 0)
      end
  end.

(** With an empty [old], Python inserts [new] before every character and at
    the end. *)
Fixpoint intersperse (new s : string) : string :=
  match s with
  | EmptyString => new
  | String c s' => new ++ String c (intersperse new s')
  end.

Definition replace (old new s : string) : string :=
  match old with
  | EmptyString => intersperse new s
  | String _ _ => replace_from old new s 0
  end.

(** [s.split(sep)] for a one-character separator. *)
Fixpoint split (sep : ascii) (s : string) : list string :=
  match s with
  | EmptyString => [EmptyString]
  | String c s' =>
      if Ascii.eqb c sep then EmptyString :: split sep s'
      else match split sep s' with
           | [] => [String c EmptyString]
           | w :: ws => String c w :: ws
           end
  end.

(** [s[:stop]] *)
Definition slice_to (s : string) (stop : Z) : string :=
  let n := len s in
  let stop' := if (stop <? 0)%Z then Z.max 0 (n + stop) else Z.min stop n in
  String.substring 0 (Z.to_nat stop') s.

(** [s[start:stop]] for non-negative bounds. *)
Definition slice (s : string) (start stop : nat) : string :=
  String.substring start (stop - start) s.

(** [s[start:]] for a non-negative bound. *)
Definition slice_from (s : string) (start : nat) : string :=
  String.substring start (String.length s - start) s.

(** [str(n)] for a non-negative integer. *)
Definition of_nat (n : nat) : string :=
  NilEmpty.string_of_uint (Nat.to_uint n).

End PyStr.

(** ** The fragment of [re] that the module uses

    All patterns are compiled with [re.IGNORECASE] or contain no letters, so
    a literal is matched up to case.  The matcher is a backtracking matcher in
    continuation-passing style: [prev] is the character before the current
    position ([None] at the start of the subject), the continuation receives
    the position after the match. *)

Module Regex.
Import PyStr.

Inductive re : Type :=
| Lit (l : string)                  (* literal text, case-insensitive *)
| Seq (r1 r2 : re)
| Alt (r1 r2 : re)                  (* r1|r2, left alternative first *)
| LazyStar (p : ascii -> bool)      (* c*? over a character class *)
| GreedyPlus (p : ascii -> bool)    (* c+ over a character class *)
| WordB                             (* \b *)
| Bol                               (* ^ *)
| Eol                               (* $ *)
| Ahead (r : re).                   (* (?=r) *)

(** [.] without DOTALL *)
Definition dot (c : ascii) : bool := negb (N.eqb (code c) 10).

Definition ci_eqb (a b : ascii) : bool := Ascii.eqb (lower_char a) (lower_char b).

Fixpoint lit_match (l : string) (prev : option ascii) (s : string)
  : option (option ascii * string) :=
  match l with
  | EmptyString => Some (prev, s)
  | String a l' =>
      match s with
      | EmptyString => None
      | String c s' => if ci_eqb a c then lit_match l' (Some c) s' else None
      end
  end.

Definition K : Type := option ascii -> string -> option string.

Fixpoint lazy_star (p : ascii -> bool) (k : K) (prev : option ascii) (s : string)
  : option string :=
  match k prev s with
  | Some r => Some r
  | None =>
      match s with
      | EmptyString => None
      | String c s' => if p c then lazy_star p k (Some c) s' else None
      end
  end.

Fixpoint greedy_star (p : ascii -> bool) (k : K) (prev : option ascii) (s : string)
  : option string :=
  match s with
  | EmptyString => k prev s
  | String c s' =>
      if p c then
        match greedy_star p k (Some c) s' with
        | Some r => Some r
        | None => k prev s
        end
      else k prev s
  end.

Definition word_before (prev : option ascii) : bool :=
  match prev with
  | Some c => is_word c
  | None => false
  end.

Definition word_after (s : string) : bool :=
  match s with
  | String c _ => is_word c
  | EmptyString => false
  end.

Definition at_eol (s : string) : bool :=
  match s with
  | EmptyString => true
  | String c EmptyString => N.eqb (code c) 10
  | _ => false
  end.

Fixpoint rmatch (r : re) (prev : option ascii) (s : string) (k : K) : option string :=
  match r with
  | Lit l =>
      match lit_match l prev s with
      | Some (p, s') => k p s'
      | None => None
      end
  | Seq r1 r2 => rmatch r1 prev s (fun p s' => rmatch r2 p s' k)
  | Alt r1 r2 =>
      match rmatch r1 prev s k with
      | Some x => Some x
      | None => rmatch r2 prev s k
      end
  | LazyStar p => lazy_star p k prev s
  | GreedyPlus p =>
      match s with
      | String c s' => if p c then greedy_star p k (Some c) s' else None
      | EmptyString => None
      end
  | WordB => if xorb (word_before prev) (word_after s) then k prev s else None
  | Bol => match prev with None => k prev s | Some _ => None end
  | Eol => if at_eol s then k prev s else None
  | Ahead r' =>
      match rmatch r' prev s (fun _ s' => Some s') with
      | Some _ => k prev s
      | None => None
      end
  end.

(** A match of [r] at the current position; the result is what follows it. *)
Definition match_here (r : re) (prev : option ascii) (s : string) : option string :=
  rmatch r prev s (fun _ s' => Some s').

(** [re.search(r, s)] as a truth value. *)
Fixpoint search_from (r : re) (prev : option ascii) (s : string) : bool :=
  match match_here r prev s with
  | Some _ => true
  | None =>
      match s with
      | EmptyString => false
      | String c s' => search_from r (Some c) s'
      end
  end.

Definition search (r : re) (s : string) : bool := search_from r None s.

(** [re.sub(r, repl, s)] for a literal replacement: leftmost matches, no
    overlap; [skip] counts the characters of the match being consumed.  An
    empty match puts [repl] in front of the current character. *)
Fixpoint sub_from (r : re) (repl : string) (prev : option ascii) (s : string)
  (skip : nat) : string :=
  match s with
  | EmptyString =>
      match skip, match_here r prev s with
      | O, Some _ => repl
      | _, _ => EmptyString
      end
  | String c s' =>
      match skip with
      | S k => sub_from r repl (Some c) s' k
      | O =>
          match match_here r prev s with
          | Some rest =>
              match String.length s - String.length rest with
              | O => repl ++ String c (sub_from r repl (Some c) s' 0)
              | S k => repl ++ sub_from r repl (Some c) s' k
              end
          | None => String c (sub_from r repl (Some c) s' 0)
          end
      end
  end.

Definition sub (r : re) (repl s : string) : string := sub_from r repl None s 0.

End Regex.

(** ** [tavily_processor.py] *)

Import PyStr Regex.

(** The lazy tail shared by the noise patterns: [.*?(?=\.|$)] *)
Definition to_sentence_end : re :=
  Seq (LazyStar dot) (Ahead (Alt (Lit ".") Eol)).

Definition cookie_pattern : re :=
  Seq WordB (Seq (Alt (Lit "Cookie") (Alt (Lit "Privacy Policy") (Lit "Terms of Service")))
     (Seq WordB to_sentence_end)).

Definition advertisement_pattern : re :=
  Seq WordB (Seq (Alt (Lit "Advertisement") (Lit "Ad")) (Seq WordB to_sentence_end)).

Definition javascript_pattern : re := Seq (Lit "JavaScript") to_sentence_end.

Definition enable_javascript_pattern : re := Seq (Lit "Enable JavaScript") to_sentence_end.

Definition cookies_notice_pattern : re :=
  Seq (Lit "This website uses cookies") to_sentence_end.

Definition noise_patterns : list re :=
  [ cookie_pattern; advertisement_pattern; javascript_pattern;
    enable_javascript_pattern; cookies_notice_pattern ].

Definition remove_noise (content : string) : string :=
  fold_left (fun acc pattern => sub pattern "" acc) noise_patterns content.

Definition validate_and_clean_content (content : PyVal) : string :=
  match content with
  | PStr s =>
      if is_empty s then ""
      else
        let content := sub (GreedyPlus is_space) " " (strip s) in
        let content := remove_noise content in
        strip content
  | _ => ""
  end.

(** What [json.loads] does with a text: it returns the decoded document,
    raises [json.JSONDecodeError], or raises another exception
    ([ValueError] for an integer literal beyond the digit limit,
    [RecursionError] for a document nested too deep). *)
Inductive Decoded : Type :=
| Document (v : PyVal)
| JSONDecodeError
| DecodeRaises (e : exn).

Section Processor.

(** [json.loads] of the standard library, see [Decoded]. *)
Variable json_loads : string -> Decoded.

Definition wrap_text (title content : string) : PyVal :=
  PList [PDict [("title", PStr title); ("url", PStr ""); ("content", PStr content)]].

(** Only [json.JSONDecodeError] is caught; any other exception of the
    decoder leaves the function. *)
Definition extract_tavily_results (search_response : PyVal) : result PyVal :=
  match search_response with
  | PDict d =>
      match dict_lookup "results" d with
      | Some results => Ok results
      | None =>
          match dict_lookup "answer" d with
          | Some answer =>
              Ok (PList [PDict [("title", PStr "Direct Answer"); ("url", PStr "");
                                ("content", answer)]])
          | None => Ok (PList [])
          end
      end
  | PList l => Ok (PList l)
  | PStr s =>
      match json_loads s with
      | Document (PDict d) =>
          match dict_lookup "results" d with
          | Some results => Ok results
          | None => Ok (wrap_text "Search Result" s)
          end
      | Document _ => Ok (wrap_text "Search Result" s)
      | JSONDecodeError => Ok (wrap_text "Search Result" s)
      | DecodeRaises e => Raise e
      end
  | _ => Ok (PList [])
  end.

(** What a [for] loop sees when it iterates over a value. *)
Definition py_iter (v : PyVal) : result (list PyVal) :=
  match v with
  | PList l => Ok l
  | PDict d => Ok (map (fun kv => PStr (fst kv)) d)
  | PStr s => Ok (map (fun c => PStr (String c "")) (list_ascii_of_string s))
  | _ => Raise TypeError
  end.

(** [v.strip()] *)
Definition call_strip (v : PyVal) : result string :=
  match v with
  | PStr s => Ok (strip s)
  | _ => Raise AttributeError
  end.

(** The metadata dictionary of one accepted source. *)
Definition SourceMeta : Type := list (string * string).

Definition source_meta (title url clean_content source_id : string) : SourceMeta :=
  [ ("title", title); ("url", url); ("content", clean_content);
    ("short_url", source_id); ("value", url); ("label", title) ].

Definition format_source (valid_result_count : nat) (title url clean_content : string)
  : string :=
  "=== Source " ++ of_nat valid_result_count ++ " ===" ++ nl ++
  "Title: " ++ title ++ nl ++
  "URL: " ++ url ++ nl ++
  "Content: " ++ clean_content ++ nl ++
  "==================".

Definition truncate (clean_content : string) (max_content_length : Z) : string :=
  if (len clean_content >? max_content_length)%Z
  then slice_to clean_content max_content_length ++ "..."
  else clean_content.

Section Loop.

Variables max_results max_content_length min_content_length : Z.

(** The body of the [for] loop, with the loop state passed along:
    [valid_result_count], [formatted_sources], [sources_gathered]. *)
Fixpoint process_loop (raw_results : list PyVal) (valid_result_count : nat)
  (formatted_sources : list string) (sources_gathered : list SourceMeta)
  : result (list string * list SourceMeta) :=
  match raw_results with
  | [] => Ok (formatted_sources, sources_gathered)
  | res :: rest =>
      if (Z.of_nat valid_result_count >=? max_results)%Z
      then Ok (formatted_sources, sources_gathered)
      else
        match res with
        | PDict d =>
            title <- call_strip
                       (dict_get d "title"
                          (PStr ("Search Result " ++ of_nat (valid_result_count + 1)))) ;;
            url <- call_strip (dict_get d "url" (PStr "")) ;;
            raw_content <- call_strip (dict_get d "content" (PStr "")) ;;
            let clean_content := validate_and_clean_content (PStr raw_content) in
            if (len clean_content <? min_content_length)%Z
            then process_loop rest valid_result_count formatted_sources sources_gathered
            else
              let clean_content := truncate clean_content max_content_length in
              let valid_result_count := valid_result_count + 1 in
              let source_id := "[" ++ of_nat valid_result_count ++ "]" in
              process_loop rest valid_result_count
                (formatted_sources ++ [format_source valid_result_count title url clean_content])
                (sources_gathered ++ [source_meta title url clean_content source_id])
        | _ => process_loop rest valid_result_count formatted_sources sources_gathered
        end
  end.

End Loop.

Definition process_search_results_for_ai (search_response : PyVal)
  (max_results max_content_length min_content_length : Z)
  : result (list string * list SourceMeta) :=
  raw_results <- extract_tavily_results search_response ;;
  results <- py_iter raw_results ;;
  process_loop max_results max_content_length min_content_length results 0 [] [].

End Processor.

Definition error_patterns : list re :=
  [ Seq Bol (Alt (Lit "Error") (Alt (Lit "Sorry") (Alt (Lit "Cannot") (Lit "Unable"))));
    Seq (Lit "API") (Seq (LazyStar dot) (Alt (Lit "error") (Lit "failed")));
    Seq Bol (Seq (Lit "Search") (Seq (LazyStar dot) (Lit "failed"))) ].

Definition validate_ai_response (response_content : PyVal) (min_length : Z) : bool :=
  match response_content with
  | PStr s =>
      if is_empty s then false
      else
        let clean_content := strip s in
        if (len clean_content <? min_length)%Z then false
        else negb (existsb (fun pattern => search pattern clean_content) error_patterns)
  | _ => false
  end.

(** The [try] block of [process_citations_in_response]: [IndexError] from
    [url.split('/')[2]] is caught and leaves the text as it is. *)
Definition replace_if_present (pattern short_url processed_content : string) : string :=
  if contains pattern processed_content
  then replace pattern short_url processed_content
  else processed_content.

Definition replace_domain_references (url short_url processed_content : string) : string :=
  match nth_error (split "/" url) 2 with
  | Some domain =>
      let processed_content :=
        if (contains domain processed_content && (len domain >? 10)%Z)%bool
        then replace domain short_url processed_content
        else processed_content in
      let url_patterns := [ "https://" ++ domain; "http://" ++ domain; domain ] in
      fold_left (fun acc pattern => replace_if_present pattern short_url acc)
        url_patterns processed_content
  | None => processed_content
  end.

Definition cite_title (title short_url processed_content : string) : string :=
  if (negb (is_empty title) && (len title >? 20)%Z)%bool then
    let title_lower := lower title in
    let content_lower := lower processed_content in
    if contains title_lower content_lower then
      match find title_lower content_lower with
      | Some title_pos =>
          let nearby_text :=
            slice processed_content (title_pos - 25) (title_pos + String.length title + 25) in
          if negb (contains short_url nearby_text) then
            let title_end := title_pos + String.length title in
            slice_to processed_content (Z.of_nat title_end) ++ short_url ++
            slice_from processed_content title_end
          else processed_content
      | None => processed_content
      end
    else processed_content
  else processed_content.

Fixpoint citations_loop (sources_metadata : list SourceMeta) (i : nat)
  (processed_content : string) : string :=
  match sources_metadata with
  | [] => processed_content
  | source :: rest =>
      let url := dict_get source "url" "" in
      let short_url := dict_get source "short_url" ("[" ++ of_nat (i + 1) ++ "]") in
      let processed_content :=
        if (negb (is_empty url) && negb (is_empty short_url))%bool
        then replace_domain_references url short_url (replace url short_url processed_content)
        else processed_content in
      let title := dict_get source "title" "" in
      citations_loop rest (i + 1) (cite_title title short_url processed_content)
  end.

Definition process_citations_in_response (response_content : string)
  (sources_metadata : list SourceMeta) : string :=
  citations_loop sources_metadata 0 response_content.

(** ** The citation part of [finalize_answer] in [graph.py]

    [content] is the text of the model's answer ([result.content]),
    [sources] is [state["sources_gathered"]]. *)

(** [citation_map[key] = source] on a dict kept in insertion order. *)
Fixpoint dict_set {V : Type} (key : nat) (v : V) (d : list (nat * V)) : list (nat * V) :=
  match d with
  | [] => [(key, v)]
  | (k, w) :: d' => if Nat.eqb k key then (k, v) :: d' else (k, w) :: dict_set key v d'
  end.

Fixpoint finalize_loop (sources : list SourceMeta) (content : string)
  (unique_sources : list SourceMeta) (citation_map : list (nat * SourceMeta))
  : result (string * list SourceMeta * list (nat * SourceMeta)) :=
  match sources with
  | [] => Ok (content, unique_sources, citation_map)
  | source :: rest =>
      short_url <- dict_getitem source "short_url" ;;
      if contains short_url content then
        let citation_num := List.length unique_sources + 1 in
        let citation_ref := "[" ++ of_nat citation_num ++ "]" in
        finalize_loop rest (replace short_url citation_ref content)
          (unique_sources ++ [source]) (dict_set citation_num source citation_map)
      else finalize_loop rest content unique_sources citation_map
  end.

Definition reference_line (citation_num : nat) (source : SourceMeta) : string :=
  let title := dict_get source "title" "Untitled" in
  let url := dict_get source "url" (dict_get source "value" "") in
  of_nat citation_num ++ ". [" ++ title ++ "](" ++ url ++ ")" ++ nl.

Definition references_header : string := nl ++ nl ++ "## References" ++ nl ++ nl.

Definition finalize_answer (content : string) (sources : list SourceMeta)
  : result (string * list SourceMeta) :=
  st <- finalize_loop sources content [] [] ;;
  let '(content, unique_sources, citation_map) := st in
  match unique_sources with
  | [] => Ok (content, unique_sources)
  | _ :: _ =>
      let references_section :=
        fold_left (fun acc entry => acc ++ reference_line (fst entry) (snd entry))
          citation_map references_header in
      Ok (content ++ references_section, unique_sources)
  end.

(** * Vocabulary of the statements *)

(** ** Records of [process_search_results_for_ai] *)

(** The raw results that the loop of a call goes through. *)
Definition raw_results_of (json_loads : string -> Decoded) (search_response : PyVal)
  : result (list PyVal) :=
  raw_results <- extract_tavily_results json_loads search_response ;;
  py_iter raw_results.

Definition placeholder_title (rank : nat) : string := "Search Result " ++ of_nat rank.

Definition marker (rank : nat) : string := "[" ++ of_nat rank ++ "]".

(** [produced raw maxl minl rank r]: the record [r] of rank [rank] was built
    from a dictionary of [raw] whose three fields are strings and whose
    sanitized content is long enough. *)
Definition produced (raw : list PyVal) (maxl minl : Z) (rank : nat) (r : SourceMeta) : Prop :=
  exists d title url raw_content,
    In (PDict d) raw /\
    call_strip (dict_get d "title" (PStr (placeholder_title rank))) = Ok title /\
    call_strip (dict_get d "url" (PStr "")) = Ok url /\
    call_strip (dict_get d "content" (PStr "")) = Ok raw_content /\
    (minl <= len (validate_and_clean_content (PStr raw_content)))%Z /\
    r = source_meta title url
          (truncate (validate_and_clean_content (PStr raw_content)) maxl)
          (marker rank).

(** [built_from maxl minl rank d r]: the record [r] is what the loop builds
    at rank [rank] from the raw result [d], whose three fields are strings and
    whose sanitized content is long enough. *)
Definition built_from (maxl minl : Z) (rank : nat) (d : list (string * PyVal))
  (r : SourceMeta) : Prop :=
  exists title url raw_content,
    call_strip (dict_get d "title" (PStr (placeholder_title rank))) = Ok title /\
    call_strip (dict_get d "url" (PStr "")) = Ok url /\
    call_strip (dict_get d "content" (PStr "")) = Ok raw_content /\
    (minl <= len (validate_and_clean_content (PStr raw_content)))%Z /\
    r = source_meta title url
          (truncate (validate_and_clean_content (PStr raw_content)) maxl)
          (marker rank).

Definition records_inv (raw : list PyVal) (mr maxl minl : Z)
  (cnt : nat) (fs : list string) (sg : list SourceMeta) : Prop :=
  List.length sg = cnt /\
  List.length fs = cnt /\
  (cnt = 0 \/ (Z.of_nat cnt <= mr)%Z) /\
  forall i r, nth_error sg i = Some r -> produced raw maxl minl (i + 1) r.

(** ** The finalization step in the words of the specification *)

(** The finalization step as the specification words it.  The accepted
    sources are those whose marker literally appears in the answer text, in
    their accumulated order; they take the display numbers 1, 2, ... in that
    order; every occurrence of the marker of an accepted source is replaced by
    its bracketed display number; when a source was accepted the header and
    one line per accepted source follow the text. *)
Module FinalizeSpec.

Definition citation_marker (s : SourceMeta) : string := dict_get s "short_url" "".

Definition url_or_fallback (s : SourceMeta) : string :=
  let url := dict_get s "url" "" in
  if is_empty url then dict_get s "value" "" else url.

(** The sources whose marker appears in the answer text. *)
Definition cited (answer : string) (sources : list SourceMeta) : list SourceMeta :=
  filter (fun s => contains (citation_marker s) answer) sources.

(** The accepted sources with their display numbers. *)
Definition numbered (accepted : list SourceMeta) : list (nat * SourceMeta) :=
  combine (seq 1 (List.length accepted)) accepted.

(** Each accepted marker replaced by the bracketed display number. *)
Definition renumber (text : string) (accepted : list (nat * SourceMeta)) : string :=
  fold_left
    (fun text numbered_source =>
       replace (citation_marker (snd numbered_source))
         (marker (fst numbered_source)) text)
    accepted text.

Definition reference_entry (numbered_source : nat * SourceMeta) : string :=
  of_nat (fst numbered_source) ++ ". [" ++ dict_get (snd numbered_source) "title" "" ++ "]("
  ++ url_or_fallback (snd numbered_source) ++ ")".

Definition lines (entries : list string) : string :=
  fold_right (fun e acc => e ++ nl ++ acc) "" entries.

Definition finalize (answer : string) (sources : list SourceMeta)
  : string * list SourceMeta :=
  let accepted := numbered (cited answer sources) in
  match accepted with
  | [] => (answer, [])
  | _ :: _ =>
      (renumber answer accepted ++ nl ++ nl ++ "## References" ++ nl ++ nl
         ++ lines (map reference_entry accepted),
       map snd accepted)
  end.

End FinalizeSpec.

(** ** Text properties used for the sanitizer *)

Module Sanitizer.

Fixpoint drop (n : nat) (s : string) : string :=
  match n, s with
  | O, _ => s
  | S _, EmptyString => EmptyString
  | S n', String _ s' => drop n' s'
  end.

Fixpoint drop_while (p : ascii -> bool) (s : string) : string :=
  match s with
  | EmptyString => EmptyString
  | String c s' => if p c then drop_while p s' else s
  end.

(** [l] is at the head of [s], up to case. *)
Fixpoint ci_prefix (l s : string) : bool :=
  match l with
  | EmptyString => true
  | String a l' =>
      match s with
      | EmptyString => false
      | String c s' => ci_eqb a c && ci_prefix l' s'
      end
  end.

(** [l] occurs in [s], up to case. *)
Fixpoint ci_occurs (l s : string) : bool :=
  ci_prefix l s ||
  match s with
  | EmptyString => false
  | String _ s' => ci_occurs l s'
  end.

(** The characters at which a removed span stops: the full stop, and the
    line feed that [$] tolerates at the very end. *)
Definition boundary_char (c : ascii) : bool :=
  N.eqb (code c) 46 || N.eqb (code c) 10.

Definition at_boundary (s : string) : bool :=
  match s with
  | EmptyString => true
  | String c _ => boundary_char c
  end.

(** No character of the literal can match a boundary character. *)
Fixpoint boundary_free (l : string) : bool :=
  match l with
  | EmptyString => true
  | String a l' =>
      negb (ci_eqb a "."%char) && negb (ci_eqb a "010"%char) && boundary_free l'
  end.

(** Whitespace-normal text: every whitespace character is a single space
    that does not follow another space. *)
Fixpoint normal_from (after_space : bool) (s : string) : bool :=
  match s with
  | EmptyString => true
  | String c s' =>
      if is_space c
      then Ascii.eqb c " "%char && negb after_space && normal_from true s'
      else normal_from false s'
  end.

Definition normal (s : string) : bool := normal_from false s.

Definition head_not_space (s : string) : bool :=
  match s with
  | EmptyString => true
  | String c _ => negb (is_space c)
  end.

(** The least number of characters a match of [r] consumes. *)
Fixpoint min_len (r : re) : nat :=
  match r with
  | Lit l => String.length l
  | Seq r1 r2 => min_len r1 + min_len r2
  | Alt r1 r2 => Nat.min (min_len r1) (min_len r2)
  | GreedyPlus _ => 1
  | _ => 0
  end.

(** [r] ends with the lazy tail [.*?(?=\.|$)]. *)
Inductive ends_sentence : re -> Prop :=
| ends_tail : ends_sentence to_sentence_end
| ends_seq r1 r2 : ends_sentence r2 -> ends_sentence (Seq r1 r2).

(** A pattern whose matches are non-empty and stop at a boundary. *)
Definition sentence_pattern (r : re) : Prop :=
  forall prev s rest,
    match_here r prev s = Some rest ->
    exists u, s = u ++ rest /\ u <> "" /\ at_boundary rest = true.

End Sanitizer.

Import Sanitizer.

(** A text without line feed: [.] matches every character of it. *)
Fixpoint all_dot (s : string) : bool :=
  match s with
  | EmptyString => true
  | String c s' => dot c && all_dot s'
  end.

(** [re.sub(r'\s+', ' ', s)] *)
Definition collapse_whitespace (s : string) : string := sub (GreedyPlus is_space) " " s.

(** ** Inputs used to exercise the statements *)

Definition long_text : string :=
  "The quick brown fox jumps over the lazy dog again and again.".

(** A decoder that rejects every text.  The inputs below are not texts, so
    no decoder is consulted on them. *)
Definition no_json (s : string) : Decoded := JSONDecodeError.

Definition sample_response : PyVal :=
  PDict [("results",
          PList [ PDict [("title", PStr "A"); ("url", PStr "http://x.com/a");
                         ("content", PStr long_text)];
                  PDict [("title", PStr "B"); ("url", PStr ""); ("content", PStr "short")];
                  PInt 7;
                  PDict [("content", PStr "  Plain   facts  here. ")] ])].

Definition sample_formatted : list string :=
  Eval vm_compute in
    match process_search_results_for_ai no_json sample_response 5 20 10 with
    | Ok (fs, _) => fs
    | Raise _ => []
    end.

Definition sample_records : list SourceMeta :=
  Eval vm_compute in
    match process_search_results_for_ai no_json sample_response 5 20 10 with
    | Ok (_, recs) => recs
    | Raise _ => []
    end.

(** A raw result on which the loop body would raise. *)
Definition untitled_result : PyVal :=
  PDict [("title", PNone); ("url", PStr "http://x.com/a"); ("content", PStr long_text)].

(** A page with boilerplate. *)
Definition noisy_page : string :=
  "  Rates rose   in May. Enable JavaScript to view the chart. We use a cookie banner.
   This website uses cookies for ads. Growth slowed.  ".

(** * More of the pipeline: vocabulary *)

(** ** The records of a call, computed from the raw results *)

(** The text the loop reads from a field that is absent or a string:
    [result.get(key, default).strip()]. *)
Definition field_text (d : list (string * PyVal)) (key default : string) : string :=
  match dict_get d key (PStr default) with
  | PStr s => strip s
  | _ => ""
  end.

Definition string_or_absent (d : list (string * PyVal)) (key : string) : bool :=
  match dict_lookup key d with
  | None => true
  | Some (PStr _) => true
  | Some _ => false
  end.

(** A raw result the loop can read: not a dictionary (it is skipped), or a
    dictionary whose [title], [url] and [content] are each absent or a
    string. *)
Definition readable (v : PyVal) : bool :=
  match v with
  | PDict d =>
      string_or_absent d "title" && string_or_absent d "url"
      && string_or_absent d "content"
  | _ => true
  end.

Definition clean_content_of (v : PyVal) : string :=
  match v with
  | PDict d => validate_and_clean_content (PStr (field_text d "content" ""))
  | _ => ""
  end.

(** A dictionary whose sanitized content is long enough. *)
Definition acceptable (minl : Z) (v : PyVal) : bool :=
  match v with
  | PDict _ => negb (len (clean_content_of v) <? minl)%Z
  | _ => false
  end.

Definition record_of (maxl : Z) (rank : nat) (v : PyVal) : SourceMeta :=
  match v with
  | PDict d =>
      source_meta (field_text d "title" (placeholder_title rank)) (field_text d "url" "")
        (truncate (clean_content_of v) maxl) (marker rank)
  | _ => []
  end.

Definition formatted_of (maxl : Z) (rank : nat) (v : PyVal) : string :=
  match v with
  | PDict d =>
      format_source rank (field_text d "title" (placeholder_title rank))
        (field_text d "url" "") (truncate (clean_content_of v) maxl)
  | _ => ""
  end.

(** [f] applied to the elements of a list with their ranks, counted from
    [rank]. *)
Fixpoint ranked {A : Type} (f : nat -> PyVal -> A) (rank : nat) (l : list PyVal) : list A :=
  match l with
  | [] => []
  | v :: l' => f rank v :: ranked f (S rank) l'
  end.

(** The first [max_results] acceptable raw results, in their order. *)
Definition accepted_results (mr minl : Z) (raw : list PyVal) : list PyVal :=
  firstn (Z.to_nat mr) (filter (acceptable minl) raw).

(** The loop state after [cnt] accepted results: the two lists have [cnt]
    elements and the [i]-th block frames the [i]-th record. *)
Definition aligned_inv (cnt : nat) (fs : list string) (sg : list SourceMeta) : Prop :=
  List.length sg = cnt /\
  List.length fs = cnt /\
  forall i r, nth_error sg i = Some r ->
    exists title url content,
      r = source_meta title url content (marker (i + 1)) /\
      nth_error fs i = Some (format_source (i + 1) title url content).

(** The single source that a direct answer or an undecoded text gives. *)
Definition single_source (title text : string) (maxl minl : Z)
  : result (list string * list SourceMeta) :=
  let clean := validate_and_clean_content (PStr (strip text)) in
  if (len clean <? minl)%Z then Ok ([], [])
  else Ok ([format_source 1 title "" (truncate clean maxl)],
           [source_meta title "" (truncate clean maxl) "[1]"]).

(** ** Citations *)

(** The text mentions neither the url of the source, nor the domain its url
    parses into, nor (for a title of more than 20 characters) its title. *)
Definition unmentioned (text : string) (source : SourceMeta) : Prop :=
  let url := dict_get source "url" "" in
  let title := dict_get source "title" "" in
  (url = "" \/
   (contains url text = false /\
    forall domain, nth_error (split "/" url) 2 = Some domain ->
                   contains domain text = false)) /\
  ((len title <= 20)%Z \/ contains (lower title) (lower text) = false).

(** [l1] is [l2] with some elements left out, the order kept. *)
Inductive subseq {A : Type} : list A -> list A -> Prop :=
| subseq_nil : subseq [] []
| subseq_take x l1 l2 : subseq l1 l2 -> subseq (x :: l1) (x :: l2)
| subseq_skip x l1 l2 : subseq l1 l2 -> subseq l1 (x :: l2).

(** The reference list that [finalize_answer] appends for sources numbered
    from [n]. *)
Fixpoint reference_lines (n : nat) (sources : list SourceMeta) : string :=
  match sources with
  | [] => ""
  | s :: rest => reference_line n s ++ reference_lines (S n) rest
  end.

(** The characters of a text, in order. *)
Definition chars (s : string) : list ascii := list_ascii_of_string s.

(** * More of the code: [graph.py] *)

(** ** Routing: [continue_to_web_research] and [evaluate_research] *)

(** [Send(node, {"search_query": ..., "id": ...})] *)
Record Send : Type := mkSend {
  send_node : string;
  send_search_query : string;
  send_id : Z
}.

(** [enumerate(l)], counted from [start]. *)
Fixpoint enumerate_from {A : Type} (start : nat) (l : list A) : list (nat * A) :=
  match l with
  | [] => []
  | x :: l' => (start, x) :: enumerate_from (S start) l'
  end.

Definition enumerate {A : Type} (l : list A) : list (nat * A) := enumerate_from 0 l.

Definition continue_to_web_research (search_query : list string) : list Send :=
  map (fun p => mkSend "web_research" (snd p) (Z.of_nat (fst p))) (enumerate search_query).

(** An integer entry of the graph state: the key is absent, holds [None], or
    holds an integer. *)
Inductive StateInt : Type :=
| Absent
| NoneValue
| IntValue (z : Z).

(** The part of the state that [evaluate_research] reads. *)
Record ReflectionState : Type := mkReflectionState {
  is_sufficient : bool;
  knowledge_gap : string;
  follow_up_queries : list string;
  research_loop_count : Z;
  number_of_ran_queries : Z
}.

(** What [evaluate_research] returns: the name of a node, or a list of
    [Send]. *)
Inductive Route : Type :=
| Node (name : string)
| Sends (sends : list Send).

(** [configurable_max_research_loops] is [configurable.max_research_loops];
    [state_max_research_loops] is the entry [max_research_loops] of the
    state. *)
Definition evaluate_research (state : ReflectionState) (state_max_research_loops : StateInt)
  (configurable_max_research_loops : Z) : Route :=
  let max_research_loops :=
    match state_max_research_loops with
    | IntValue n => n
    | _ => configurable_max_research_loops
    end in
  if (is_sufficient state || (research_loop_count state >=? max_research_loops)%Z)%bool
  then Node "finalize_answer"
  else
    Sends (map (fun p => mkSend "web_research" (snd p)
                           (number_of_ran_queries state + Z.of_nat (fst p)))
               (enumerate (follow_up_queries state))).

(** ** The branch of [reflection] taken when structured output fails

    [state_research_loop_count] and [state_max_research_loops] are the
    entries of the state, [search_query] is [state["search_query"]],
    [research_topic] is [get_research_topic(state["messages"])], [content] is
    the text the model returned for the simplified prompt. *)

Definition sufficiency_words : list string :=
  ["sufficient"; "enough"; "complete"; "yes"; "adequate"].

Definition reflection_fallback (state_research_loop_count state_max_research_loops : StateInt)
  (search_query : list string) (research_topic content : string)
  : result ReflectionState :=
  research_loop_count <-
    match state_research_loop_count with
    | Absent => Ok (0 + 1)%Z
    | IntValue n => Ok (n + 1)%Z
    | NoneValue => Raise TypeError
    end ;;
  let content := lower content in
  let is_sufficient := existsb (fun word => contains word content) sufficiency_words in
  max_loops_reached <-
    match state_max_research_loops with
    | Absent => Ok (research_loop_count >=? 1)%Z
    | IntValue max_loops => Ok (research_loop_count >=? max_loops)%Z
    | NoneValue => Raise TypeError
    end ;;
  let is_sufficient := if max_loops_reached then true else is_sufficient in
  Ok {| is_sufficient := is_sufficient;
        knowledge_gap := if negb is_sufficient then "Need more detailed information" else "";
        follow_up_queries :=
          if negb is_sufficient then [research_topic ++ " detailed information"] else [];
        research_loop_count := research_loop_count;
        number_of_ran_queries := Z.of_nat (List.length search_query) |}.

(** ** The text parsing of [generate_query] when structured output fails

    [content] is the text the model returned, [research_topic] is
    [get_research_topic(state["messages"])] and
    [initial_search_query_count] the entry of the state. *)

(** [s.endswith(suffix)] *)
Fixpoint ends_with (suffix s : string) : bool :=
  String.eqb suffix s ||
  match s with
  | EmptyString => false
  | String _ s' => ends_with suffix s'
  end.

(** The text after the first occurrence of [sep], if there is one:
    [s.split(sep, 1)[-1]] when [sep in s]. *)
Fixpoint after_first (sep : ascii) (s : string) : option string :=
  match s with
  | EmptyString => None
  | String c s' => if Ascii.eqb c sep then Some s' else after_first sep s'
  end.

(** [s.strip(c)] for a one-character argument. *)
Fixpoint lstrip_char (c : ascii) (s : string) : string :=
  match s with
  | EmptyString => EmptyString
  | String a s' => if Ascii.eqb a c then lstrip_char c s' else s
  end.

Fixpoint rstrip_char (c : ascii) (s : string) : string :=
  match s with
  | EmptyString => EmptyString
  | String a s' =>
      let r := rstrip_char c s' in
      if (is_empty r && Ascii.eqb a c)%bool then EmptyString else String a r
  end.

Definition strip_char (c : ascii) (s : string) : string := rstrip_char c (lstrip_char c s).

(** [l[:stop]] on a list. *)
Definition list_slice_to {A : Type} (l : list A) (stop : Z) : list A :=
  let n := Z.of_nat (List.length l) in
  let stop' := if (stop <? 0)%Z then Z.max 0 (n + stop) else Z.min stop n in
  firstn (Z.to_nat stop') l.

Definition drop_suffix (suffix clean_line : string) : string :=
  if ends_with suffix clean_line
  then strip (slice_to clean_line (- len suffix))
  else clean_line.

Definition unwanted_suffixes : list string := [" 2025"; " latest"; " report"].

(** The body of the loop for one line that passed the filter. *)
Definition clean_query_line (research_topic line : string) : string :=
  let clean_line :=
    match after_first "." line with
    | Some rest => strip rest
    | None => line
    end in
  let clean_line := strip (strip_char "'" (strip_char "034" clean_line)) in
  let clean_line :=
    if (ends_with " 2024" clean_line && negb (contains "2024" research_topic))%bool
    then strip (slice_to clean_line (-5))
    else clean_line in
  fold_left (fun clean_line suffix => drop_suffix suffix clean_line)
    unwanted_suffixes clean_line.

Fixpoint parse_query_lines (research_topic : string) (lines : list string) : list string :=
  match lines with
  | [] => []
  | line :: rest =>
      let line := strip line in
      if (negb (is_empty line) && negb (String.prefix "#" line)
          && negb (String.prefix "Search query" line))%bool
      then
        let clean_line := clean_query_line research_topic line in
        if negb (is_empty clean_line)
        then clean_line :: parse_query_lines research_topic rest
        else parse_query_lines research_topic rest
      else parse_query_lines research_topic rest
  end.

Definition generate_query_fallback (content research_topic : string)
  (initial_search_query_count : Z) : list string :=
  let lines := split "010" (strip content) in
  let search_queries := parse_query_lines research_topic lines in
  match search_queries with
  | [] => [research_topic]
  | _ :: _ =>
      if (Z.of_nat (List.length search_queries) >? initial_search_query_count)%Z
      then list_slice_to search_queries initial_search_query_count
      else search_queries
  end.

(** ** [create_structured_search_prompt]

    The three templates, with the values that [str.format] puts in place of
    [{search_query}], [{current_date}] and [{sources}]. *)

Definition dq : string := String "034" "".

Definition answer_template (search_query current_date sources : string) : string :=
  "You are a professional research analyst. Please carefully analyze the following search results and answer the user's question.

User Question: " ++
  search_query ++
  "
Current Date: " ++
  current_date ++
  "

Please process the search results according to the following requirements:
1. Carefully read the content of each source
2. Extract key information and data
3. Synthesize and analyze information from multiple sources
4. Write detailed and accurate answers in English
5. Use [1], [2] etc. markers to cite sources when referencing information

Search Results:
" ++
  sources ++
  "

Please provide a detailed answer:".

Definition summary_template (search_query current_date sources : string) : string :=
  "You are a professional information summary expert. Please carefully analyze the following search results and provide a comprehensive summary about " ++
  dq ++
  search_query ++
  dq ++
  ".

Current Date: " ++
  current_date ++
  "
Research Topic: " ++
  search_query ++
  "

Please process the search results according to the following requirements:
1. Carefully read the content of each source
2. Identify key themes and important information
3. Synthesize viewpoints from multiple sources
4. Write structured summary reports in English
5. Use [1], [2] etc. markers to cite sources when referencing information

Search Results:
" ++
  sources ++
  "

Please provide a comprehensive summary:".

Definition analysis_template (search_query current_date sources : string) : string :=
  "You are a professional research analyst. Please carefully analyze the following search results and provide a research summary about " ++
  dq ++
  search_query ++
  dq ++
  ".

Important Note: This is one step in a multi-step research process. You only need to provide a key information summary for this specific query, not a complete standalone report. The final report will be integrated by subsequent steps that combine all research results.

Current Date: " ++
  current_date ++
  "
Research Query: " ++
  search_query ++
  "

Please process the search results according to the following requirements:
1. Carefully read the content of each source
2. Extract key information and data relevant to the query
3. Organize into a concise information summary (300-500 words)
4. Focus on facts, data, and specific cases
5. Use [1], [2] etc. markers to cite sources when referencing information

Search Results:
" ++
  sources ++
  "

Please provide a concise research summary (do not write executive summary, titles, or complete report format):".

(** [sep.join(l)] *)
Fixpoint join (sep : string) (l : list string) : string :=
  match l with
  | [] => ""
  | [x] => x
  | x :: l' => x ++ sep ++ join sep l'
  end.

Definition create_structured_search_prompt (search_query : string)
  (formatted_sources : list string) (current_date instruction_type : string) : string :=
  let prompt_template :=
    if String.eqb instruction_type "answer" then answer_template
    else if String.eqb instruction_type "summary" then summary_template
    else analysis_template in
  prompt_template search_query current_date (join nl formatted_sources).

(** ** The callers: [web_research] in [graph.py] and [research_agent] in
    [simple_graph.py] *)

(** The exception that reaches an [except Exception] handler: raised by the
    code of the repository, or by a service it calls. *)
Inductive Raised : Type :=
| FromCode (e : exn)
| FromService.

(** A text returned to the graph.  [ErrorText before e after] stands for the
    f-string [before + str(e) + after]; the wording of [str(e)] belongs to the
    interpreter and is left uninterpreted. *)
Inductive Message : Type :=
| Plain (text : string)
| ErrorText (before : string) (e : Raised) (after : string).

(** The state update that [web_research] returns. *)
Record WebResearchUpdate : Type := mkWebResearchUpdate {
  sources_gathered : list SourceMeta;
  search_query : list string;
  web_research_result : list Message
}.

(** The state update that [research_agent] returns; [messages] holds the
    content of the one [AIMessage]. *)
Record AgentUpdate : Type := mkAgentUpdate {
  messages : list Message;
  agent_sources_gathered : list SourceMeta
}.

(** [len(v)] *)
Definition py_len (v : PyVal) : result Z :=
  match v with
  | PStr s => Ok (len s)
  | PList l => Ok (Z.of_nat (List.length l))
  | PDict d => Ok (Z.of_nat (List.length d))
  | _ => Raise TypeError
  end.

Definition not_found_text (query : string) : string :=
  "Could not find relevant information about '" ++ query
  ++ "'. Please try using different keywords.".

Definition incomplete_text (query : string) (sources_gathered : list SourceMeta) : string :=
  "Analysis results incomplete. Search for '" ++ query ++ "' found "
  ++ of_nat (List.length sources_gathered) ++ " sources, but analysis encountered issues.".

(** [process_citations_in_response(response.content, sources)] on a value:
    a value that is not a string has no [replace]. *)
Definition cite_response (response_content : PyVal) (sources : list SourceMeta)
  : result string :=
  match response_content with
  | PStr s => Ok (process_citations_in_response s sources)
  | _ => Raise AttributeError
  end.

Section Callers.

(** The services and values the callers obtain from outside: [json.loads],
    the search ([tavily_search.invoke]), the model ([llm.ainvoke], giving
    [response.content]) and [get_current_date()].  [None] stands for a call
    that raised. *)
Variable json_loads : string -> Decoded.
Variable tavily_search : string -> option PyVal.
Variable llm : string -> option PyVal.
Variable current_date : string.

Definition web_research_failed (search_query : string) (e : Raised) : WebResearchUpdate :=
  {| sources_gathered := [];
     search_query := [search_query];
     web_research_result :=
       [ErrorText "Error occurred during search: " e ". Please try again later."] |}.

(** The guard of [web_research] on the shape of the response: a dictionary is
    kept (the length of its [results] is printed), anything else is replaced
    by a response without results. *)
Definition guard_search_results (search_results : PyVal) : result PyVal :=
  match search_results with
  | PDict d =>
      _ <- py_len (dict_get d "results" (PList [])) ;;
      Ok search_results
  | _ => Ok (PDict [("results", PList [])])
  end.

Definition web_research (search_query : string) : WebResearchUpdate :=
  match tavily_search search_query with
  | None => web_research_failed search_query FromService
  | Some search_results =>
      match
        (search_results <- guard_search_results search_results ;;
         process_search_results_for_ai json_loads search_results 5 1500 20)
      with
      | Raise e => web_research_failed search_query (FromCode e)
      | Ok (formatted_sources, sources_gathered) =>
          match formatted_sources with
          | [] =>
              {| sources_gathered := [];
                 search_query := [search_query];
                 web_research_result := [Plain (not_found_text search_query)] |}
          | _ :: _ =>
              let analysis_prompt :=
                create_structured_search_prompt search_query formatted_sources
                  current_date "analysis" in
              match llm analysis_prompt with
              | None => web_research_failed search_query FromService
              | Some response_content =>
                  if negb (validate_ai_response response_content 100)
                  then
                    {| sources_gathered := sources_gathered;
                       search_query := [search_query];
                       web_research_result :=
                         [Plain (incomplete_text search_query sources_gathered)] |}
                  else
                    match cite_response response_content sources_gathered with
                    | Raise e => web_research_failed search_query (FromCode e)
                    | Ok analysis_result =>
                        {| sources_gathered := sources_gathered;
                           search_query := [search_query];
                           web_research_result := [Plain analysis_result] |}
                    end
              end
          end
      end
  end.

Definition research_agent_failed (e : Raised) : AgentUpdate :=
  {| messages := [ErrorText "Error occurred during search: " e ""];
     agent_sources_gathered := [] |}.

(** [research_topic] is [get_research_topic(state["messages"])]. *)
Definition research_agent (research_topic : string) : AgentUpdate :=
  match tavily_search research_topic with
  | None => research_agent_failed FromService
  | Some search_response =>
      match process_search_results_for_ai json_loads search_response 5 1500 20 with
      | Raise e => research_agent_failed (FromCode e)
      | Ok (formatted_sources, sources_gathered) =>
          match formatted_sources with
          | [] =>
              {| messages := [Plain (not_found_text research_topic)];
                 agent_sources_gathered := [] |}
          | _ :: _ =>
              let formatted_prompt :=
                create_structured_search_prompt research_topic formatted_sources
                  current_date "answer" in
              match llm formatted_prompt with
              | None => research_agent_failed FromService
              | Some response_content =>
                  if negb (validate_ai_response response_content 50)
                  then
                    {| messages := [Plain (incomplete_text research_topic sources_gathered)];
                       agent_sources_gathered := sources_gathered |}
                  else
                    match cite_response response_content sources_gathered with
                    | Raise e => research_agent_failed (FromCode e)
                    | Ok analysis_result =>
                        {| messages := [Plain analysis_result];
                           agent_sources_gathered := sources_gathered |}
                    end
              end
          end
      end
  end.

End Callers.

(** The sources that a caller may return: at most five records, marked
    "[1]", "[2]", ... in order, each content of 20 to 1503 characters. *)
Definition bounded_sources (sources : list SourceMeta) : Prop :=
  List.length sources <= 5 /\
  map (dict_lookup "short_url") sources
  = map (fun k => Some (marker k)) (seq 1 (List.length sources)) /\
  Forall (fun r => exists content,
            dict_lookup "content" r = Some content /\
            (20 <= len content <= 1503)%Z) sources.

(** * Properties *)

(** ** Strings *)

Section StringFacts.

Lemma str_length_app (s1 s2 : string) :
  String.length (s1 ++ s2) = String.length s1 + String.length s2.
Proof.
  induction s1 as [|c s1 IH]; simpl; [reflexivity | now rewrite IH].
Qed.

Lemma str_app_assoc (a b c : string) : (a ++ b) ++ c = a ++ b ++ c.
Proof. induction a as [|x a IH]; simpl; [reflexivity | now rewrite IH]. Qed.

Lemma str_app_nil_r (a : string) : a ++ "" = a.
Proof. induction a as [|x a IH]; simpl; [reflexivity | now rewrite IH]. Qed.

Lemma length_substring_0 (n : nat) : forall s : string,
  String.length (String.substring 0 n s) = Nat.min n (String.length s).
Proof.
  induction n as [|n IH]; intros [|c s]; simpl; try reflexivity.
  now rewrite IH.
Qed.

Lemma len_app (s1 s2 : string) : len (s1 ++ s2) = (len s1 + len s2)%Z.
Proof. unfold len. rewrite str_length_app. lia. Qed.

Lemma len_slice_to (s : string) (stop : Z) :
  (0 <= stop <= len s)%Z -> len (slice_to s stop) = stop.
Proof.
  intros H. unfold slice_to.
  destruct (Z.ltb_spec stop 0) as [Hneg|_]; [lia|].
  unfold len in *. rewrite length_substring_0. lia.
Qed.

(** The truncation step keeps a short content and cuts a long one to
    [max_content_length] characters followed by the three-character marker. *)
Lemma truncate_short (c : string) (maxl : Z) :
  (len c <= maxl)%Z -> truncate c maxl = c.
Proof.
  intros H. unfold truncate.
  destruct (Z.gtb_spec (len c) maxl) as [Hgt|_]; [lia | reflexivity].
Qed.

Lemma truncate_long (c : string) (maxl : Z) :
  (maxl < len c)%Z -> truncate c maxl = slice_to c maxl ++ "...".
Proof.
  intros H. unfold truncate.
  destruct (Z.gtb_spec (len c) maxl) as [_|Hle]; [reflexivity | lia].
Qed.

Lemma len_truncate (c : string) (maxl : Z) :
  (0 <= maxl)%Z ->
  len (truncate c maxl) = if (len c >? maxl)%Z then (maxl + 3)%Z else len c.
Proof.
  intros H0. unfold truncate.
  destruct (Z.gtb_spec (len c) maxl) as [Hgt|Hle]; [|reflexivity].
  rewrite len_app, len_slice_to by lia. reflexivity.
Qed.

(** A negative bound counts from the end, as a Python slice does. *)
Lemma truncate_negative_bound : truncate "abcdefgh" (-1) = "abcdefg...".
Proof. reflexivity. Qed.

Lemma of_nat_inj (n m : nat) : of_nat n = of_nat m -> n = m.
Proof.
  unfold of_nat. intros H.
  apply Unsigned.to_uint_inj.
  assert (Hs : Some (Nat.to_uint n) = Some (Nat.to_uint m))
    by (rewrite <- !NilEmpty.usu; now rewrite H).
  now inversion Hs.
Qed.

Lemma marker_inj (n m : nat) :
  "[" ++ of_nat n ++ "]" = "[" ++ of_nat m ++ "]" -> n = m.
Proof.
  simpl. intros H. inversion H as [H'].
  apply of_nat_inj.
  revert H'. generalize (of_nat n) (of_nat m).
  induction s as [|a s IH]; intros [|b t] E; simpl in E; try reflexivity.
  - destruct t; discriminate.
  - destruct s; discriminate.
  - inversion E; subst. f_equal. now apply IH.
Qed.

Lemma rstrip_head (c : ascii) (s : string) :
  is_space c = false -> rstrip (String c s) = String c (rstrip s).
Proof.
  intros H. simpl. rewrite H. now rewrite andb_false_r.
Qed.

Lemma strip_head (c : ascii) (s : string) :
  is_space c = false -> strip (String c s) = String c (rstrip s).
Proof.
  intros H. unfold strip. simpl lstrip. rewrite H. now apply rstrip_head.
Qed.

Lemma rstrip_app (a b : string) :
  rstrip b <> "" -> rstrip (a ++ b) = a ++ rstrip b.
Proof.
  intros Hb. induction a as [|c a IH]; simpl; [reflexivity|].
  rewrite IH. destruct (a ++ rstrip b) eqn:E; [|reflexivity].
  destruct a; simpl in E; [contradiction | discriminate].
Qed.

Lemma rstrip_digits (d : Decimal.uint) :
  rstrip (NilEmpty.string_of_uint d) = NilEmpty.string_of_uint d.
Proof.
  induction d; simpl; try reflexivity; rewrite IHd;
    now rewrite andb_false_r.
Qed.

Lemma of_nat_nonempty (n : nat) : of_nat n <> "".
Proof.
  unfold of_nat. intros H.
  assert (Hn : Nat.to_uint n <> Decimal.Nil).
  { rewrite <- (Unsigned.of_to n), Unsigned.to_of. apply DecimalFacts.unorm_nonnil. }
  destruct (Nat.to_uint n); simpl in H; try discriminate. now apply Hn.
Qed.

Lemma rstrip_of_nat (n : nat) : rstrip (of_nat n) = of_nat n.
Proof. apply rstrip_digits. Qed.

End StringFacts.

(** ** The loop of [process_search_results_for_ai] *)

(** Unfolding of one iteration on a dictionary whose three fields are
    strings. *)
Lemma process_loop_dict (mr maxl minl : Z) d rest cnt fs sg :
  process_loop mr maxl minl (PDict d :: rest) cnt fs sg =
  if (Z.of_nat cnt >=? mr)%Z then Ok (fs, sg)
  else
    title <- call_strip (dict_get d "title" (PStr (placeholder_title (cnt + 1)))) ;;
    url <- call_strip (dict_get d "url" (PStr "")) ;;
    raw_content <- call_strip (dict_get d "content" (PStr "")) ;;
    let clean_content := validate_and_clean_content (PStr raw_content) in
    if (len clean_content <? minl)%Z
    then process_loop mr maxl minl rest cnt fs sg
    else
      let clean_content := truncate clean_content maxl in
      process_loop mr maxl minl rest (cnt + 1)
        (fs ++ [format_source (cnt + 1) title url clean_content])
        (sg ++ [source_meta title url clean_content (marker (cnt + 1))]).
Proof. reflexivity. Qed.

Lemma process_loop_other (mr maxl minl : Z) v rest cnt fs sg :
  (forall d, v <> PDict d) ->
  process_loop mr maxl minl (v :: rest) cnt fs sg =
  if (Z.of_nat cnt >=? mr)%Z then Ok (fs, sg)
  else process_loop mr maxl minl rest cnt fs sg.
Proof.
  intros H. destruct v; try reflexivity. now destruct (H d).
Qed.

(** A rule for the loop in the style of a Hoare rule: a property of the loop
    state that every accepting iteration preserves holds of the final
    state. *)
Section LoopRule.

Variables mr maxl minl : Z.
Variable raw0 : list PyVal.
Variable Inv : nat -> list string -> list SourceMeta -> Prop.

Hypothesis accept_step :
  forall d cnt fs sg title url raw_content,
    In (PDict d) raw0 ->
    Inv cnt fs sg ->
    (Z.of_nat cnt < mr)%Z ->
    call_strip (dict_get d "title" (PStr (placeholder_title (cnt + 1)))) = Ok title ->
    call_strip (dict_get d "url" (PStr "")) = Ok url ->
    call_strip (dict_get d "content" (PStr "")) = Ok raw_content ->
    (minl <= len (validate_and_clean_content (PStr raw_content)))%Z ->
    Inv (cnt + 1)
      (fs ++ [format_source (cnt + 1) title url
                (truncate (validate_and_clean_content (PStr raw_content)) maxl)])
      (sg ++ [source_meta title url
                (truncate (validate_and_clean_content (PStr raw_content)) maxl)
                (marker (cnt + 1))]).

Lemma process_loop_rule : forall raw cnt fs sg fs' sg',
  incl raw raw0 ->
  Inv cnt fs sg ->
  process_loop mr maxl minl raw cnt fs sg = Ok (fs', sg') ->
  exists cnt', Inv cnt' fs' sg'.
Proof.
  induction raw as [|v rest IH]; intros cnt fs sg fs' sg' Hincl HI Hrun.
  - simpl in Hrun. inversion Hrun; subst. now exists cnt.
  - assert (Hrest : incl rest raw0) by (intros x Hx; apply Hincl; now right).
    assert (Hv : In v raw0) by (apply Hincl; now left).
    destruct v as [| b | z | s | l | d];
      try (rewrite process_loop_other in Hrun by discriminate;
           destruct (Z.of_nat cnt >=? mr)%Z;
           [inversion Hrun; subst; now exists cnt | now apply (IH cnt fs sg)]).
    rewrite process_loop_dict in Hrun.
    destruct (Z.geb_spec (Z.of_nat cnt) mr) as [Hge|Hlt].
    { inversion Hrun; subst. now exists cnt. }
    destruct (call_strip (dict_get d "title" _)) as [title|] eqn:Et; [|discriminate].
    destruct (call_strip (dict_get d "url" _)) as [url|] eqn:Eu; [|discriminate].
    destruct (call_strip (dict_get d "content" _)) as [raw_content|] eqn:Ec; [|discriminate].
    cbn [bind] in Hrun. cbv zeta in Hrun.
    destruct (Z.ltb_spec (len (validate_and_clean_content (PStr raw_content))) minl)
      as [Hshort|Hlong].
    + now apply (IH cnt fs sg).
    + eapply IH; [exact Hrest| |exact Hrun].
      now apply accept_step with (d := d).
Qed.

End LoopRule.

Section ProcessFacts.

Variable json_loads : string -> Decoded.

Lemma process_unfold resp mr maxl minl out :
  process_search_results_for_ai json_loads resp mr maxl minl = Ok out ->
  exists raw,
    raw_results_of json_loads resp = Ok raw /\
    process_loop mr maxl minl raw 0 [] [] = Ok out.
Proof.
  unfold process_search_results_for_ai, raw_results_of.
  destruct (extract_tavily_results json_loads resp) as [v|e]; [|discriminate].
  cbn [bind]. destruct (py_iter v) as [raw|e]; [|discriminate].
  intros H. now exists raw.
Qed.

End ProcessFacts.

(** The placeholder title survives [strip] unchanged. *)
Lemma strip_placeholder_title (rank : nat) :
  strip (placeholder_title rank) = placeholder_title rank.
Proof.
  unfold placeholder_title.
  change ("Search Result " ++ of_nat rank)
    with (String "S" ("earch Result " ++ of_nat rank)).
  rewrite strip_head by reflexivity.
  rewrite rstrip_app; rewrite rstrip_of_nat; [reflexivity | apply of_nat_nonempty].
Qed.

(** ** What a returned record is made of *)

Lemma process_loop_records (mr maxl minl : Z) (raw : list PyVal) fs recs :
  process_loop mr maxl minl raw 0 [] [] = Ok (fs, recs) ->
  exists cnt, records_inv raw mr maxl minl cnt fs recs.
Proof.
  intros Hrun.
  apply (process_loop_rule mr maxl minl raw (records_inv raw mr maxl minl))
    with (raw := raw) (cnt := 0) (fs := []) (sg := []); try assumption.
  - intros d cnt fs0 sg title url raw_content Hin (Hlen & Hfs & Hcap & Hprod) Hlt Et Eu Ec Hmin.
    repeat split.
    + rewrite List.length_app. simpl. lia.
    + rewrite List.length_app. simpl. lia.
    + right. lia.
    + intros i r Hi.
      destruct (Nat.lt_ge_cases i (List.length sg)) as [Hlt'|Hge].
      * rewrite nth_error_app1 in Hi by assumption. now apply Hprod.
      * rewrite nth_error_app2 in Hi by assumption.
        destruct (i - List.length sg) as [|k] eqn:Ek.
        -- simpl in Hi. inversion Hi; subst r.
           assert (i = cnt) by lia. subst i.
           exists d, title, url, raw_content. now repeat split.
        -- simpl in Hi. destruct k; discriminate.
  - apply incl_refl.
  - repeat split; try reflexivity.
    + now left.
    + intros i r Hi. destruct i; discriminate.
Qed.

Lemma subseq_nil_l {A : Type} (l : list A) : subseq [] l.
Proof. induction l; constructor; assumption. Qed.

(** The records that a run of the loop adds are built, one each and in
    order, from dictionaries taken from the raw results in their order. *)
Lemma process_loop_picked (mr maxl minl : Z) : forall raw cnt fs sg fs' sg',
  process_loop mr maxl minl raw cnt fs sg = Ok (fs', sg') ->
  exists picked news,
    subseq (map PDict picked) raw /\
    sg' = (sg ++ news)%list /\
    List.length picked = List.length news /\
    forall i d r, nth_error picked i = Some d -> nth_error news i = Some r ->
      built_from maxl minl (cnt + i + 1) d r.
Proof.
  assert (Hstop : forall raw (sg : list SourceMeta),
    exists picked news : list _,
      subseq (map PDict picked) raw /\ sg = (sg ++ news)%list /\
      List.length picked = List.length news /\
      forall i d r, nth_error picked i = Some d -> nth_error news i = Some r ->
        forall cnt, built_from maxl minl (cnt + i + 1) d r).
  { intros raw sg. exists [], []. repeat split.
    - apply subseq_nil_l.
    - now rewrite app_nil_r.
    - intros i d r Hd. destruct i; discriminate. }
  induction raw as [|v rest IH]; intros cnt fs sg fs' sg' Hrun.
  - simpl in Hrun. inversion Hrun; subst.
    destruct (Hstop [] sg') as (picked & news & H1 & H2 & H3 & H4).
    exists picked, news. repeat split; try assumption. intros. now apply H4.
  - assert (Hskip : process_loop mr maxl minl rest cnt fs sg = Ok (fs', sg') ->
              exists picked news,
                subseq (map PDict picked) (v :: rest) /\
                sg' = (sg ++ news)%list /\
                List.length picked = List.length news /\
                forall i d r, nth_error picked i = Some d -> nth_error news i = Some r ->
                  built_from maxl minl (cnt + i + 1) d r).
    { intros H. destruct (IH _ _ _ _ _ H) as (picked & news & H1 & H2 & H3 & H4).
      exists picked, news. repeat split; try assumption. now apply subseq_skip. }
    assert (Hend : Ok (fs, sg) = Ok (fs', sg') ->
              exists picked news,
                subseq (map PDict picked) (v :: rest) /\
                sg' = (sg ++ news)%list /\
                List.length picked = List.length news /\
                forall i d r, nth_error picked i = Some d -> nth_error news i = Some r ->
                  built_from maxl minl (cnt + i + 1) d r).
    { intros H. inversion H; subst.
      destruct (Hstop (v :: rest) sg') as (picked & news & H1 & H2 & H3 & H4).
      exists picked, news. repeat split; try assumption. intros. now apply H4. }
    destruct v as [| b | z | s | l | d];
      try (rewrite process_loop_other in Hrun by discriminate;
           destruct (Z.of_nat cnt >=? mr)%Z; [now apply Hend | now apply Hskip]).
    rewrite process_loop_dict in Hrun.
    destruct (Z.of_nat cnt >=? mr)%Z; [now apply Hend|].
    destruct (call_strip (dict_get d "title" _)) as [title|] eqn:Et; [|discriminate].
    destruct (call_strip (dict_get d "url" _)) as [url|] eqn:Eu; [|discriminate].
    destruct (call_strip (dict_get d "content" _)) as [raw_content|] eqn:Ec; [|discriminate].
    cbn [bind] in Hrun. cbv zeta in Hrun.
    destruct (Z.ltb_spec (len (validate_and_clean_content (PStr raw_content))) minl)
      as [Hshort|Hlong]; [now apply Hskip|].
    destruct (IH _ _ _ _ _ Hrun) as (picked & news & H1 & H2 & H3 & H4).
    exists (d :: picked),
      (source_meta title url
         (truncate (validate_and_clean_content (PStr raw_content)) maxl)
         (marker (cnt + 1)) :: news).
    repeat split.
    + simpl. now apply subseq_take.
    + rewrite H2. now rewrite <- app_assoc.
    + simpl. now rewrite H3.
    + intros i d' r Hd Hr. destruct i as [|i]; simpl in Hd, Hr.
      * inversion Hd; inversion Hr; subst.
        replace (cnt + 0 + 1) with (cnt + 1) by lia.
        exists title, url, raw_content. now repeat split.
      * replace (cnt + S i + 1) with (cnt + 1 + i + 1) by lia. now apply (H4 i).
Qed.

Section RecordFacts.

Variable json_loads : string -> Decoded.

(** Every record of a successful call is [produced] at its rank. *)
Lemma process_records resp mr maxl minl fs recs :
  process_search_results_for_ai json_loads resp mr maxl minl = Ok (fs, recs) ->
  exists raw,
    raw_results_of json_loads resp = Ok raw /\
    List.length fs = List.length recs /\
    (recs = [] \/ (Z.of_nat (List.length recs) <= mr)%Z) /\
    forall i r, nth_error recs i = Some r -> produced raw maxl minl (i + 1) r.
Proof.
  intros Hrun. apply process_unfold in Hrun. destruct Hrun as (raw & Hraw & Hloop).
  exists raw. split; [assumption|].
  destruct (process_loop_records _ _ _ _ _ _ Hloop) as (cnt & Hlen & Hfs & Hcap & Hprod).
  repeat split; try assumption.
  - congruence.
  - destruct Hcap as [H0|Hle]; [left | right; lia].
    subst cnt. now destruct recs.
Qed.

End RecordFacts.

Lemma map_by_rank {A B : Type} (f : A -> B) (g : nat -> B) (l : list A) :
  forall start,
    (forall i r, nth_error l i = Some r -> f r = g (start + i)) ->
    map f l = map g (seq start (List.length l)).
Proof.
  induction l as [|x l IH]; intros start H; simpl; [reflexivity|].
  f_equal.
  - rewrite (H 0 x eq_refl). f_equal. lia.
  - apply IH. intros i r Hi. rewrite (H (S i) r Hi). f_equal. lia.
Qed.

Lemma NoDup_map_injective {A B : Type} (f : A -> B) (l : list A) :
  (forall x y, f x = f y -> x = y) -> NoDup l -> NoDup (map f l).
Proof.
  intros Hinj. induction 1 as [|x l Hx Hl IH]; simpl; constructor; [|assumption].
  intros Hin. apply in_map_iff in Hin. destruct Hin as (y & Hy & Hyl).
  apply Hinj in Hy. now subst y.
Qed.

Lemma Forall_by_rank {A : Type} (P : A -> Prop) (l : list A) :
  (forall i r, nth_error l i = Some r -> P r) -> Forall P l.
Proof.
  intros H. apply Forall_forall. intros x Hx.
  destruct (In_nth_error _ _ Hx) as [i Hi]. now apply (H i).
Qed.

(** Once the cap is reached, whatever follows in the raw results is not
    looked at. *)
Lemma process_loop_stop (mr maxl minl : Z) (rest : list PyVal) :
  forall pre cnt fs sg fs' sg',
    List.length sg = cnt ->
    process_loop mr maxl minl pre cnt fs sg = Ok (fs', sg') ->
    (mr <= Z.of_nat (List.length sg'))%Z ->
    process_loop mr maxl minl (pre ++ rest) cnt fs sg = Ok (fs', sg').
Proof.
  induction pre as [|v pre IH]; intros cnt fs sg fs' sg' Hlen Hrun Hcap.
  - simpl in Hrun. inversion Hrun; subst fs' sg'. simpl.
    destruct rest as [|w rest']; [reflexivity|]. simpl.
    destruct (Z.geb_spec (Z.of_nat cnt) mr) as [_|Hlt]; [reflexivity | lia].
  - change ((v :: pre) ++ rest)%list with (v :: (pre ++ rest))%list.
    destruct v as [| b | z | s | l | d];
      try (rewrite process_loop_other in Hrun |- * by discriminate;
           destruct (Z.of_nat cnt >=? mr)%Z; [assumption | now apply IH]).
    rewrite process_loop_dict in Hrun |- *.
    destruct (Z.of_nat cnt >=? mr)%Z; [assumption|].
    destruct (call_strip (dict_get d "title" _)) as [title|]; [|discriminate].
    destruct (call_strip (dict_get d "url" _)) as [url|]; [|discriminate].
    destruct (call_strip (dict_get d "content" _)) as [raw_content|]; [|discriminate].
    cbn [bind] in Hrun |- *. cbv zeta in Hrun |- *.
    destruct (len (validate_and_clean_content (PStr raw_content)) <? minl)%Z.
    + now apply IH.
    + apply IH; try assumption. rewrite List.length_app. simpl. lia.
Qed.

Lemma sample_run :
  process_search_results_for_ai no_json sample_response 5 20 10
  = Ok (sample_formatted, sample_records).
Proof. vm_compute. reflexivity. Qed.

Lemma sample_records_eq :
  sample_records =
  [ source_meta "A" "http://x.com/a" "The quick brown fox ..." "[1]";
    source_meta "Search Result 2" "" "Plain facts here." "[2]" ].
Proof. reflexivity. Qed.

(** ** Claims about [process_search_results_for_ai] *)

Section ProcessorClaims.

Variable json_loads : string -> Decoded.

(** C1, as amended.  For [min_content_length <= max_content_length] and a
    non-negative [max_content_length], every record returned by
    [process_search_results_for_ai] carries the sanitized content of one raw
    result whose sanitized length is at least [min_content_length]: kept whole
    when that length is at most [max_content_length], otherwise cut to its
    first [max_content_length] characters followed by the three-character
    marker "...".  The content length is therefore at least
    [min_content_length] and at most [max_content_length + 3], and a raw
    result whose sanitized content is shorter than [min_content_length] is
    behind no record. *)
Theorem C1_content_length_bounds resp mr maxl minl fs recs :
  (minl <= maxl)%Z ->
  (0 <= maxl)%Z ->
  process_search_results_for_ai json_loads resp mr maxl minl = Ok (fs, recs) ->
  exists raw,
    raw_results_of json_loads resp = Ok raw /\
    Forall (fun r =>
      exists d raw_content clean,
        In (PDict d) raw /\
        call_strip (dict_get d "content" (PStr "")) = Ok raw_content /\
        clean = validate_and_clean_content (PStr raw_content) /\
        (minl <= len clean)%Z /\
        dict_lookup "content" r = Some (truncate clean maxl) /\
        (minl <= len (truncate clean maxl) <= maxl + 3)%Z /\
        ((len clean <= maxl)%Z -> truncate clean maxl = clean) /\
        ((maxl < len clean)%Z ->
           truncate clean maxl = slice_to clean maxl ++ "..." /\
           len (slice_to clean maxl) = maxl)) recs.
Proof.
  intros Hmm Hmax Hrun.
  destruct (process_records json_loads _ _ _ _ _ _ Hrun) as (raw & Hraw & _ & _ & Hprod).
  exists raw. split; [assumption|].
  apply Forall_by_rank. intros i r Hi.
  destruct (Hprod i r Hi) as (d & title & url & raw_content & Hin & _ & _ & Ec & Hmin & ->).
  exists d, raw_content, (validate_and_clean_content (PStr raw_content)).
  repeat split; try assumption.
  - rewrite len_truncate by assumption.
    destruct (Z.gtb_spec (len (validate_and_clean_content (PStr raw_content))) maxl); lia.
  - rewrite len_truncate by assumption.
    destruct (Z.gtb_spec (len (validate_and_clean_content (PStr raw_content))) maxl); lia.
  - apply truncate_short.
  - now apply truncate_long.
  - apply len_slice_to. lia.
Qed.

(** C2.  The [short_url] fields of the records returned by one call are
    exactly "[1]", "[2]", ..., "[k]" for the [k] records returned, in order,
    and no two of them are equal. *)
Theorem C2_markers_dense resp mr maxl minl fs recs :
  process_search_results_for_ai json_loads resp mr maxl minl = Ok (fs, recs) ->
  map (dict_lookup "short_url") recs
  = map (fun k => Some (marker k)) (seq 1 (List.length recs)) /\
  NoDup (map (dict_lookup "short_url") recs).
Proof.
  intros Hrun.
  destruct (process_records json_loads _ _ _ _ _ _ Hrun) as (raw & _ & _ & _ & Hprod).
  assert (Hmap : map (dict_lookup "short_url") recs
                 = map (fun k => Some (marker k)) (seq 1 (List.length recs))).
  { apply map_by_rank. intros i r Hi.
    destruct (Hprod i r Hi) as (d & title & url & raw_content & _ & _ & _ & _ & _ & ->).
    simpl. do 2 f_equal. lia. }
  split; [assumption|].
  rewrite Hmap. apply NoDup_map_injective; [|apply seq_NoDup].
  intros n m H. apply marker_inj. unfold marker in H. congruence.
Qed.

(** C3.  For a non-negative [max_results], a call returns at most
    [max_results] records; and when the raw results split into a part on
    which the loop already returns [max_results] records and a remainder, the
    call returns exactly those records whatever the remainder holds: the
    remainder is not examined. *)
Theorem C3_max_results_cap mr maxl minl :
  (0 <= mr)%Z ->
  (forall resp fs recs,
      process_search_results_for_ai json_loads resp mr maxl minl = Ok (fs, recs) ->
      (Z.of_nat (List.length recs) <= mr)%Z) /\
  (forall resp pre rest fs recs,
      raw_results_of json_loads resp = Ok (pre ++ rest)%list ->
      process_loop mr maxl minl pre 0 [] [] = Ok (fs, recs) ->
      Z.of_nat (List.length recs) = mr ->
      process_search_results_for_ai json_loads resp mr maxl minl = Ok (fs, recs)).
Proof.
  intros Hmr. split.
  - intros resp fs recs Hrun.
    destruct (process_records json_loads _ _ _ _ _ _ Hrun) as (raw & _ & _ & Hcap & _).
    destruct Hcap as [->|Hle]; [simpl; lia | assumption].
  - intros resp pre rest fs recs Hraw Hpre Hfull.
    unfold process_search_results_for_ai. unfold raw_results_of in Hraw.
    destruct (extract_tavily_results json_loads resp) as [v|e]; [|discriminate].
    cbn [bind] in *. rewrite Hraw. cbn [bind].
    apply process_loop_stop; [reflexivity | assumption | lia].
Qed.

(** C5, as amended.  The records of a call are built, one each and in
    order, from raw results taken in their order; the url and the content of
    a record are those of the raw result it is built from, and its title is
    that raw result's own title with surrounding whitespace stripped when the
    raw result has a [title] key, and the placeholder "Search Result N", N
    being the record's rank among the accepted results, when it has none.  The
    placeholder is never empty; a supplied title gives a record with an empty
    title exactly when it is empty or all whitespace. *)
Theorem C5_title_origin resp mr maxl minl fs recs :
  process_search_results_for_ai json_loads resp mr maxl minl = Ok (fs, recs) ->
  exists raw picked,
    raw_results_of json_loads resp = Ok raw /\
    subseq (map PDict picked) raw /\
    List.length picked = List.length recs /\
    forall i r, nth_error recs i = Some r ->
      exists d url raw_content,
        nth_error picked i = Some d /\
        call_strip (dict_get d "url" (PStr "")) = Ok url /\
        call_strip (dict_get d "content" (PStr "")) = Ok raw_content /\
        (minl <= len (validate_and_clean_content (PStr raw_content)))%Z /\
        dict_lookup "url" r = Some url /\
        dict_lookup "content" r
        = Some (truncate (validate_and_clean_content (PStr raw_content)) maxl) /\
        ((dict_lookup "title" d = None /\
          dict_lookup "title" r = Some (placeholder_title (i + 1)) /\
          placeholder_title (i + 1) <> "") \/
         (exists t, dict_lookup "title" d = Some (PStr t) /\
                    dict_lookup "title" r = Some (strip t) /\
                    (dict_lookup "title" r = Some "" <-> strip t = ""))).
Proof.
  intros Hrun.
  apply process_unfold in Hrun. destruct Hrun as (raw & Hraw & Hloop).
  destruct (process_loop_picked _ _ _ _ _ _ _ _ _ Hloop)
    as (picked & news & Hsub & Hrecs & Hlen & Hbuilt).
  simpl in Hrecs. subst news.
  exists raw, picked. repeat split; try assumption.
  intros i r Hi.
  destruct (nth_error picked i) as [d|] eqn:Hd.
  2:{ apply nth_error_None in Hd.
      assert (i < List.length recs) by (apply nth_error_Some; congruence). lia. }
  destruct (Hbuilt i d r Hd Hi) as (title & url & raw_content & Et & Eu & Ec & Hmin & ->).
  exists d, url, raw_content. repeat split; try assumption.
  unfold dict_get in Et.
  destruct (dict_lookup "title" d) as [v|] eqn:Ev.
  - right. destruct v; try discriminate. simpl in Et. inversion Et; subst.
    exists s. repeat split.
    + simpl. intros H. now inversion H.
    + simpl. intros H. now rewrite H.
  - left. simpl in Et. inversion Et; subst.
    rewrite strip_placeholder_title. repeat split. discriminate.
Qed.

(** C10.  The record of rank [i + 1] has [value] equal to [url], [label]
    equal to [title] and [short_url] equal to the marker "[i + 1]"; so the
    url that [finalize_answer] renders, with [value] as its fallback, is the
    record's [url] and equals its [value]. *)
Theorem C10_metadata_fields resp mr maxl minl fs recs :
  process_search_results_for_ai json_loads resp mr maxl minl = Ok (fs, recs) ->
  forall i r, nth_error recs i = Some r ->
    exists title url,
      dict_lookup "title" r = Some title /\
      dict_lookup "label" r = Some title /\
      dict_lookup "url" r = Some url /\
      dict_lookup "value" r = Some url /\
      dict_lookup "short_url" r = Some (marker (i + 1)) /\
      dict_get r "url" (dict_get r "value" "") = url /\
      dict_get r "value" "" = url.
Proof.
  intros Hrun i r Hi.
  destruct (process_records json_loads _ _ _ _ _ _ Hrun) as (raw & _ & _ & _ & Hprod).
  destruct (Hprod i r Hi) as (d & title & url & raw_content & _ & _ & _ & _ & _ & ->).
  exists title, url. repeat split.
Qed.

End ProcessorClaims.

(** C1 as stated fails: with [max_content_length = 10] a content of 60
    characters is returned as 13 characters, the 10 kept and the marker. *)
Lemma C1_counterexample :
  exists fs r c,
    process_search_results_for_ai no_json
      (PDict [("results", PList [PDict [("content", PStr long_text)]])]) 5 10 5
    = Ok (fs, [r]) /\
    dict_lookup "content" r = Some c /\
    (5 <= 10)%Z /\
    ~ (len c <= 10)%Z.
Proof.
  eexists. eexists. eexists. split; [vm_compute; reflexivity|].
  split; [reflexivity|]. split; [lia|]. vm_compute. intros H. now apply H.
Qed.

Lemma C1_witness :
  exists raw,
    raw_results_of no_json sample_response = Ok raw /\
    Forall (fun r =>
      exists d raw_content clean,
        In (PDict d) raw /\
        call_strip (dict_get d "content" (PStr "")) = Ok raw_content /\
        clean = validate_and_clean_content (PStr raw_content) /\
        (10 <= len clean)%Z /\
        dict_lookup "content" r = Some (truncate clean 20) /\
        (10 <= len (truncate clean 20) <= 20 + 3)%Z /\
        ((len clean <= 20)%Z -> truncate clean 20 = clean) /\
        ((20 < len clean)%Z ->
           truncate clean 20 = slice_to clean 20 ++ "..." /\
           len (slice_to clean 20) = 20%Z)) sample_records.
Proof.
  apply (C1_content_length_bounds no_json sample_response 5 20 10
           sample_formatted sample_records).
  - lia.
  - lia.
  - vm_compute. reflexivity.
Defined.

Lemma C2_witness :
  map (dict_lookup "short_url") sample_records
  = map (fun k => Some (marker k)) (seq 1 (List.length sample_records)) /\
  NoDup (map (dict_lookup "short_url") sample_records).
Proof.
  apply (C2_markers_dense no_json sample_response 5 20 10 sample_formatted sample_records).
  vm_compute. reflexivity.
Defined.

Lemma C3_witness :
  (Z.of_nat (List.length sample_records) <= 5)%Z /\
  process_search_results_for_ai no_json
    (PList [PDict [("content", PStr long_text)]; untitled_result]) 1 20 10
  = Ok (["=== Source 1 ===" ++ nl ++ "Title: Search Result 1" ++ nl ++ "URL: " ++ nl ++
         "Content: The quick brown fox ..." ++ nl ++ "=================="],
        [source_meta "Search Result 1" "" "The quick brown fox ..." "[1]"]).
Proof.
  split.
  - apply (proj1 (C3_max_results_cap no_json 5 20 10 ltac:(lia))
             sample_response sample_formatted sample_records).
    vm_compute. reflexivity.
  - apply (proj2 (C3_max_results_cap no_json 1 20 10 ltac:(lia))
             _ [PDict [("content", PStr long_text)]] [untitled_result]).
    + reflexivity.
    + vm_compute. reflexivity.
    + reflexivity.
Defined.

(** C4 fails on the code: a result whose [title] is [None] makes
    [process_search_results_for_ai] raise [AttributeError], because [strip] is
    called on the field before [validate_and_clean_content] or any other
    check sees it. *)
Theorem C4_mistyped_field_raises (json_loads : string -> Decoded) :
  process_search_results_for_ai json_loads
    (PDict [("results", PList [untitled_result])]) 5 1500 20
  = Raise AttributeError.
Proof. reflexivity. Qed.

(** The same call raises [TypeError] when [results] is not iterable. *)
Lemma results_not_iterable_raises (json_loads : string -> Decoded) :
  process_search_results_for_ai json_loads (PDict [("results", PNone)]) 5 1500 20
  = Raise TypeError.
Proof. reflexivity. Qed.

(** [extract_tavily_results] catches [json.JSONDecodeError] only: any other
    exception of the decoder on a text response leaves it. *)
Lemma decoder_exception_not_caught (json_loads : string -> Decoded)
  (s : string) (e : exn) :
  json_loads s = DecodeRaises e ->
  extract_tavily_results json_loads (PStr s) = Raise e.
Proof. intros H. unfold extract_tavily_results. now rewrite H. Qed.

(** [validate_and_clean_content] and [validate_ai_response] answer with a
    default on a value that is not a string or is empty. *)
Lemma sanitizer_defaults :
  validate_and_clean_content PNone = "" /\
  validate_and_clean_content (PInt 3) = "" /\
  validate_and_clean_content (PStr "") = "" /\
  validate_ai_response PNone 100 = false /\
  validate_ai_response (PStr "") 1 = false /\
  validate_ai_response (PStr "Error: no answer could be produced") 5 = false.
Proof. repeat split. Qed.

(** C5 as stated fails: a raw result that supplies an empty title gives a
    record with an empty title. *)
Lemma C5_counterexample :
  exists fs r,
    process_search_results_for_ai no_json
      (PDict [("results",
               PList [PDict [("title", PStr ""); ("url", PStr "http://x.com/a");
                             ("content", PStr long_text)]])]) 5 1500 20
    = Ok (fs, [r]) /\
    dict_lookup "title" r = Some "".
Proof.
  eexists. eexists. split; [vm_compute; reflexivity | reflexivity].
Qed.

Lemma C5_witness :
  exists raw picked,
    raw_results_of no_json sample_response = Ok raw /\
    subseq (map PDict picked) raw /\
    List.length picked = List.length sample_records /\
    forall i r, nth_error sample_records i = Some r ->
      exists d url raw_content,
        nth_error picked i = Some d /\
        call_strip (dict_get d "url" (PStr "")) = Ok url /\
        call_strip (dict_get d "content" (PStr "")) = Ok raw_content /\
        (10 <= len (validate_and_clean_content (PStr raw_content)))%Z /\
        dict_lookup "url" r = Some url /\
        dict_lookup "content" r
        = Some (truncate (validate_and_clean_content (PStr raw_content)) 20) /\
        ((dict_lookup "title" d = None /\
          dict_lookup "title" r = Some (placeholder_title (i + 1)) /\
          placeholder_title (i + 1) <> "") \/
         (exists t, dict_lookup "title" d = Some (PStr t) /\
                    dict_lookup "title" r = Some (strip t) /\
                    (dict_lookup "title" r = Some "" <-> strip t = ""))).
Proof.
  apply (C5_title_origin no_json sample_response 5 20 10 sample_formatted sample_records).
  vm_compute. reflexivity.
Defined.

Lemma C10_witness :
  exists title url,
    dict_lookup "title" (source_meta "Search Result 2" "" "Plain facts here." "[2]")
      = Some title /\
    dict_lookup "label" (source_meta "Search Result 2" "" "Plain facts here." "[2]")
      = Some title /\
    dict_lookup "url" (source_meta "Search Result 2" "" "Plain facts here." "[2]")
      = Some url /\
    dict_lookup "value" (source_meta "Search Result 2" "" "Plain facts here." "[2]")
      = Some url /\
    dict_lookup "short_url" (source_meta "Search Result 2" "" "Plain facts here." "[2]")
      = Some (marker (1 + 1)) /\
    dict_get (source_meta "Search Result 2" "" "Plain facts here." "[2]") "url"
      (dict_get (source_meta "Search Result 2" "" "Plain facts here." "[2]") "value" "") = url /\
    dict_get (source_meta "Search Result 2" "" "Plain facts here." "[2]") "value" "" = url.
Proof.
  apply (C10_metadata_fields no_json sample_response 5 20 10 sample_formatted sample_records).
  - vm_compute. reflexivity.
  - reflexivity.
Defined.

(** ** Claims about [process_citations_in_response] *)

(** C7 fails on the code: the url "http://x.com/a" parses into the domain
    "x.com" of five characters, the guard [len(domain) > 10] is false, and the
    loop over [url_patterns] that follows the guard still replaces the bare
    domain by the marker. *)
Theorem C7_short_domain_replaced :
  nth_error (split "/" "http://x.com/a") 2 = Some "x.com" /\
  (len "x.com" >? 10)%Z = false /\
  contains "http://x.com/a" "visit x.com today" = false /\
  process_citations_in_response "visit x.com today"
    [source_meta "A" "http://x.com/a" "c" "[1]"]
  = "visit [1] today".
Proof. repeat split. Qed.

(** ** Claims about [finalize_answer] *)

Lemma dict_set_fresh {V : Type} (key : nat) (v : V) (d : list (nat * V)) :
  (forall k w, In (k, w) d -> k < key) ->
  dict_set key v d = (d ++ [(key, v)])%list.
Proof.
  induction d as [|[k w] d IH]; intros H; simpl; [reflexivity|].
  assert (Hk : k < key) by (apply (H k w); now left).
  destruct (Nat.eqb_spec k key) as [->|_]; [lia|].
  f_equal. apply IH. intros k' w' Hin. apply (H k' w'). now right.
Qed.

Lemma finalize_loop_no_marker : forall sources content unique_sources citation_map,
  Forall (fun s => exists short_url,
            dict_lookup "short_url" s = Some short_url /\
            contains short_url content = false) sources ->
  finalize_loop sources content unique_sources citation_map
  = Ok (content, unique_sources, citation_map).
Proof.
  induction sources as [|s rest IH]; intros content u cm H; simpl; [reflexivity|].
  inversion H as [|? ? (m & Hm & Hno) Hrest]; subst.
  unfold dict_getitem. rewrite Hm. cbn [bind]. rewrite Hno. now apply IH.
Qed.

(** C9.  When no accumulated source has its marker in the answer text,
    [finalize_answer] returns the text as it was, with no header and no
    entry, and an empty list of accepted sources. *)
Theorem C9_no_marker_unchanged content sources :
  Forall (fun s => exists short_url,
            dict_lookup "short_url" s = Some short_url /\
            contains short_url content = false) sources ->
  finalize_answer content sources = Ok (content, []).
Proof.
  intros H. unfold finalize_answer.
  now rewrite finalize_loop_no_marker.
Qed.

Lemma C9_witness :
  finalize_answer "Nothing is cited here."
    [source_meta "A" "http://a.org" "text" "[1]";
     source_meta "B" "" "text" "[2]"]
  = Ok ("Nothing is cited here.", []).
Proof.
  apply C9_no_marker_unchanged.
  repeat constructor.
  - exists "[1]". split; reflexivity.
  - exists "[2]". split; reflexivity.
Defined.

(** ** The sanitizer: what one removal pass guarantees *)

Section DropFacts.

Lemma drop_app (u t : string) : drop (String.length u) (u ++ t) = t.
Proof. induction u as [|c u IH]; simpl; [now destruct t | assumption]. Qed.

Lemma drop_nil (n : nat) : drop n "" = "".
Proof. now destruct n. Qed.

Lemma drop_while_suffix (p : ascii -> bool) (s : string) :
  exists u, s = u ++ drop_while p s.
Proof.
  induction s as [|c s [u IH]]; simpl.
  - now exists "".
  - destruct (p c).
    + exists (String c u). simpl. now rewrite <- IH.
    + now exists "".
Qed.

End DropFacts.

Section MatcherFacts.

Lemma lit_match_prefix (l : string) : forall prev s,
  lit_match l prev s = None <-> ci_prefix l s = false.
Proof.
  induction l as [|a l IH]; intros prev s; simpl.
  - split; discriminate.
  - destruct s as [|c s]; [tauto|].
    destruct (ci_eqb a c); simpl; [apply IH | tauto].
Qed.

Lemma lit_match_split (l : string) : forall prev s p rest,
  lit_match l prev s = Some (p, rest) ->
  exists u, s = u ++ rest /\ String.length u = String.length l.
Proof.
  induction l as [|a l IH]; intros prev s p rest H; simpl in H.
  - inversion H; subst. now exists "".
  - destruct s as [|c s]; [discriminate|].
    destruct (ci_eqb a c); [|discriminate].
    destruct (IH _ _ _ _ H) as (u & -> & Hu).
    exists (String c u). simpl. now rewrite Hu.
Qed.

Lemma lazy_star_split (p : ascii -> bool) (k : K) : forall s prev res,
  lazy_star p k prev s = Some res ->
  exists u p' s', s = u ++ s' /\ k p' s' = Some res.
Proof.
  induction s as [|c s IH]; intros prev res H; simpl in H.
  - destruct (k prev "") eqn:E; [|discriminate].
    inversion H; subst. now exists "", prev, "".
  - destruct (k prev (String c s)) eqn:E.
    + inversion H; subst. now exists "", prev, (String c s).
    + destruct (p c); [|discriminate].
      destruct (IH _ _ H) as (u & p' & s' & -> & Hk).
      now exists (String c u), p', s'.
Qed.

Lemma greedy_star_split (p : ascii -> bool) (k : K) : forall s prev res,
  greedy_star p k prev s = Some res ->
  exists u p' s', s = u ++ s' /\ k p' s' = Some res.
Proof.
  induction s as [|c s IH]; intros prev res H; simpl in H.
  - now exists "", prev, "".
  - destruct (p c).
    + destruct (greedy_star p k (Some c) s) eqn:E.
      * inversion H; subst.
        destruct (IH _ _ E) as (u & p' & s' & -> & Hk).
        now exists (String c u), p', s'.
      * now exists "", prev, (String c s).
    + now exists "", prev, (String c s).
Qed.

(** A successful match hands to its continuation a suffix of the subject,
    shorter by at least [min_len r]. *)
Lemma rmatch_split (r : re) : forall prev s k res,
  rmatch r prev s k = Some res ->
  exists u p' s',
    s = u ++ s' /\ min_len r <= String.length u /\ k p' s' = Some res.
Proof.
  induction r as [l | r1 IH1 r2 IH2 | r1 IH1 r2 IH2 | p | p | | | | r IH];
    intros prev s k res H; simpl in H.
  - destruct (lit_match l prev s) as [[p s']|] eqn:E; [|discriminate].
    destruct (lit_match_split _ _ _ _ _ E) as (u & -> & Hu).
    exists u, p, s'. simpl. repeat split; [lia | assumption].
  - destruct (IH1 _ _ _ _ H) as (u1 & p1 & s1 & -> & Hl1 & H1).
    destruct (IH2 _ _ _ _ H1) as (u2 & p2 & s2 & -> & Hl2 & H2).
    exists (u1 ++ u2), p2, s2. simpl. rewrite str_app_assoc, str_length_app.
    repeat split; [lia | assumption].
  - destruct (rmatch r1 prev s k) eqn:E.
    + inversion H; subst.
      destruct (IH1 _ _ _ _ E) as (u & p' & s' & -> & Hl & Hk).
      exists u, p', s'. simpl. repeat split; [lia | assumption].
    + destruct (IH2 _ _ _ _ H) as (u & p' & s' & -> & Hl & Hk).
      exists u, p', s'. simpl. repeat split; [lia | assumption].
  - destruct (lazy_star_split _ _ _ _ _ H) as (u & p' & s' & -> & Hk).
    exists u, p', s'. simpl. repeat split; [lia | assumption].
  - destruct s as [|c s]; [discriminate|].
    destruct (p c); [|discriminate].
    destruct (greedy_star_split _ _ _ _ _ H) as (u & p' & s' & -> & Hk).
    exists (String c u), p', s'. simpl. repeat split; [lia | assumption].
  - destruct (xorb _ _); [|discriminate].
    exists "", prev, s. simpl. repeat split; [lia | assumption].
  - destruct prev; [discriminate|].
    exists "", None, s. simpl. repeat split; [lia | assumption].
  - destruct (at_eol s); [|discriminate].
    exists "", prev, s. simpl. repeat split; [lia | assumption].
  - destruct (rmatch r prev s _); [|discriminate].
    exists "", prev, s. simpl. repeat split; [lia | assumption].
Qed.

(** The lazy tail hands over a position at a boundary. *)
Lemma ci_eqb_dot (c : ascii) : ci_eqb "." c = true -> c = "."%char.
Proof.
  destruct c as [[] [] [] [] [] [] [] []]; vm_compute; congruence.
Qed.

Lemma tail_boundary prev s k res :
  rmatch to_sentence_end prev s k = Some res ->
  exists p' s', at_boundary s' = true /\ k p' s' = Some res.
Proof.
  unfold to_sentence_end. cbn [rmatch]. intros H.
  destruct (lazy_star_split _ _ _ _ _ H) as (u & p' & s' & -> & Hk).
  cbn [rmatch] in Hk.
  match type of Hk with
  | match ?X with _ => _ end = _ => destruct X as [x|] eqn:EX; [|discriminate]
  end.
  exists p', s'. split; [|assumption].
  destruct s' as [|c s']; [reflexivity|].
  simpl in EX |- *. unfold boundary_char.
  destruct (ci_eqb "." c) eqn:Ec.
  - apply ci_eqb_dot in Ec. subst c. reflexivity.
  - destruct s'; [|discriminate].
    destruct (N.eqb (code c) 10); [now rewrite orb_true_r | discriminate].
Qed.

Lemma ends_sentence_boundary (r : re) :
  ends_sentence r ->
  forall prev s k res,
    rmatch r prev s k = Some res ->
    exists p' s', at_boundary s' = true /\ k p' s' = Some res.
Proof.
  induction 1 as [|r1 r2 _ IH]; intros prev s k res H.
  - now apply tail_boundary with (prev := prev) (s := s).
  - cbn [rmatch] in H.
    destruct (rmatch_split _ _ _ _ _ H) as (_ & p1 & s1 & _ & _ & H1).
    now apply IH with (prev := p1) (s := s1).
Qed.

Lemma sentence_pattern_intro (r : re) :
  ends_sentence r -> 1 <= min_len r -> sentence_pattern r.
Proof.
  intros He Hm prev s rest H. unfold match_here in H.
  destruct (rmatch_split _ _ _ _ _ H) as (u & p' & s' & -> & Hl & Hk).
  inversion Hk; subst s'.
  destruct (ends_sentence_boundary r He _ _ _ _ H) as (p2 & s2 & Hb & Hk2).
  inversion Hk2; subst s2.
  exists u. repeat split; [|assumption].
  intros ->. simpl in Hl. lia.
Qed.

End MatcherFacts.

Section TextFacts.

Lemma ci_prefix_app_mono (l : string) : forall w y,
  ci_prefix l w = true -> ci_prefix l (w ++ y) = true.
Proof.
  induction l as [|a l IH]; intros w y H; simpl in *; [reflexivity|].
  destruct w as [|c w]; [discriminate|]. simpl.
  apply andb_true_iff in H. destruct H as [-> H]. simpl. now apply IH.
Qed.

Lemma ci_eqb_boundary a c :
  boundary_char c = true ->
  negb (ci_eqb a "."%char) && negb (ci_eqb a "010"%char) = true ->
  ci_eqb a c = false.
Proof.
  unfold boundary_char, code. intros Hc Ha.
  apply orb_true_iff in Hc. destruct Hc as [Hc|Hc]; apply N.eqb_eq in Hc;
    apply (f_equal ascii_of_N) in Hc; rewrite ascii_N_embedding in Hc; subst c;
    apply andb_true_iff in Ha; destruct Ha as [H1 H2];
    [now apply negb_true_iff in H1 | now apply negb_true_iff in H2].
Qed.

(** A boundary-free literal at the head of [w ++ x], where [x] starts at a
    boundary, lies within [w]. *)
Lemma ci_prefix_app_boundary (l : string) : forall w x,
  boundary_free l = true ->
  at_boundary x = true ->
  ci_prefix l (w ++ x) = true ->
  ci_prefix l w = true.
Proof.
  induction l as [|a l IH]; intros w x Hl Hx H; simpl in *; [reflexivity|].
  apply andb_true_iff in Hl. destruct Hl as [Ha Hl].
  destruct w as [|c w]; simpl in H.
  - destruct x as [|c x]; [discriminate|]. simpl in Hx.
    now rewrite (ci_eqb_boundary a c Hx Ha) in H.
  - apply andb_true_iff in H. destruct H as [-> H]. simpl. now apply IH with (x := x).
Qed.

Lemma ci_occurs_app (l : string) : forall u t,
  ci_occurs l t = true -> ci_occurs l (u ++ t) = true.
Proof.
  induction u as [|c u IH]; intros t H; simpl; [assumption|].
  rewrite (IH t H). now rewrite orb_true_r.
Qed.

Lemma ci_occurs_prefix (l : string) : forall u t,
  ci_occurs l u = true -> ci_occurs l (u ++ t) = true.
Proof.
  induction u as [|c u IH]; intros t H.
  - destruct l; [now destruct t | discriminate].
  - simpl in H. apply orb_true_iff in H. destruct H as [H|H].
    + change (String c u ++ t) with (String c (u ++ t)).
      cbn [ci_occurs]. change (String c (u ++ t)) with (String c u ++ t).
      now rewrite (ci_prefix_app_mono l _ t H).
    + simpl. rewrite (IH t H). now rewrite orb_true_r.
Qed.

Lemma snoc_app (w : string) (c : ascii) (s : string) :
  w ++ String c s = (w ++ String c "") ++ s.
Proof. now rewrite str_app_assoc. Qed.

Lemma normal_from_app_l : forall a b x,
  normal_from b (a ++ x) = true -> normal_from b a = true.
Proof.
  induction a as [|c a IH]; intros b x H; simpl in *; [reflexivity|].
  destruct (is_space c).
  - apply andb_true_iff in H. destruct H as [H1 H2]. rewrite H1. simpl.
    now apply IH with (x := x).
  - now apply IH with (x := x).
Qed.

Lemma normal_from_app_r : forall a b x,
  normal_from b (a ++ x) = true -> exists b', normal_from b' x = true.
Proof.
  induction a as [|c a IH]; intros b x H; simpl in *; [now exists b|].
  destruct (is_space c).
  - apply andb_true_iff in H. destruct H as [_ H2]. now apply IH with (b := true).
  - now apply IH with (b := false).
Qed.

Lemma normal_from_head (x : string) (b b' : bool) :
  head_not_space x = true -> normal_from b x = true -> normal_from b' x = true.
Proof.
  destruct x as [|c x]; simpl; [reflexivity|].
  intros Hc. apply negb_true_iff in Hc. now rewrite Hc.
Qed.

Lemma normal_from_join : forall a b b' x,
  normal_from b a = true ->
  normal_from b' x = true ->
  head_not_space x = true ->
  normal_from b (a ++ x) = true.
Proof.
  induction a as [|c a IH]; intros b b' x Ha Hx Hh; simpl in *.
  - now apply normal_from_head with (b := b').
  - destruct (is_space c).
    + apply andb_true_iff in Ha. destruct Ha as [H1 H2]. rewrite H1. simpl.
      now apply IH with (b' := b').
    + now apply IH with (b' := b').
Qed.

Lemma boundary_in_normal (x : string) (b : bool) :
  at_boundary x = true -> normal_from b x = true -> head_not_space x = true.
Proof.
  destruct x as [|c x]; simpl; [reflexivity|].
  unfold boundary_char, code. intros Hc Hn.
  apply orb_true_iff in Hc. destruct Hc as [Hc|Hc]; apply N.eqb_eq in Hc;
    apply (f_equal ascii_of_N) in Hc; rewrite ascii_N_embedding in Hc; subst c.
  - reflexivity.
  - discriminate.
Qed.

(** Removing a span that stops at a boundary keeps a text normal. *)
Lemma normal_cut (w u x : string) :
  normal (w ++ u ++ x) = true -> at_boundary x = true -> normal (w ++ x) = true.
Proof.
  unfold normal. intros H Hx.
  pose proof (normal_from_app_l _ _ _ H) as Hw.
  rewrite <- str_app_assoc in H.
  destruct (normal_from_app_r _ _ _ H) as [b' Hb'].
  apply normal_from_join with (b' := b'); try assumption.
  now apply boundary_in_normal with (b := b').
Qed.

End TextFacts.

(** One removal pass [re.sub(r, '', s)] for a sentence pattern [r]. *)
Section RemovalPass.

Variable r : re.
Hypothesis r_sentence : sentence_pattern r.

Lemma sub_from_nil prev skip : sub_from r "" prev "" skip = "".
Proof. simpl. destruct skip; [now destruct (match_here r prev "") | reflexivity]. Qed.

Lemma sub_from_skip prev c s k :
  sub_from r "" prev (String c s) (S k) = sub_from r "" (Some c) s k.
Proof. reflexivity. Qed.

Lemma sub_from_keep prev c s :
  match_here r prev (String c s) = None ->
  sub_from r "" prev (String c s) 0 = String c (sub_from r "" (Some c) s 0).
Proof. intros H. simpl. now rewrite H. Qed.

Lemma sub_from_remove prev c s rest :
  match_here r prev (String c s) = Some rest ->
  exists u,
    s = u ++ rest /\ at_boundary rest = true /\
    sub_from r "" prev (String c s) 0 = sub_from r "" (Some c) s (String.length u).
Proof.
  intros H. destruct (r_sentence _ _ _ H) as (u & Hs & Hu & Hb).
  destruct u as [|c' u]; [contradiction|].
  simpl in Hs. inversion Hs; subst c' s.
  exists u. repeat split; [assumption|].
  cbn [sub_from]. rewrite H.
  replace (String.length (String c (u ++ rest)) - String.length rest)
    with (S (String.length u)); [reflexivity|].
  change (String.length (String c (u ++ rest))) with (S (String.length (u ++ rest))).
  rewrite str_length_app. lia.
Qed.

Variable l : string.
Hypothesis l_free : boundary_free l = true.

(** An occurrence of [l] at the head of the output, after kept text [w], is
    an occurrence at the head of the input. *)
Lemma prefix_after_pass : forall s prev skip w,
  (skip <> 0 -> at_boundary (drop skip s) = true) ->
  ci_prefix l (w ++ sub_from r "" prev s skip) = true ->
  ci_prefix l (w ++ drop skip s) = true.
Proof.
  induction s as [|c s IH]; intros prev skip w Hskip H.
  - rewrite sub_from_nil in H. now rewrite drop_nil.
  - destruct skip as [|k].
    + cbn [drop].
      destruct (match_here r prev (String c s)) as [rest|] eqn:Em.
      * destruct (sub_from_remove _ _ _ _ Em) as (u & Hs & Hb & Hsub).
        rewrite Hsub in H. apply IH in H.
        -- subst s. rewrite drop_app in H.
           apply ci_prefix_app_mono.
           now apply ci_prefix_app_boundary with (x := rest).
        -- intros _. subst s. now rewrite drop_app.
      * rewrite (sub_from_keep _ _ _ Em) in H.
        rewrite snoc_app in H |- *.
        apply (IH (Some c) 0 (w ++ String c "")) in H; [assumption | congruence].
    + cbn [drop]. rewrite sub_from_skip in H.
      apply (IH (Some c) k w); [|assumption].
      intros _. apply Hskip. discriminate.
Qed.

(** The pass creates no occurrence of [l]. *)
Lemma occurs_after_pass : forall s prev skip,
  ci_occurs l (sub_from r "" prev s skip) = true ->
  ci_occurs l (drop skip s) = true.
Proof.
  induction s as [|c s IH]; intros prev skip H.
  - rewrite sub_from_nil in H. now rewrite drop_nil.
  - destruct skip as [|k].
    + cbn [drop].
      destruct (match_here r prev (String c s)) as [rest|] eqn:Em.
      * destruct (sub_from_remove _ _ _ _ Em) as (u & Hs & Hb & Hsub).
        rewrite Hsub in H. apply IH in H. subst s. rewrite drop_app in H.
        apply (ci_occurs_app l (String c u) rest H).
      * rewrite (sub_from_keep _ _ _ Em) in H.
        cbn [ci_occurs] in H. apply orb_true_iff in H. destruct H as [H|H].
        -- apply (prefix_after_pass s (Some c) 0 (String c "")) in H; [|congruence].
           simpl in H. cbn [ci_occurs]. simpl. now rewrite H.
        -- apply IH in H. simpl in H. cbn [ci_occurs]. rewrite H.
           now rewrite orb_true_r.
    + cbn [drop]. rewrite sub_from_skip in H. now apply IH in H.
Qed.

(** The pass keeps a normal text normal. *)
Lemma normal_after_pass : forall s prev skip w,
  (skip <> 0 -> at_boundary (drop skip s) = true) ->
  normal (w ++ drop skip s) = true ->
  normal (w ++ sub_from r "" prev s skip) = true.
Proof.
  induction s as [|c s IH]; intros prev skip w Hskip H.
  - rewrite sub_from_nil. now rewrite drop_nil in H.
  - destruct skip as [|k].
    + cbn [drop] in H.
      destruct (match_here r prev (String c s)) as [rest|] eqn:Em.
      * destruct (sub_from_remove _ _ _ _ Em) as (u & Hs & Hb & Hsub).
        rewrite Hsub. apply IH.
        -- intros _. subst s. now rewrite drop_app.
        -- subst s. rewrite drop_app.
           apply (normal_cut w (String c u) rest); assumption.
      * rewrite (sub_from_keep _ _ _ Em). rewrite snoc_app in H |- *.
        apply (IH (Some c) 0 (w ++ String c "")); [congruence | assumption].
    + cbn [drop] in H. rewrite sub_from_skip.
      apply (IH (Some c) k w); [|assumption].
      intros _. apply Hskip. discriminate.
Qed.

End RemovalPass.

Section OwnLiteral.

Lemma all_dot_app_r : forall u t, all_dot (u ++ t) = true -> all_dot t = true.
Proof.
  induction u as [|c u IH]; intros t H; simpl in H; [assumption|].
  apply andb_true_iff in H. now apply IH.
Qed.

Lemma not_space_dot (c : ascii) : is_space c = false -> dot c = true.
Proof.
  destruct c as [[] [] [] [] [] [] [] []]; vm_compute; congruence.
Qed.

Lemma normal_all_dot : forall s b, normal_from b s = true -> all_dot s = true.
Proof.
  induction s as [|c s IH]; intros b H; simpl in *; [reflexivity|].
  destruct (is_space c) eqn:Ec.
  - apply andb_true_iff in H. destruct H as [H1 H2].
    apply andb_true_iff in H1. destruct H1 as [H1 _].
    apply Ascii.eqb_eq in H1. subst c. simpl. now apply IH with (b := true).
  - rewrite (not_space_dot c Ec). simpl. now apply IH with (b := false).
Qed.

Variable l : string.
Hypothesis l_free : boundary_free l = true.
Hypothesis l_nonempty : l <> "".

Let r : re := Seq (Lit l) to_sentence_end.

Lemma literal_pattern_sentence : sentence_pattern r.
Proof.
  apply sentence_pattern_intro.
  - constructor. constructor.
  - simpl. destruct l; [contradiction | simpl; lia].
Qed.

Lemma tail_succeeds : forall s prev,
  all_dot s = true ->
  rmatch to_sentence_end prev s (fun _ s' => Some s') <> None.
Proof.
  unfold to_sentence_end. cbn [rmatch].
  induction s as [|c s IH]; intros prev Hs.
  - simpl. discriminate.
  - simpl in Hs. apply andb_true_iff in Hs. destruct Hs as [Hc Hs].
    cbn [lazy_star].
    match goal with
    | |- match ?X with _ => _ end <> None => destruct X; [discriminate|]
    end.
    rewrite Hc. now apply IH.
Qed.

(** On a text without line feed the pattern matches wherever its literal
    does. *)
Lemma literal_match_succeeds s prev :
  all_dot s = true -> ci_prefix l s = true -> match_here r prev s <> None.
Proof.
  intros Hs Hl. unfold match_here, r. cbn [rmatch].
  destruct (lit_match l prev s) as [[p s']|] eqn:E.
  - destruct (lit_match_split _ _ _ _ _ E) as (u & -> & _).
    apply tail_succeeds. now apply all_dot_app_r with (u := u).
  - apply lit_match_prefix in E. congruence.
Qed.

Lemma ci_occurs_nil : ci_occurs l "" = false.
Proof. destruct l; [contradiction | reflexivity]. Qed.

(** After the pass no occurrence of the pattern's own literal is left. *)
Lemma own_literal_removed : forall s prev skip,
  all_dot s = true ->
  ci_occurs l (sub_from r "" prev s skip) = false.
Proof.
  induction s as [|c s IH]; intros prev skip Hs.
  - rewrite sub_from_nil. apply ci_occurs_nil.
  - assert (Hs' : all_dot s = true)
      by (simpl in Hs; apply andb_true_iff in Hs; tauto).
    destruct skip as [|k].
    + destruct (match_here r prev (String c s)) as [rest|] eqn:Em.
      * destruct (sub_from_remove r literal_pattern_sentence _ _ _ _ Em)
          as (u & _ & _ & Hsub).
        rewrite Hsub. now apply IH.
      * rewrite (sub_from_keep r _ _ _ Em). cbn [ci_occurs].
        rewrite (IH (Some c) 0 Hs'). rewrite orb_false_r.
        destruct (ci_prefix l (String c (sub_from r "" (Some c) s 0))) eqn:Ep;
          [|reflexivity].
        apply (prefix_after_pass r literal_pattern_sentence l l_free
                 s (Some c) 0 (String c "")) in Ep; [|congruence].
        simpl in Ep.
        now destruct (literal_match_succeeds (String c s) prev Hs Ep).
    + rewrite sub_from_skip. now apply IH.
Qed.

Lemma search_occurs : forall s prev,
  search_from r prev s = true -> ci_occurs l s = true.
Proof.
  induction s as [|c s IH]; intros prev H; cbn [search_from] in H.
  - destruct (match_here r prev "") eqn:Em; [|discriminate].
    destruct (literal_pattern_sentence _ _ _ Em) as (u & Hu & Hne & _).
    destruct u; [contradiction | discriminate].
  - cbn [ci_occurs].
    destruct (match_here r prev (String c s)) eqn:Em.
    + unfold match_here, r in Em. cbn [rmatch] in Em.
      destruct (lit_match l prev (String c s)) eqn:El; [|discriminate].
      destruct (ci_prefix l (String c s)) eqn:Ep; [reflexivity|].
      apply lit_match_prefix with (prev := prev) in Ep. congruence.
    + rewrite (IH _ H). now rewrite orb_true_r.
Qed.

End OwnLiteral.

Section Whitespace.

Let ws : re := GreedyPlus is_space.

Lemma greedy_star_run (p : ascii -> bool) : forall s prev,
  greedy_star p (fun _ s' => Some s') prev s = Some (drop_while p s).
Proof.
  induction s as [|c s IH]; intros prev; simpl; [reflexivity|].
  destruct (p c); [now rewrite IH | reflexivity].
Qed.

Lemma ws_match prev c s :
  match_here ws prev (String c s)
  = if is_space c then Some (drop_while is_space s) else None.
Proof.
  unfold match_here, ws. cbn [rmatch].
  destruct (is_space c); [apply greedy_star_run | reflexivity].
Qed.

Lemma head_drop_while (s : string) : head_not_space (drop_while is_space s) = true.
Proof.
  induction s as [|c s IH]; simpl; [reflexivity|].
  destruct (is_space c) eqn:Ec; [assumption | simpl; now rewrite Ec].
Qed.

Lemma drop_while_head (s : string) :
  head_not_space s = true -> drop_while is_space s = s.
Proof.
  destruct s as [|c s]; simpl; [reflexivity|].
  intros H. apply negb_true_iff in H. now rewrite H.
Qed.

Lemma ws_sub_space prev c s :
  is_space c = true ->
  exists u,
    s = u ++ drop_while is_space s /\
    sub_from ws " " prev (String c s) 0
    = String " " (sub_from ws " " (Some c) s (String.length u)).
Proof.
  intros Hc. destruct (drop_while_suffix is_space s) as [u Hu].
  exists u. split; [assumption|].
  cbn [sub_from]. rewrite ws_match, Hc.
  replace (String.length (String c s) - String.length (drop_while is_space s))
    with (S (String.length u)); [reflexivity|].
  change (String.length (String c s)) with (S (String.length s)).
  rewrite Hu at 1. rewrite str_length_app. lia.
Qed.

Lemma ws_sub_other prev c s :
  is_space c = false ->
  sub_from ws " " prev (String c s) 0 = String c (sub_from ws " " (Some c) s 0).
Proof. intros Hc. cbn [sub_from]. now rewrite ws_match, Hc. Qed.

(** [re.sub(r'\s+', ' ', s)] returns a normal text. *)
Lemma collapse_normal : forall s prev skip b,
  (b = true -> head_not_space (drop skip s) = true) ->
  normal_from b (sub_from ws " " prev s skip) = true.
Proof.
  induction s as [|c s IH]; intros prev skip b Hb.
  - simpl. destruct skip; reflexivity.
  - destruct skip as [|k].
    + destruct (is_space c) eqn:Ec.
      * destruct (ws_sub_space prev c s Ec) as (u & Hu & ->).
        assert (b = false).
        { destruct b; [|reflexivity]. specialize (Hb eq_refl). simpl in Hb.
          now rewrite Ec in Hb. }
        subst b. cbn [normal_from]. simpl is_space. simpl Ascii.eqb. simpl negb.
        cbn [andb]. apply IH. intros _.
        rewrite Hu at 1. rewrite drop_app. apply head_drop_while.
      * rewrite (ws_sub_other prev c s Ec). cbn [normal_from]. rewrite Ec.
        apply IH. discriminate.
    + cbn [sub_from]. apply IH. exact Hb.
Qed.

Lemma normal_true_head (s : string) :
  normal_from true s = true -> head_not_space s = true.
Proof.
  destruct s as [|c s]; simpl; [reflexivity|].
  destruct (is_space c); [|reflexivity].
  intros H. apply andb_true_iff in H. destruct H as [H _].
  apply andb_true_iff in H. destruct H as [_ H]. discriminate.
Qed.

(** On a normal text it changes nothing. *)
Lemma collapse_id : forall s prev b,
  normal_from b s = true -> sub_from ws " " prev s 0 = s.
Proof.
  induction s as [|c s IH]; intros prev b H.
  - reflexivity.
  - simpl in H. destruct (is_space c) eqn:Ec.
    + apply andb_true_iff in H. destruct H as [H1 H2].
      apply andb_true_iff in H1. destruct H1 as [H1 _].
      apply Ascii.eqb_eq in H1. subst c.
      destruct (ws_sub_space prev " " s Ec) as (u & Hu & ->).
      pose proof (drop_while_head s (normal_true_head s H2)) as Hd.
      rewrite Hd in Hu.
      assert (Hlen : String.length u = 0).
      { apply (f_equal String.length) in Hu. rewrite str_length_app in Hu. lia. }
      rewrite Hlen. f_equal. now apply IH with (b := true).
    + rewrite (ws_sub_other prev c s Ec). f_equal. now apply IH with (b := false).
Qed.

End Whitespace.

Section StripFacts.

Lemma lstrip_suffix (x : string) : exists u, x = u ++ lstrip x.
Proof.
  induction x as [|c x [u IH]]; simpl.
  - now exists "".
  - destruct (is_space c).
    + exists (String c u). simpl. now rewrite <- IH.
    + now exists "".
Qed.

Lemma rstrip_prefix (x : string) : exists t, x = rstrip x ++ t.
Proof.
  induction x as [|c x [t IH]]; simpl.
  - now exists "".
  - destruct (is_empty (rstrip x) && is_space c).
    + now exists (String c x).
    + exists t. simpl. now rewrite <- IH.
Qed.

Lemma head_lstrip (x : string) : head_not_space (lstrip x) = true.
Proof.
  induction x as [|c x IH]; simpl; [reflexivity|].
  destruct (is_space c) eqn:Ec; [assumption | simpl; now rewrite Ec].
Qed.

Lemma lstrip_head (x : string) : head_not_space x = true -> lstrip x = x.
Proof.
  destruct x as [|c x]; simpl; [reflexivity|].
  intros H. apply negb_true_iff in H. now rewrite H.
Qed.

Lemma head_rstrip (x : string) :
  head_not_space x = true -> head_not_space (rstrip x) = true.
Proof.
  destruct x as [|c x]; simpl; [reflexivity|].
  intros H. apply negb_true_iff in H. rewrite H, andb_false_r. simpl. now rewrite H.
Qed.

Lemma rstrip_idem (x : string) : rstrip (rstrip x) = rstrip x.
Proof.
  induction x as [|c x IH]; simpl; [reflexivity|].
  destruct (is_empty (rstrip x) && is_space c) eqn:E; [reflexivity|].
  simpl. rewrite IH, E. reflexivity.
Qed.

Lemma strip_idem (x : string) : strip (strip x) = strip x.
Proof.
  unfold strip.
  rewrite (lstrip_head (rstrip (lstrip x))) by (apply head_rstrip, head_lstrip).
  apply rstrip_idem.
Qed.

Lemma normal_strip (x : string) : normal x = true -> normal (strip x) = true.
Proof.
  unfold normal, strip. intros H.
  destruct (lstrip_suffix x) as [u Hu]. rewrite Hu in H.
  destruct (normal_from_app_r _ _ _ H) as [b' Hb'].
  apply (normal_from_head _ b' false (head_lstrip x)) in Hb'.
  destruct (rstrip_prefix (lstrip x)) as [t Ht]. rewrite Ht in Hb'.
  now apply normal_from_app_l in Hb'.
Qed.

Lemma ci_occurs_strip (l x : string) :
  ci_occurs l (strip x) = true -> ci_occurs l x = true.
Proof.
  unfold strip. intros H.
  destruct (lstrip_suffix x) as [u Hu]. rewrite Hu.
  apply ci_occurs_app.
  destruct (rstrip_prefix (lstrip x)) as [t Ht]. rewrite Ht.
  now apply ci_occurs_prefix.
Qed.

End StripFacts.

(** Where a pattern is found nowhere, [re.sub] returns its subject. *)
Lemma sub_no_match (r : re) (repl : string) : forall s prev,
  search_from r prev s = false -> sub_from r repl prev s 0 = s.
Proof.
  induction s as [|c s IH]; intros prev H; cbn [search_from] in H; cbn [sub_from].
  - now destruct (match_here r prev "").
  - destruct (match_here r prev (String c s)); [discriminate|].
    f_equal. now apply IH.
Qed.

(** ** Claims about [validate_and_clean_content] *)

Lemma noise_patterns_sentence : Forall sentence_pattern noise_patterns.
Proof.
  repeat constructor; apply sentence_pattern_intro;
    try (repeat constructor); simpl; lia.
Qed.

Lemma validate_and_clean_content_str (c : string) :
  validate_and_clean_content (PStr c)
  = if is_empty c then ""
    else strip (sub cookies_notice_pattern ""
                 (sub enable_javascript_pattern ""
                   (sub javascript_pattern ""
                     (sub advertisement_pattern ""
                       (sub cookie_pattern "" (collapse_whitespace (strip c))))))).
Proof. reflexivity. Qed.

Lemma pass_normal (r : re) (s : string) :
  sentence_pattern r -> normal s = true -> normal (sub r "" s) = true.
Proof.
  intros Hr Hs.
  apply (normal_after_pass r Hr s None 0 ""); [congruence | assumption].
Qed.

Lemma pass_keeps_absent (r : re) (l s : string) :
  sentence_pattern r -> boundary_free l = true ->
  ci_occurs l s = false -> ci_occurs l (sub r "" s) = false.
Proof.
  intros Hr Hl Hs.
  destruct (ci_occurs l (sub r "" s)) eqn:E; [|reflexivity].
  apply (occurs_after_pass r Hr l Hl s None 0) in E. simpl in E. congruence.
Qed.

Lemma pass_removes_literal (l s : string) :
  boundary_free l = true -> l <> "" -> normal s = true ->
  ci_occurs l (sub (Seq (Lit l) to_sentence_end) "" s) = false.
Proof.
  intros Hl Hne Hs. apply own_literal_removed; try assumption.
  now apply normal_all_dot with (b := false).
Qed.

Lemma absent_not_found (l s : string) :
  boundary_free l = true -> l <> "" ->
  ci_occurs l s = false -> search (Seq (Lit l) to_sentence_end) s = false.
Proof.
  intros Hl Hne Hs. unfold search.
  destruct (search_from _ None s) eqn:E; [|reflexivity].
  apply search_occurs in E; [congruence | assumption | assumption].
Qed.

(** The shape of every output of the sanitizer. *)
Lemma sanitized_shape (c : string) :
  let out := validate_and_clean_content (PStr c) in
  strip out = out /\
  normal out = true /\
  ci_occurs "JavaScript" out = false /\
  ci_occurs "Enable JavaScript" out = false /\
  ci_occurs "This website uses cookies" out = false.
Proof.
  cbv zeta. rewrite validate_and_clean_content_str.
  destruct (is_empty c); [repeat split|].
  pose proof noise_patterns_sentence as Hp.
  inversion Hp as [|? ? H1 Hp1]; subst.
  inversion Hp1 as [|? ? H2 Hp2]; subst.
  inversion Hp2 as [|? ? H3 Hp3]; subst.
  inversion Hp3 as [|? ? H4 Hp4]; subst.
  inversion Hp4 as [|? ? H5 _]; subst.
  set (s0 := collapse_whitespace (strip c)).
  assert (N0 : normal s0 = true)
    by (apply (collapse_normal (strip c) None 0 false); discriminate).
  set (s1 := sub cookie_pattern "" s0).
  assert (N1 : normal s1 = true) by now apply pass_normal.
  set (s2 := sub advertisement_pattern "" s1).
  assert (N2 : normal s2 = true) by now apply pass_normal.
  set (s3 := sub javascript_pattern "" s2).
  assert (N3 : normal s3 = true) by now apply pass_normal.
  set (s4 := sub enable_javascript_pattern "" s3).
  assert (N4 : normal s4 = true) by now apply pass_normal.
  set (s5 := sub cookies_notice_pattern "" s4).
  assert (N5 : normal s5 = true) by now apply pass_normal.
  assert (J3 : ci_occurs "JavaScript" s3 = false)
    by (apply pass_removes_literal; [reflexivity | discriminate | assumption]).
  assert (J4 : ci_occurs "JavaScript" s4 = false)
    by (apply pass_keeps_absent; [assumption | reflexivity | assumption]).
  assert (J5 : ci_occurs "JavaScript" s5 = false)
    by (apply pass_keeps_absent; [assumption | reflexivity | assumption]).
  assert (E4 : ci_occurs "Enable JavaScript" s4 = false)
    by (apply pass_removes_literal; [reflexivity | discriminate | assumption]).
  assert (E5 : ci_occurs "Enable JavaScript" s5 = false)
    by (apply pass_keeps_absent; [assumption | reflexivity | assumption]).
  assert (W5 : ci_occurs "This website uses cookies" s5 = false)
    by (apply pass_removes_literal; [reflexivity | discriminate | assumption]).
  assert (Hstrip : forall l, ci_occurs l s5 = false -> ci_occurs l (strip s5) = false).
  { intros l Hl. destruct (ci_occurs l (strip s5)) eqn:E; [|reflexivity].
    apply ci_occurs_strip in E. congruence. }
  repeat split.
  - apply strip_idem.
  - now apply normal_strip.
  - now apply Hstrip.
  - now apply Hstrip.
  - now apply Hstrip.
Qed.

(** A stripped, normal text in which no noise pattern is found is returned
    as it is. *)
Lemma sanitize_fixed_point (x : string) :
  strip x = x ->
  normal x = true ->
  forallb (fun p => negb (search p x)) noise_patterns = true ->
  validate_and_clean_content (PStr x) = x.
Proof.
  intros Hs Hn Hp. rewrite validate_and_clean_content_str.
  destruct x as [|a x]; [reflexivity|]. cbn [is_empty].
  rewrite Hs. unfold collapse_whitespace, sub at 6.
  rewrite (collapse_id _ None false Hn).
  simpl in Hp. repeat (apply andb_true_iff in Hp; destruct Hp as [?H Hp]).
  repeat match goal with
         | H : negb _ = true |- _ => apply negb_true_iff in H
         end.
  unfold search in *.
  unfold sub at 5. rewrite sub_no_match by assumption.
  unfold sub at 4. rewrite sub_no_match by assumption.
  unfold sub at 3. rewrite sub_no_match by assumption.
  unfold sub at 2. rewrite sub_no_match by assumption.
  unfold sub. rewrite sub_no_match by assumption.
  exact Hs.
Qed.

(** C6, as amended.  For every raw content, the output of
    [validate_and_clean_content] contains no match of the three noise
    patterns that carry no word boundary ([JavaScript...],
    [Enable JavaScript...], [This website uses cookies...]); and whenever the
    output contains no match of the two word-bounded patterns either, a second
    application returns it unchanged. *)
Theorem C6_sanitizer_guarantee (c : string) :
  let out := validate_and_clean_content (PStr c) in
  search javascript_pattern out = false /\
  search enable_javascript_pattern out = false /\
  search cookies_notice_pattern out = false /\
  (search cookie_pattern out = false ->
   search advertisement_pattern out = false ->
   validate_and_clean_content (PStr out) = out).
Proof.
  cbv zeta.
  destruct (sanitized_shape c) as (Hs & Hn & HJ & HE & HW).
  assert (H3 : search javascript_pattern (validate_and_clean_content (PStr c)) = false)
    by (apply absent_not_found; [reflexivity | discriminate | assumption]).
  assert (H4 : search enable_javascript_pattern (validate_and_clean_content (PStr c)) = false)
    by (apply absent_not_found; [reflexivity | discriminate | assumption]).
  assert (H5 : search cookies_notice_pattern (validate_and_clean_content (PStr c)) = false)
    by (apply absent_not_found; [reflexivity | discriminate | assumption]).
  repeat split; try assumption.
  intros H1 H2. apply sanitize_fixed_point; try assumption.
  unfold noise_patterns. cbn [forallb]. now rewrite H1, H2, H3, H4, H5.
Qed.

(** C6 as stated fails: the sanitized form of "CookieJavaScript" is
    "Cookie", which the first noise pattern matches, and sanitizing it again
    gives the empty string. *)
Lemma C6_counterexample :
  validate_and_clean_content (PStr "CookieJavaScript") = "Cookie" /\
  search cookie_pattern "Cookie" = true /\
  validate_and_clean_content (PStr "Cookie") = "" /\
  validate_and_clean_content (PStr (validate_and_clean_content (PStr "CookieJavaScript")))
  <> validate_and_clean_content (PStr "CookieJavaScript").
Proof.
  repeat split; try (vm_compute; reflexivity). vm_compute. discriminate.
Qed.

Lemma C6_witness :
  let out := validate_and_clean_content (PStr noisy_page) in
  out = "Rates rose in May. Enable . We use a . . Growth slowed." /\
  search javascript_pattern out = false /\
  search enable_javascript_pattern out = false /\
  search cookies_notice_pattern out = false /\
  validate_and_clean_content (PStr out) = out.
Proof.
  cbv zeta.
  destruct (C6_sanitizer_guarantee noisy_page) as (H3 & H4 & H5 & Hidem).
  split; [vm_compute; reflexivity|].
  split; [exact H3|]. split; [exact H4|]. split; [exact H5|].
  apply Hidem; vm_compute; reflexivity.
Defined.

(** * Further properties of the pipeline *)

(** ** [process_search_results_for_ai]: the two returned lists *)

Lemma process_loop_aligned (mr maxl minl : Z) (raw : list PyVal) fs recs :
  process_loop mr maxl minl raw 0 [] [] = Ok (fs, recs) ->
  exists cnt, aligned_inv cnt fs recs.
Proof.
  intros Hrun.
  apply (process_loop_rule mr maxl minl raw aligned_inv)
    with (raw := raw) (cnt := 0) (fs := []) (sg := []); try assumption.
  - intros d cnt fs0 sg title url raw_content _ (Hlen & Hfs & Hal) _ _ _ _ _.
    repeat split.
    + rewrite List.length_app. simpl. lia.
    + rewrite List.length_app. simpl. lia.
    + intros i r Hi.
      destruct (Nat.lt_ge_cases i (List.length sg)) as [Hlt|Hge].
      * rewrite nth_error_app1 in Hi by assumption.
        destruct (Hal i r Hi) as (t & u & c & Hr & Hf).
        exists t, u, c. split; [assumption|].
        rewrite nth_error_app1 by lia. assumption.
      * rewrite nth_error_app2 in Hi by assumption.
        destruct (i - List.length sg) as [|k] eqn:Ek.
        -- simpl in Hi. inversion Hi; subst r.
           assert (i = cnt) by lia. subst i.
           eexists _, _, _. split; [reflexivity|].
           rewrite nth_error_app2 by lia.
           replace (cnt - List.length fs0) with 0 by lia. reflexivity.
        -- simpl in Hi. destruct k; discriminate.
  - apply incl_refl.
  - repeat split. intros i r Hi. destruct i; discriminate.
Qed.

(** X1.  The two lists returned by [process_search_results_for_ai] have the
    same length and are aligned: the [i]-th formatted block is the frame
    "=== Source i+1 ===" filled with the title, url and content of the [i]-th
    metadata record. *)
Theorem X1_formatted_sources_aligned (json_loads : string -> Decoded)
  resp mr maxl minl fs recs :
  process_search_results_for_ai json_loads resp mr maxl minl = Ok (fs, recs) ->
  List.length fs = List.length recs /\
  forall i r, nth_error recs i = Some r ->
    exists title url content,
      dict_lookup "title" r = Some title /\
      dict_lookup "url" r = Some url /\
      dict_lookup "content" r = Some content /\
      nth_error fs i = Some (format_source (i + 1) title url content).
Proof.
  intros Hrun. apply process_unfold in Hrun. destruct Hrun as (raw & _ & Hloop).
  destruct (process_loop_aligned _ _ _ _ _ _ Hloop) as (cnt & Hlen & Hfs & Hal).
  split; [congruence|].
  intros i r Hi. destruct (Hal i r Hi) as (t & u & c & -> & Hf).
  exists t, u, c. repeat split. assumption.
Qed.

Lemma X1_witness :
  List.length sample_formatted = List.length sample_records /\
  forall i r, nth_error sample_records i = Some r ->
    exists title url content,
      dict_lookup "title" r = Some title /\
      dict_lookup "url" r = Some url /\
      dict_lookup "content" r = Some content /\
      nth_error sample_formatted i = Some (format_source (i + 1) title url content).
Proof.
  apply (X1_formatted_sources_aligned no_json sample_response 5 20 10).
  vm_compute. reflexivity.
Defined.

(** ** [process_search_results_for_ai] on readable results *)

Lemma call_strip_field (d : list (string * PyVal)) (key default : string) :
  string_or_absent d key = true ->
  call_strip (dict_get d key (PStr default)) = Ok (field_text d key default).
Proof.
  unfold string_or_absent, field_text, dict_get.
  destruct (dict_lookup key d) as [[]|]; try discriminate; reflexivity.
Qed.

Lemma ranked_cons {A : Type} (f : nat -> PyVal -> A) rank v l :
  ranked f rank (v :: l) = f rank v :: ranked f (S rank) l.
Proof. reflexivity. Qed.

Lemma process_loop_readable (mr maxl minl : Z) : forall raw cnt fs sg,
  Forall (fun v => readable v = true) raw ->
  process_loop mr maxl minl raw cnt fs sg
  = Ok ((fs ++ ranked (formatted_of maxl) (cnt + 1)
                 (firstn (Z.to_nat mr - cnt) (filter (acceptable minl) raw)))%list,
        (sg ++ ranked (record_of maxl) (cnt + 1)
                 (firstn (Z.to_nat mr - cnt) (filter (acceptable minl) raw)))%list).
Proof.
  induction raw as [|v rest IH]; intros cnt fs sg Hr.
  - simpl. rewrite firstn_nil. simpl. now rewrite !app_nil_r.
  - inversion Hr as [|? ? Hv Hrest]; subst.
    destruct (Z.geb_spec (Z.of_nat cnt) mr) as [Hge|Hlt].
    + assert (E : Z.to_nat mr - cnt = 0) by lia. rewrite E. simpl.
      destruct (Z.geb_spec (Z.of_nat cnt) mr); [|lia]. now rewrite !app_nil_r.
    + destruct (Z.to_nat mr - cnt) as [|k] eqn:Ek; [lia|].
      assert (Hk : Z.to_nat mr - (cnt + 1) = k) by lia.
      destruct v as [| b | z | s | l | d];
        try (rewrite process_loop_other by discriminate;
             destruct (Z.geb_spec (Z.of_nat cnt) mr); [lia|];
             rewrite IH by assumption; rewrite Ek; reflexivity).
      rewrite process_loop_dict.
      destruct (Z.geb_spec (Z.of_nat cnt) mr); [lia|].
      simpl in Hv. apply andb_true_iff in Hv. destruct Hv as [Hv Hc].
      apply andb_true_iff in Hv. destruct Hv as [Ht Hu].
      rewrite (call_strip_field d "title" _ Ht), (call_strip_field d "url" _ Hu),
        (call_strip_field d "content" _ Hc).
      cbn [bind]. cbv zeta. cbn [filter acceptable clean_content_of].
      destruct (len (validate_and_clean_content (PStr (field_text d "content" ""))) <? minl)%Z.
      * cbn [negb]. rewrite IH by assumption. now rewrite Ek.
      * cbn [negb]. rewrite IH by assumption. rewrite Hk.
        cbn [firstn]. rewrite !ranked_cons.
        replace (cnt + 1 + 1) with (S (cnt + 1)) by lia.
        rewrite <- !app_assoc. reflexivity.
Qed.

Lemma process_readable (json_loads : string -> Decoded) resp raw mr maxl minl :
  raw_results_of json_loads resp = Ok raw ->
  Forall (fun v => readable v = true) raw ->
  process_search_results_for_ai json_loads resp mr maxl minl
  = Ok (ranked (formatted_of maxl) 1 (accepted_results mr minl raw),
        ranked (record_of maxl) 1 (accepted_results mr minl raw)).
Proof.
  intros Hraw Hr. unfold process_search_results_for_ai.
  unfold raw_results_of in Hraw.
  destruct (extract_tavily_results json_loads resp) as [v|e]; [|discriminate].
  cbn [bind] in *. rewrite Hraw. cbn [bind].
  rewrite process_loop_readable by assumption.
  unfold accepted_results. now rewrite Nat.sub_0_r.
Qed.

(** X2.  When every raw result is readable (not a dictionary, or a dictionary
    whose title, url and content are each absent or a string), the call does
    not raise and returns exactly the first [max_results] results whose
    sanitized content has at least [min_content_length] characters, in the
    order of the raw results, each with its rank as marker; results that are
    not dictionaries or are too short take no rank. *)
Theorem X2_first_acceptable_results (json_loads : string -> Decoded)
  resp raw mr maxl minl :
  raw_results_of json_loads resp = Ok raw ->
  Forall (fun v => readable v = true) raw ->
  process_search_results_for_ai json_loads resp mr maxl minl
  = Ok (ranked (formatted_of maxl) 1 (accepted_results mr minl raw),
        ranked (record_of maxl) 1 (accepted_results mr minl raw)).
Proof. apply process_readable. Qed.

Lemma X2_witness :
  process_search_results_for_ai no_json sample_response 1 20 10
  = Ok ([format_source 1 "A" "http://x.com/a" "The quick brown fox ..."],
        [source_meta "A" "http://x.com/a" "The quick brown fox ..." "[1]"]).
Proof.
  refine (X2_first_acceptable_results no_json sample_response _ 1 20 10 eq_refl _).
  repeat constructor.
Defined.

(** A one-element list of raw results with string fields. *)
Lemma process_single (json_loads : string -> Decoded) resp title text mr maxl minl :
  raw_results_of json_loads resp
  = Ok [PDict [("title", PStr title); ("url", PStr ""); ("content", PStr text)]] ->
  strip title = title ->
  (1 <= mr)%Z ->
  process_search_results_for_ai json_loads resp mr maxl minl
  = single_source title text maxl minl.
Proof.
  intros Hraw Ht Hmr.
  rewrite (process_readable json_loads resp _ mr maxl minl Hraw)
    by (repeat constructor).
  unfold accepted_results, single_source.
  destruct (Z.to_nat mr) as [|k] eqn:Ek; [lia|].
  cbn [filter acceptable clean_content_of]. cbv zeta.
  change (field_text [("title", PStr title); ("url", PStr ""); ("content", PStr text)]
            "content" "") with (strip text).
  destruct (len (validate_and_clean_content (PStr (strip text))) <? minl)%Z;
    cbn [negb firstn ranked formatted_of record_of clean_content_of]; [reflexivity|].
  change (field_text [("title", PStr title); ("url", PStr ""); ("content", PStr text)]
            "content" "") with (strip text).
  change (field_text [("title", PStr title); ("url", PStr ""); ("content", PStr text)]
            "title" (placeholder_title 1)) with (strip title).
  change (field_text [("title", PStr title); ("url", PStr ""); ("content", PStr text)]
            "url" "") with "".
  rewrite Ht, firstn_nil. reflexivity.
Qed.

(** X3.  A response that is an object with an [answer] and no [results] gives,
    for [max_results >= 1]: when the answer is a string, exactly one source
    titled "Direct Answer" with an empty url and the marker "[1]" if the
    sanitized answer has at least [min_content_length] characters, and no
    source otherwise; when the answer is not a string, [AttributeError]. *)
Theorem X3_direct_answer (json_loads : string -> Decoded)
  (d : list (string * PyVal)) (answer : PyVal) mr maxl minl :
  dict_lookup "results" d = None ->
  dict_lookup "answer" d = Some answer ->
  (1 <= mr)%Z ->
  process_search_results_for_ai json_loads (PDict d) mr maxl minl
  = match answer with
    | PStr text => single_source "Direct Answer" text maxl minl
    | _ => Raise AttributeError
    end.
Proof.
  intros Hres Hans Hmr.
  assert (Hraw : raw_results_of json_loads (PDict d)
                 = Ok [PDict [("title", PStr "Direct Answer"); ("url", PStr "");
                              ("content", answer)]]).
  { unfold raw_results_of, extract_tavily_results. now rewrite Hres, Hans. }
  destruct answer as [| b | z | text | l | d'];
    [ | | | now apply process_single | | ];
    unfold process_search_results_for_ai, extract_tavily_results;
    rewrite Hres, Hans; cbn [bind py_iter];
    rewrite process_loop_dict;
    (destruct (Z.geb_spec (Z.of_nat 0) mr); [simpl in *; lia | reflexivity]).
Qed.

Lemma X3_witness :
  process_search_results_for_ai no_json
    (PDict [("answer", PStr "  Paris is the   capital of France. ")]) 5 1500 20
  = Ok ([format_source 1 "Direct Answer" "" "Paris is the capital of France."],
        [source_meta "Direct Answer" "" "Paris is the capital of France." "[1]"]).
Proof.
  refine (X3_direct_answer no_json
            [("answer", PStr "  Paris is the   capital of France. ")] _ 5 1500 20
            eq_refl eq_refl _).
  lia.
Defined.

(** X4.  A response that is a text goes through [json.loads].  When the
    decoder returns an object with [results], the call continues as on that
    object.  When it returns anything else, or raises
    [json.JSONDecodeError], the text is treated as one raw result: for
    [max_results >= 1] it gives exactly one source titled "Search Result"
    whose content is the sanitized text, if that has at least
    [min_content_length] characters, and no source otherwise.  Any other
    exception of the decoder is not caught and leaves the call. *)
Theorem X4_text_response (json_loads : string -> Decoded)
  (text : string) mr maxl minl :
  (1 <= mr)%Z ->
  process_search_results_for_ai json_loads (PStr text) mr maxl minl
  = match json_loads text with
    | Document (PDict d) =>
        match dict_lookup "results" d with
        | Some _ => process_search_results_for_ai json_loads (PDict d) mr maxl minl
        | None => single_source "Search Result" text maxl minl
        end
    | Document _ => single_source "Search Result" text maxl minl
    | JSONDecodeError => single_source "Search Result" text maxl minl
    | DecodeRaises e => Raise e
    end.
Proof.
  intros Hmr.
  assert (Hwrap : raw_results_of json_loads (PStr text)
                  = Ok [PDict [("title", PStr "Search Result"); ("url", PStr "");
                               ("content", PStr text)]] ->
                  process_search_results_for_ai json_loads (PStr text) mr maxl minl
                  = single_source "Search Result" text maxl minl).
  { intros Hraw. now apply process_single. }
  unfold raw_results_of in Hwrap.
  unfold process_search_results_for_ai in *. cbn [extract_tavily_results] in *.
  destruct (json_loads text) as [[| b | z | s | l | d] | | e];
    try (apply Hwrap; reflexivity); [|reflexivity].
  destruct (dict_lookup "results" d) as [results|]; [reflexivity|].
  apply Hwrap; reflexivity.
Qed.

Lemma X4_witness :
  process_search_results_for_ai no_json (PStr "plain text answer of some length") 5 1500 20
  = Ok ([format_source 1 "Search Result" "" "plain text answer of some length"],
        [source_meta "Search Result" "" "plain text answer of some length" "[1]"]).
Proof.
  refine (X4_text_response no_json "plain text answer of some length" 5 1500 20 _).
  lia.
Defined.

(** ** [validate_ai_response] *)

Lemma lit_match_found (l s : string) (prev : option ascii) :
  ci_prefix l s = true -> exists p rest, lit_match l prev s = Some (p, rest).
Proof.
  intros H. destruct (lit_match l prev s) as [[p rest]|] eqn:E.
  - now exists p, rest.
  - apply lit_match_prefix in E. congruence.
Qed.

Lemma leading_word_found (w t : string) :
  In w ["Error"; "Sorry"; "Cannot"; "Unable"] ->
  ci_prefix w t = true ->
  search (Seq Bol (Alt (Lit "Error") (Alt (Lit "Sorry") (Alt (Lit "Cannot") (Lit "Unable")))))
    t = true.
Proof.
  intros Hw Hp. unfold search.
  assert (Hm : match_here
                 (Seq Bol (Alt (Lit "Error") (Alt (Lit "Sorry")
                                                (Alt (Lit "Cannot") (Lit "Unable")))))
                 None t <> None).
  { unfold match_here. cbn [rmatch].
    destruct (lit_match "Error" None t) as [[p1 r1]|] eqn:E1; [discriminate|].
    destruct (lit_match "Sorry" None t) as [[p2 r2]|] eqn:E2; [discriminate|].
    destruct (lit_match "Cannot" None t) as [[p3 r3]|] eqn:E3; [discriminate|].
    destruct (lit_match "Unable" None t) as [[p4 r4]|] eqn:E4; [discriminate|].
    apply lit_match_prefix in E1, E2, E3, E4.
    simpl in Hw. destruct Hw as [<-|[<-|[<-|[<-|[]]]]]; congruence. }
  destruct t as [|c t]; cbn [search_from];
    destruct (match_here _ None _); congruence.
Qed.

(** X5.  A response whose trimmed text begins with "Error", "Sorry", "Cannot"
    or "Unable", in any letter case, is rejected whatever [min_length] is. *)
Theorem X5_leading_failure_word_rejected (s w : string) (min_length : Z) :
  In w ["Error"; "Sorry"; "Cannot"; "Unable"] ->
  ci_prefix w (strip s) = true ->
  validate_ai_response (PStr s) min_length = false.
Proof.
  intros Hw Hp. unfold validate_ai_response.
  destruct (is_empty s); [reflexivity|].
  destruct (len (strip s) <? min_length)%Z; [reflexivity|].
  unfold error_patterns. cbn [existsb].
  now rewrite (leading_word_found w (strip s) Hw Hp).
Qed.

Lemma X5_witness :
  validate_ai_response (PStr "  sorry, I could not find anything about this topic.") 10 = false.
Proof.
  apply (X5_leading_failure_word_rejected _ "Sorry" 10).
  - simpl. tauto.
  - reflexivity.
Defined.

(** X6.  An accepted response is a string whose trimmed text has at least
    [min_length] characters, and it stays accepted under every smaller
    [min_length]. *)
Theorem X6_accepted_response (v : PyVal) (min_length : Z) :
  validate_ai_response v min_length = true ->
  exists s,
    v = PStr s /\
    (min_length <= len (strip s))%Z /\
    forall m, (m <= min_length)%Z -> validate_ai_response v m = true.
Proof.
  unfold validate_ai_response. destruct v as [| b | z | s | l | d]; try discriminate.
  intros H. exists s. split; [reflexivity|].
  destruct (is_empty s); [discriminate|].
  destruct (Z.ltb_spec (len (strip s)) min_length) as [Hlt|Hge]; [discriminate|].
  split; [assumption|].
  intros m Hm. destruct (Z.ltb_spec (len (strip s)) m); [lia | assumption].
Qed.

Lemma X6_witness :
  exists s,
    PStr "The capital of France is Paris [1]." = PStr s /\
    (20 <= len (strip s))%Z /\
    forall m, (m <= 20)%Z ->
      validate_ai_response (PStr "The capital of France is Paris [1].") m = true.
Proof.
  apply (X6_accepted_response (PStr "The capital of France is Paris [1].") 20).
  vm_compute. reflexivity.
Defined.

(** ** [process_citations_in_response] *)

Lemma prefix_nil (s : string) : String.prefix "" s = true.
Proof. now destruct s. Qed.

Lemma prefix_split (a : string) : forall s,
  String.prefix a s = true -> exists t, s = a ++ t.
Proof.
  induction a as [|c a IH]; intros s H.
  - now exists s.
  - destruct s as [|c' s]; [discriminate|]. simpl in H.
    destruct (ascii_dec c c') as [->|]; [|discriminate].
    destruct (IH s H) as [t ->]. now exists t.
Qed.

Lemma prefix_app_same (a : string) : forall t, String.prefix a (a ++ t) = true.
Proof.
  induction a as [|c a IH]; intros t; simpl; [apply prefix_nil|].
  destruct (ascii_dec c c); [apply IH | contradiction].
Qed.

Lemma contains_prefix (a s : string) : String.prefix a s = true -> contains a s = true.
Proof. intros H. destruct s; cbn [contains]; now rewrite H. Qed.

Lemma contains_skip (b : string) : forall a t,
  contains b t = true -> contains b (a ++ t) = true.
Proof.
  induction a as [|c a IH]; intros t H; [assumption|].
  change (String c a ++ t) with (String c (a ++ t)). cbn [contains].
  rewrite (IH t H). now destruct (String.prefix b (String c (a ++ t))).
Qed.

Lemma contains_tail (b : string) (c : ascii) (s : string) :
  contains b s = true -> contains b (String c s) = true.
Proof. apply (contains_skip b (String c "") s). Qed.

(** Where a pattern built on [b] occurs, [b] occurs. *)
Lemma contains_app_r (a b : string) : forall s,
  contains (a ++ b) s = true -> contains b s = true.
Proof.
  induction s as [|c s IH]; intros H.
  - cbn [contains] in H. destruct (String.prefix (a ++ b) "") eqn:E; [|discriminate].
    destruct (prefix_split _ _ E) as [t Ht].
    destruct a; [|discriminate]. simpl in Ht.
    destruct b; [reflexivity | discriminate].
  - cbn [contains] in H.
    destruct (String.prefix (a ++ b) (String c s)) eqn:E.
    + destruct (prefix_split _ _ E) as [t Ht]. rewrite Ht, str_app_assoc.
      apply contains_skip, contains_prefix, prefix_app_same.
    + apply contains_tail. now apply IH.
Qed.

Lemma replace_from_absent (old new : string) : forall s,
  contains old s = false -> replace_from old new s 0 = s.
Proof.
  induction s as [|c s IH]; intros H; [reflexivity|].
  cbn [contains] in H. cbn [replace_from].
  destruct (String.prefix old (String c s)); [discriminate|].
  f_equal. now apply IH.
Qed.

(** [s.replace(old, new)] is [s] when [old] does not occur in [s]. *)
Lemma replace_absent (old new s : string) :
  contains old s = false -> replace old new s = s.
Proof.
  intros H. destruct old as [|c old].
  - destruct s; simpl in H; discriminate.
  - now apply replace_from_absent.
Qed.

Lemma replace_if_present_absent (pattern short_url s : string) :
  contains pattern s = false -> replace_if_present pattern short_url s = s.
Proof. intros H. unfold replace_if_present. now rewrite H. Qed.

Lemma contains_app_r_false (a b s : string) :
  contains b s = false -> contains (a ++ b) s = false.
Proof.
  intros H. destruct (contains (a ++ b) s) eqn:E; [|reflexivity].
  apply contains_app_r in E. congruence.
Qed.

Lemma citation_step_unmentioned (text : string) (source : SourceMeta) (short_url : string) :
  unmentioned text source ->
  cite_title (dict_get source "title" "") short_url
    (if (negb (is_empty (dict_get source "url" "")) && negb (is_empty short_url))%bool
     then replace_domain_references (dict_get source "url" "") short_url
            (replace (dict_get source "url" "") short_url text)
     else text)
  = text.
Proof.
  intros [Hurl Htitle].
  assert (E : (if (negb (is_empty (dict_get source "url" "")) && negb (is_empty short_url))%bool
               then replace_domain_references (dict_get source "url" "") short_url
                      (replace (dict_get source "url" "") short_url text)
               else text) = text).
  { destruct Hurl as [->|[Hu Hd]]; [reflexivity|].
    destruct (negb (is_empty (dict_get source "url" "")) && negb (is_empty short_url))%bool;
      [|reflexivity].
    rewrite (replace_absent _ _ _ Hu). unfold replace_domain_references.
    destruct (nth_error (split "/" (dict_get source "url" "")) 2) as [domain|];
      [|reflexivity].
    specialize (Hd domain eq_refl). rewrite Hd. cbn [andb fold_left].
    rewrite (replace_if_present_absent ("https://" ++ domain))
      by now apply contains_app_r_false.
    rewrite (replace_if_present_absent ("http://" ++ domain))
      by now apply contains_app_r_false.
    now apply replace_if_present_absent. }
  rewrite E. unfold cite_title.
  destruct (negb (is_empty (dict_get source "title" ""))); [|reflexivity]. cbn [andb].
  destruct Htitle as [Hlen|Hno].
  - destruct (Z.gtb_spec (len (dict_get source "title" "")) 20); [lia | reflexivity].
  - destruct (len (dict_get source "title" "") >? 20)%Z; [|reflexivity].
    now rewrite Hno.
Qed.

Lemma citations_loop_unmentioned (text : string) : forall sources i,
  Forall (unmentioned text) sources -> citations_loop sources i text = text.
Proof.
  induction sources as [|source rest IH]; intros i H; [reflexivity|].
  inversion H as [|? ? Hs Hrest]; subst.
  cbn [citations_loop]. cbv zeta.
  rewrite citation_step_unmentioned by assumption. now apply IH.
Qed.

(** X7.  A response that mentions none of the sources (for each source: not
    its url, not the domain of its url, and not its title when the title has
    more than 20 characters, compared without case) is returned unchanged;
    sources with an empty url and a short title never change a text. *)
Theorem X7_unmentioned_sources_change_nothing (text : string) (sources : list SourceMeta) :
  Forall (unmentioned text) sources ->
  process_citations_in_response text sources = text.
Proof. apply citations_loop_unmentioned. Qed.

Lemma X7_witness :
  process_citations_in_response "Rates rose in May, as reported."
    [ source_meta "A" "http://example-news.org/rates" "text" "[1]";
      source_meta "Quarterly report of the central bank" "" "text" "[2]" ]
  = "Rates rose in May, as reported.".
Proof.
  apply X7_unmentioned_sources_change_nothing.
  constructor; [|constructor; [|constructor]].
  - split.
    + right. split; [reflexivity|]. intros domain H. inversion H. reflexivity.
    + left. vm_compute. discriminate.
  - split.
    + now left.
    + right. reflexivity.
Defined.

(** ** [finalize_answer]: errors, order and the reference list *)

Lemma finalize_loop_key_error : forall sources content unique_sources citation_map,
  Exists (fun s => dict_lookup "short_url" s = None) sources ->
  finalize_loop sources content unique_sources citation_map = Raise KeyError.
Proof.
  induction sources as [|s rest IH]; intros content u cm H.
  - inversion H.
  - cbn [finalize_loop]. unfold dict_getitem.
    destruct (dict_lookup "short_url" s) as [m|] eqn:Em; [|reflexivity].
    cbn [bind].
    inversion H as [? ? Hs|? ? Hrest]; subst; [congruence|].
    destruct (contains m content); now apply IH.
Qed.

(** X8.  If any accumulated source has no [short_url] key, [finalize_answer]
    raises [KeyError], whatever the answer text and the other sources are. *)
Theorem X8_missing_marker_key_raises (content : string) (sources : list SourceMeta) :
  Exists (fun s => dict_lookup "short_url" s = None) sources ->
  finalize_answer content sources = Raise KeyError.
Proof.
  intros H. unfold finalize_answer. now rewrite finalize_loop_key_error.
Qed.

Lemma X8_witness :
  finalize_answer "See [1] and [2]."
    [ source_meta "A" "http://a.org" "text" "[1]";
      [("title", "B"); ("url", "http://b.org")] ]
  = Raise KeyError.
Proof.
  apply X8_missing_marker_key_raises.
  apply Exists_cons_tl. apply Exists_cons_hd. reflexivity.
Defined.

Lemma subseq_length {A : Type} (l1 l2 : list A) :
  subseq l1 l2 -> List.length l1 <= List.length l2.
Proof. induction 1; simpl; lia. Qed.

Lemma finalize_loop_shape : forall sources content unique_sources citation_map c' u' cm',
  (forall k w, In (k, w) citation_map -> k < List.length unique_sources + 1) ->
  finalize_loop sources content unique_sources citation_map = Ok (c', u', cm') ->
  exists accepted,
    u' = (unique_sources ++ accepted)%list /\
    subseq accepted sources /\
    (accepted = [] -> c' = content) /\
    cm' = (citation_map
             ++ combine (seq (List.length unique_sources + 1) (List.length accepted))
                  accepted)%list.
Proof.
  induction sources as [|s rest IH]; intros content u cm c' u' cm' Hkeys Hrun.
  - simpl in Hrun. inversion Hrun; subst. exists []. simpl.
    rewrite !app_nil_r. repeat split. constructor.
  - cbn [finalize_loop] in Hrun. unfold dict_getitem in Hrun.
    destruct (dict_lookup "short_url" s) as [m|]; [|discriminate].
    cbn [bind] in Hrun.
    destruct (contains m content).
    + rewrite dict_set_fresh in Hrun by assumption.
      apply IH in Hrun.
      * destruct Hrun as (acc & Hu & Hsub & _ & Hcm).
        exists (s :: acc). repeat split.
        -- rewrite Hu. now rewrite <- app_assoc.
        -- now constructor.
        -- discriminate.
        -- rewrite Hcm. rewrite List.length_app. simpl List.length.
           rewrite <- app_assoc. simpl.
           replace (List.length u + 1 + 1) with (S (List.length u + 1)) by lia.
           reflexivity.
      * intros k w Hin. rewrite List.length_app. simpl List.length.
        apply in_app_or in Hin. destruct Hin as [Hin|[Hin|[]]].
        -- specialize (Hkeys k w Hin). lia.
        -- inversion Hin. lia.
    + apply IH in Hrun; [|assumption].
      destruct Hrun as (acc & Hu & Hsub & Hc & Hcm).
      exists acc. repeat split; try assumption. now constructor.
Qed.

Lemma fold_numbered_lines (sources : list SourceMeta) : forall n section,
  fold_left (fun acc entry => acc ++ reference_line (fst entry) (snd entry))
    (combine (seq n (List.length sources)) sources) section
  = section ++ reference_lines n sources.
Proof.
  induction sources as [|s rest IH]; intros n section; simpl.
  - now rewrite str_app_nil_r.
  - rewrite IH. now rewrite str_app_assoc.
Qed.

(** X9.  Whatever the sources hold, a successful [finalize_answer] returns
    sources taken from the accumulated ones in their order; when it returns
    none the text is the answer unchanged, and otherwise the text ends with
    the header and one line per returned source, numbered from 1 in the order
    returned. *)
Theorem X9_accepted_sources_in_order (content : string) (sources : list SourceMeta)
  (text : string) (accepted : list SourceMeta) :
  finalize_answer content sources = Ok (text, accepted) ->
  subseq accepted sources /\
  List.length accepted <= List.length sources /\
  (accepted = [] -> text = content) /\
  (accepted <> [] ->
   exists body, text = body ++ references_header ++ reference_lines 1 accepted).
Proof.
  unfold finalize_answer. intros H.
  destruct (finalize_loop sources content [] []) as [[[c' u'] cm']|] eqn:E;
    [|discriminate].
  apply finalize_loop_shape in E; [|intros k w []].
  destruct E as (acc & Hu & Hsub & Hc & Hcm). simpl in Hu, Hcm. subst u' cm'.
  cbn [bind] in H.
  destruct acc as [|a acc]; inversion H; subst.
  - repeat split; [constructor || apply subseq_nil_l | simpl; lia | auto | ].
    intros Hne. now destruct Hne.
  - repeat split; try assumption.
    + now apply subseq_length.
    + discriminate.
    + intros _. exists c'. f_equal.
      apply (fold_numbered_lines (a :: acc) 1 references_header).
Qed.

Lemma X9_witness :
  subseq [source_meta "B" "http://b.org" "text" "[7]"]
    [ source_meta "A" "http://a.org" "text" "[3]";
      source_meta "B" "http://b.org" "text" "[7]" ] /\
  1 <= 2 /\
  ([source_meta "B" "http://b.org" "text" "[7]"] = [] ->
   "As shown in [1]." ++ references_header ++ "1. [B](http://b.org)" ++ nl
   = "As shown in [7].") /\
  ([source_meta "B" "http://b.org" "text" "[7]"] <> [] ->
   exists body,
     "As shown in [1]." ++ references_header ++ "1. [B](http://b.org)" ++ nl
     = body ++ references_header
       ++ reference_lines 1 [source_meta "B" "http://b.org" "text" "[7]"]).
Proof.
  apply (X9_accepted_sources_in_order "As shown in [7]."
           [ source_meta "A" "http://a.org" "text" "[3]";
             source_meta "B" "http://b.org" "text" "[7]" ]).
  vm_compute. reflexivity.
Defined.

Lemma replace_from_self (c0 : ascii) (o : string) : forall s k,
  replace_from (String c0 o) (String c0 o) s k = drop k s.
Proof.
  induction s as [|c s IH]; intros k.
  - now destruct k.
  - destruct k as [|k]; cbn [replace_from drop]; [|apply IH].
    destruct (String.prefix (String c0 o) (String c s)) eqn:E.
    + destruct (prefix_split _ _ E) as [t Ht].
      simpl in Ht. inversion Ht; subst c s.
      rewrite IH.
      replace (String.length (String c0 o) - 1) with (String.length o)
        by (cbn [String.length]; lia).
      now rewrite drop_app.
    + now rewrite IH.
Qed.

(** Replacing a marker by itself changes nothing. *)
Lemma replace_self (old s : string) : replace old old s = s.
Proof.
  destruct old as [|c old].
  - simpl. induction s as [|a s IH]; simpl; [reflexivity | now rewrite IH].
  - apply (replace_from_self c old s 0).
Qed.

Lemma finalize_loop_all_cited : forall sources content unique_sources citation_map,
  (forall k w, In (k, w) citation_map -> k < List.length unique_sources + 1) ->
  (forall i s, nth_error sources i = Some s ->
     dict_lookup "short_url" s = Some (marker (List.length unique_sources + i + 1)) /\
     contains (marker (List.length unique_sources + i + 1)) content = true) ->
  finalize_loop sources content unique_sources citation_map
  = Ok (content, (unique_sources ++ sources)%list,
        (citation_map
           ++ combine (seq (List.length unique_sources + 1) (List.length sources))
                sources)%list).
Proof.
  induction sources as [|s rest IH]; intros content u cm Hkeys H.
  - simpl. now rewrite !app_nil_r.
  - destruct (H 0 s eq_refl) as [Hm Hc]. rewrite Nat.add_0_r in Hm, Hc.
    cbn [finalize_loop]. unfold dict_getitem. rewrite Hm. cbn [bind]. rewrite Hc.
    fold (marker (List.length u + 1)). rewrite replace_self.
    rewrite dict_set_fresh by assumption.
    rewrite IH.
    + rewrite List.length_app. simpl List.length. rewrite <- !app_assoc. simpl.
      replace (List.length u + 1 + 1) with (S (List.length u + 1)) by lia.
      reflexivity.
    + intros k w Hin. rewrite List.length_app. simpl List.length.
      apply in_app_or in Hin. destruct Hin as [Hin|[Hin|[]]].
      * specialize (Hkeys k w Hin). lia.
      * inversion Hin. lia.
    + intros i s' Hi. rewrite List.length_app. simpl List.length.
      replace (List.length u + 1 + i + 1) with (List.length u + S i + 1) by lia.
      now apply (H (S i) s').
Qed.

(** X10.  When the sources carry the markers "[1]", "[2]", ... in order, as
    the records of one call of [process_search_results_for_ai] do, and each
    marker occurs in the answer, [finalize_answer] keeps the answer as it is,
    returns every source, and appends the references for all of them in
    order. *)
Theorem X10_all_cited_keeps_answer (content : string) (sources : list SourceMeta) :
  sources <> [] ->
  (forall i s, nth_error sources i = Some s ->
     dict_lookup "short_url" s = Some (marker (i + 1)) /\
     contains (marker (i + 1)) content = true) ->
  finalize_answer content sources
  = Ok (content ++ references_header ++ reference_lines 1 sources, sources).
Proof.
  intros Hne H. unfold finalize_answer.
  rewrite finalize_loop_all_cited; [|intros k w []|exact H].
  destruct sources as [|s rest]; [contradiction|].
  cbn [bind app]. change (List.length (@nil SourceMeta) + 1) with 1.
  apply f_equal. apply (f_equal (fun x => (x, s :: rest))).
  apply (f_equal (String.append content)).
  exact (fold_numbered_lines (s :: rest) 1 references_header).
Qed.

Lemma X10_witness :
  finalize_answer "Foxes jump [1]; the facts are plain [2]." sample_records
  = Ok ("Foxes jump [1]; the facts are plain [2]." ++ references_header
          ++ reference_lines 1 sample_records,
        sample_records).
Proof.
  apply X10_all_cited_keeps_answer.
  - discriminate.
  - intros [|[|i]] s Hi;
      [ inversion Hi; subst; split; reflexivity
      | inversion Hi; subst; split; reflexivity
      | destruct i; discriminate ].
Defined.

(** ** [validate_and_clean_content]: size and whitespace of the output *)

Lemma strip_length (s : string) : String.length (strip s) <= String.length s.
Proof.
  unfold strip.
  destruct (lstrip_suffix s) as [u Hu].
  destruct (rstrip_prefix (lstrip s)) as [t Ht].
  rewrite Hu at 2. rewrite Ht at 2. rewrite !str_length_app. lia.
Qed.

Lemma removal_length (r : re) : forall s prev skip,
  String.length (sub_from r "" prev s skip) <= String.length s.
Proof.
  induction s as [|c s IH]; intros prev skip.
  - simpl. destruct skip; [destruct (match_here r prev "")|]; simpl; lia.
  - destruct skip as [|k]; cbn [sub_from].
    + destruct (match_here r prev (String c s)) as [rest|].
      * destruct (String.length (String c s) - String.length rest) as [|n].
        -- simpl. specialize (IH (Some c) 0). lia.
        -- simpl. specialize (IH (Some c) n). lia.
      * simpl. specialize (IH (Some c) 0). lia.
    + simpl. specialize (IH (Some c) k). lia.
Qed.

Lemma collapse_length : forall s prev skip,
  String.length (sub_from (GreedyPlus is_space) " " prev s skip) <= String.length s.
Proof.
  induction s as [|c s IH]; intros prev skip.
  - simpl. destruct skip; simpl; lia.
  - destruct skip as [|k].
    + destruct (is_space c) eqn:Ec.
      * destruct (ws_sub_space prev c s Ec) as (u & _ & ->).
        simpl. specialize (IH (Some c) (String.length u)). lia.
      * rewrite (ws_sub_other prev c s Ec).
        simpl. specialize (IH (Some c) 0). lia.
    + cbn [sub_from]. simpl. specialize (IH (Some c) k). lia.
Qed.

(** X11.  Sanitizing never lengthens: the output of
    [validate_and_clean_content] has at most as many characters as the raw
    content. *)
Theorem X11_sanitized_not_longer (c : string) :
  (len (validate_and_clean_content (PStr c)) <= len c)%Z.
Proof.
  rewrite validate_and_clean_content_str. unfold len.
  destruct (is_empty c); [simpl; lia|].
  apply inj_le.
  eapply Nat.le_trans; [apply strip_length|].
  unfold sub.
  eapply Nat.le_trans; [apply removal_length|].
  eapply Nat.le_trans; [apply removal_length|].
  eapply Nat.le_trans; [apply removal_length|].
  eapply Nat.le_trans; [apply removal_length|].
  eapply Nat.le_trans; [apply removal_length|].
  unfold collapse_whitespace, sub.
  eapply Nat.le_trans; [apply collapse_length|].
  apply strip_length.
Qed.

Lemma normal_no_double_space (s a b : string) (c1 c2 : ascii) :
  normal s = true ->
  s = a ++ String c1 (String c2 b) ->
  is_space c1 = true -> is_space c2 = false.
Proof.
  unfold normal. intros Hn -> H1.
  destruct (normal_from_app_r _ _ _ Hn) as [b' Hb]. simpl in Hb.
  rewrite H1 in Hb.
  apply andb_true_iff in Hb. destruct Hb as [_ Hb].
  destruct (is_space c2); [|reflexivity].
  apply andb_true_iff in Hb. destruct Hb as [Hb _].
  apply andb_true_iff in Hb. destruct Hb as [_ Hb]. discriminate.
Qed.

Lemma normal_only_spaces (s a b : string) (c : ascii) :
  normal s = true ->
  s = a ++ String c b ->
  is_space c = true -> c = " "%char.
Proof.
  unfold normal. intros Hn -> Hc.
  destruct (normal_from_app_r _ _ _ Hn) as [b' Hb]. simpl in Hb.
  rewrite Hc in Hb.
  apply andb_true_iff in Hb. destruct Hb as [Hb _].
  apply andb_true_iff in Hb. destruct Hb as [Hb _].
  now apply Ascii.eqb_eq in Hb.
Qed.

(** X12.  Whatever the input, the output of [validate_and_clean_content] has
    no whitespace at either end ([strip] leaves it unchanged), its only
    whitespace character is the space, and no two whitespace characters are
    adjacent. *)
Theorem X12_sanitized_whitespace (v : PyVal) :
  let out := validate_and_clean_content v in
  strip out = out /\
  (forall a b c, out = a ++ String c b -> is_space c = true -> c = " "%char) /\
  (forall a b c1 c2, out = a ++ String c1 (String c2 b) ->
                     is_space c1 = true -> is_space c2 = false).
Proof.
  cbv zeta.
  assert (H : strip (validate_and_clean_content v) = validate_and_clean_content v /\
              normal (validate_and_clean_content v) = true).
  { destruct v as [| b | z | s | l | d]; try (split; reflexivity).
    destruct (sanitized_shape s) as (Hs & Hn & _). now split. }
  destruct H as [Hs Hn]. split; [assumption|]. split.
  - intros a b c E Hc. now apply (normal_only_spaces _ a b c Hn E).
  - intros a b c1 c2 E H1. now apply (normal_no_double_space _ a b c1 c2 Hn E).
Qed.

(** ** Routing in [graph.py] *)

Lemma enumerate_from_snd {A : Type} (l : list A) : forall k,
  map snd (enumerate_from k l) = l.
Proof. induction l as [|x l IH]; intros k; simpl; [reflexivity | now rewrite IH]. Qed.

Lemma enumerate_from_fst {A : Type} (l : list A) : forall k,
  map fst (enumerate_from k l) = seq k (List.length l).
Proof. induction l as [|x l IH]; intros k; simpl; [reflexivity | now rewrite IH]. Qed.

Lemma send_queries (f : nat -> Z) (l : list string) :
  map send_search_query (map (fun p => mkSend "web_research" (snd p) (f (fst p))) (enumerate l))
  = l.
Proof.
  rewrite map_map. simpl. change (fun x : nat * string => snd x) with (@snd nat string).
  apply enumerate_from_snd.
Qed.

Lemma send_ids (f : nat -> Z) (l : list string) :
  map send_id (map (fun p => mkSend "web_research" (snd p) (f (fst p))) (enumerate l))
  = map f (seq 0 (List.length l)).
Proof.
  rewrite map_map. simpl.
  rewrite <- (enumerate_from_fst l 0), map_map. reflexivity.
Qed.

Lemma shifted_ids (n : nat) : forall m start,
  map (fun i => (Z.of_nat n + Z.of_nat i)%Z) (seq start m)
  = map Z.of_nat (seq (n + start) m).
Proof.
  induction m as [|m IH]; intros start; simpl; [reflexivity|].
  rewrite IH. f_equal; [lia|]. f_equal. f_equal. lia.
Qed.

(** X13.  [continue_to_web_research] gives the initial queries the ids
    0, 1, ... in order, and [evaluate_research], when it fans out, gives the
    follow-up queries the ids that follow [number_of_ran_queries]; when that
    count is the number of queries already run, as [reflection] sets it, no
    id is used twice. *)
Theorem X13_research_ids_distinct (queries : list string) (state : ReflectionState)
  (state_max : StateInt) (configured_max : Z) (sends : list Send) :
  evaluate_research state state_max configured_max = Sends sends ->
  number_of_ran_queries state = Z.of_nat (List.length queries) ->
  map send_search_query (continue_to_web_research queries) = queries /\
  map send_id (continue_to_web_research queries)
  = map Z.of_nat (seq 0 (List.length queries)) /\
  map send_search_query sends = follow_up_queries state /\
  map send_id sends
  = map (fun i => (number_of_ran_queries state + Z.of_nat i)%Z)
      (seq 0 (List.length (follow_up_queries state))) /\
  NoDup (map send_id (continue_to_web_research queries ++ sends)).
Proof.
  unfold evaluate_research, continue_to_web_research. intros Hroute Hran.
  destruct (is_sufficient state || _)%bool; [discriminate|].
  inversion Hroute; subst sends.
  assert (H1 := send_queries Z.of_nat queries).
  assert (H2 := send_ids Z.of_nat queries).
  assert (H3 := send_queries (fun i => (number_of_ran_queries state + Z.of_nat i)%Z)
                  (follow_up_queries state)).
  assert (H4 := send_ids (fun i => (number_of_ran_queries state + Z.of_nat i)%Z)
                  (follow_up_queries state)).
  repeat split; try assumption.
  rewrite map_app, H2, H4, Hran, shifted_ids, Nat.add_0_r, <- map_app, <- seq_app.
  apply NoDup_map_injective; [|apply seq_NoDup].
  intros x y. apply Nat2Z.inj.
Qed.

Lemma X13_witness :
  map send_search_query (continue_to_web_research ["rates 2024"; "inflation"])
  = ["rates 2024"; "inflation"] /\
  map send_id (continue_to_web_research ["rates 2024"; "inflation"])
  = map Z.of_nat (seq 0 2) /\
  map send_search_query
    [mkSend "web_research" "rates by country" 2; mkSend "web_research" "rates history" 3]
  = ["rates by country"; "rates history"] /\
  map send_id
    [mkSend "web_research" "rates by country" 2; mkSend "web_research" "rates history" 3]
  = map (fun i => (2 + Z.of_nat i)%Z) (seq 0 2) /\
  NoDup (map send_id
           (continue_to_web_research ["rates 2024"; "inflation"]
            ++ [mkSend "web_research" "rates by country" 2;
                mkSend "web_research" "rates history" 3])).
Proof.
  apply (X13_research_ids_distinct ["rates 2024"; "inflation"]
           (mkReflectionState false "gap" ["rates by country"; "rates history"] 1 2)
           Absent 3).
  - reflexivity.
  - reflexivity.
Defined.

(** ** The fallback of [reflection] *)

(** X14.  When the state sets no [max_research_loops] and its loop count is
    absent or not negative, the fallback reflection declares the research
    sufficient whatever the model answered, with no knowledge gap and no
    follow-up query; a state carrying that verdict makes [evaluate_research]
    route to "finalize_answer". *)
Theorem X14_fallback_stops_by_default (count : StateInt) (search_query : list string)
  (research_topic content : string) :
  (count = Absent \/ exists n, count = IntValue n /\ (0 <= n)%Z) ->
  exists update,
    reflection_fallback count Absent search_query research_topic content = Ok update /\
    is_sufficient update = true /\
    knowledge_gap update = "" /\
    follow_up_queries update = [] /\
    forall state state_max configured_max,
      is_sufficient state = is_sufficient update ->
      evaluate_research state state_max configured_max = Node "finalize_answer".
Proof.
  intros Hc. unfold reflection_fallback.
  assert (Hroute : forall state state_max configured_max,
             is_sufficient state = true ->
             evaluate_research state state_max configured_max = Node "finalize_answer").
  { intros state state_max configured_max H. unfold evaluate_research. now rewrite H. }
  destruct Hc as [->|(n & -> & Hn)]; cbn [bind].
  - eexists. split; [reflexivity|]. simpl. repeat split. exact Hroute.
  - destruct (Z.geb_spec (n + 1) 1) as [_|Hlt]; [|lia].
    eexists. split; [reflexivity|]. simpl. repeat split. exact Hroute.
Qed.

Lemma X14_witness :
  exists update,
    reflection_fallback (IntValue 0) Absent ["rates 2024"] "rates"
      "No. More data on each country is needed." = Ok update /\
    is_sufficient update = true /\
    knowledge_gap update = "" /\
    follow_up_queries update = [] /\
    forall state state_max configured_max,
      is_sufficient state = is_sufficient update ->
      evaluate_research state state_max configured_max = Node "finalize_answer".
Proof.
  apply (X14_fallback_stops_by_default (IntValue 0)).
  right. exists 0%Z. split; [reflexivity | lia].
Defined.

(** X15.  A state whose [max_research_loops] is [None] makes the fallback
    reflection raise [TypeError], while [evaluate_research] treats [None] as
    an absent entry and uses the configured maximum. *)
Theorem X15_none_maximum (count : StateInt) (search_query : list string)
  (research_topic content : string) (state : ReflectionState) (configured_max : Z) :
  reflection_fallback count NoneValue search_query research_topic content = Raise TypeError /\
  evaluate_research state NoneValue configured_max
  = evaluate_research state Absent configured_max.
Proof.
  split; [|reflexivity]. unfold reflection_fallback. now destruct count.
Qed.

Lemma existsb_word (content w : string) (words : list string) :
  In w words -> contains w content = true ->
  existsb (fun word => contains word content) words = true.
Proof.
  intros Hin Hc. apply existsb_exists. now exists w.
Qed.

(** X16.  The fallback reflection looks for its keywords as substrings: an
    answer that says "insufficient", "incomplete", "not enough" or
    "inadequate", in any letter case, is taken as a verdict of sufficiency
    and yields no follow-up query. *)
Theorem X16_negated_keywords_count_as_sufficient (count max_loops : StateInt)
  (search_query : list string) (research_topic content w : string)
  (update : ReflectionState) :
  In w ["insufficient"; "incomplete"; "not enough"; "inadequate"] ->
  contains w (lower content) = true ->
  reflection_fallback count max_loops search_query research_topic content = Ok update ->
  is_sufficient update = true /\ follow_up_queries update = [].
Proof.
  intros Hw Hc. unfold reflection_fallback.
  assert (Hk : existsb (fun word => contains word (lower content)) sufficiency_words = true).
  { simpl in Hw. destruct Hw as [<-|[<-|[<-|[<-|[]]]]].
    - apply (existsb_word _ "sufficient"); [simpl; tauto|].
      apply (contains_app_r "in" "sufficient"), Hc.
    - apply (existsb_word _ "complete"); [simpl; tauto|].
      apply (contains_app_r "in" "complete"), Hc.
    - apply (existsb_word _ "enough"); [simpl; tauto|].
      apply (contains_app_r "not " "enough"), Hc.
    - apply (existsb_word _ "adequate"); [simpl; tauto|].
      apply (contains_app_r "in" "adequate"), Hc. }
  destruct count; cbn [bind]; try discriminate;
    destruct max_loops; cbn [bind]; try discriminate;
    cbv zeta; rewrite Hk;
    match goal with
    | |- context [if ?b then true else true] =>
        replace (if b then true else true) with true by now destruct b
    end;
    intros H; inversion H; subst; split; reflexivity.
Qed.

Lemma X16_witness :
  is_sufficient
    (mkReflectionState true "" [] 1 1) = true /\
  follow_up_queries (mkReflectionState true "" [] 1 1) = [].
Proof.
  apply (X16_negated_keywords_count_as_sufficient (IntValue 0) (IntValue 5)
           ["rates 2024"] "rates" "The information is Insufficient." "insufficient").
  - simpl. tauto.
  - reflexivity.
  - reflexivity.
Defined.

(** ** The text parsing of [generate_query] *)

Lemma drop_suffix_stripped (suffix x : string) :
  strip x = x -> strip (drop_suffix suffix x) = drop_suffix suffix x.
Proof.
  intros H. unfold drop_suffix. destruct (ends_with suffix x); [apply strip_idem | assumption].
Qed.

Lemma clean_query_line_stripped (research_topic line : string) :
  strip (clean_query_line research_topic line) = clean_query_line research_topic line.
Proof.
  unfold clean_query_line, unwanted_suffixes. cbn [fold_left].
  repeat apply drop_suffix_stripped.
  match goal with
  | |- context [if ?b then _ else _] => destruct b
  end; apply strip_idem.
Qed.

Lemma parse_query_lines_clean (research_topic : string) (lines : list string) :
  Forall (fun q => q <> "" /\ strip q = q) (parse_query_lines research_topic lines).
Proof.
  induction lines as [|line rest IH]; simpl; [constructor|].
  destruct (negb (is_empty (strip line)) && negb (String.prefix "#" (strip line))
            && negb (String.prefix "Search query" (strip line)))%bool; [|assumption].
  destruct (clean_query_line research_topic (strip line)) as [|c q] eqn:E;
    [assumption|].
  cbn [is_empty negb]. constructor; [|assumption].
  split; [discriminate|]. rewrite <- E. apply clean_query_line_stripped.
Qed.

Lemma Forall_firstn_of {A : Type} (P : A -> Prop) (n : nat) (l : list A) :
  Forall P l -> Forall P (firstn n l).
Proof.
  intros H. rewrite <- (firstn_skipn n l) in H. now apply Forall_app in H.
Qed.

(** X17.  For [initial_search_query_count >= 1] the text fallback of
    [generate_query] returns at least one and at most
    [initial_search_query_count] queries; they are either the research topic
    alone, when no line of the answer gives a query, or queries that are not
    empty and carry no whitespace at either end. *)
Theorem X17_fallback_queries (content research_topic : string) (count : Z) :
  (1 <= count)%Z ->
  let queries := generate_query_fallback content research_topic count in
  (1 <= Z.of_nat (List.length queries) <= count)%Z /\
  (queries = [research_topic] \/
   Forall (fun q => q <> "" /\ strip q = q) queries).
Proof.
  intros Hc. cbv zeta. unfold generate_query_fallback.
  pose proof (parse_query_lines_clean research_topic (split "010" (strip content))) as Hclean.
  destruct (parse_query_lines research_topic (split "010" (strip content)))
    as [|q qs] eqn:E.
  - split; [simpl; lia | now left].
  - destruct (Z.gtb_spec (Z.of_nat (List.length (q :: qs))) count) as [Hgt|Hle].
    + unfold list_slice_to.
      destruct (Z.ltb_spec count 0); [lia|].
      split.
      * rewrite length_firstn. lia.
      * right. now apply Forall_firstn_of.
    + split; [simpl in *; lia | now right].
Qed.

Lemma X17_witness :
  let queries :=
    generate_query_fallback
      ("Search queries:" ++ nl ++ "1. " ++ String "034" "" ++ "central bank rates 2025"
         ++ String "034" "" ++ nl ++ "# note" ++ nl ++ "2. inflation by country latest"
         ++ nl ++ "3. wage growth report")
      "rates" 2 in
  (1 <= Z.of_nat (List.length queries) <= 2)%Z /\
  (queries = ["rates"] \/ Forall (fun q => q <> "" /\ strip q = q) queries).
Proof.
  apply X17_fallback_queries. lia.
Defined.

(** With a count of zero the queries that were found are all dropped. *)
Lemma fallback_queries_zero_count (content research_topic : string) :
  parse_query_lines research_topic (split "010" (strip content)) <> [] ->
  generate_query_fallback content research_topic 0 = [].
Proof.
  intros H. unfold generate_query_fallback.
  destruct (parse_query_lines research_topic (split "010" (strip content))) as [|q qs];
    [contradiction|].
  reflexivity.
Qed.

(** ** [create_structured_search_prompt] *)

Lemma contains_head (x b : string) : contains x (x ++ b) = true.
Proof. apply contains_prefix, prefix_app_same. Qed.








(** ** The callers: [web_research] and [research_agent] *)

Lemma process_bounded (json_loads : string -> Decoded) resp fs recs :
  process_search_results_for_ai json_loads resp 5 1500 20 = Ok (fs, recs) ->
  bounded_sources recs.
Proof.
  intros Hrun.
  destruct (process_records json_loads _ _ _ _ _ _ Hrun) as (raw & _ & _ & Hcap & Hprod).
  repeat split.
  - destruct Hcap as [->|Hle]; [simpl; lia | lia].
  - apply map_by_rank. intros i r Hi.
    destruct (Hprod i r Hi) as (d & title & url & raw_content & _ & _ & _ & _ & _ & ->).
    simpl. do 2 f_equal. lia.
  - apply Forall_by_rank. intros i r Hi.
    destruct (Hprod i r Hi) as (d & title & url & raw_content & _ & _ & _ & _ & Hmin & ->).
    eexists. split; [reflexivity|].
    rewrite len_truncate by lia.
    destruct (Z.gtb_spec (len (validate_and_clean_content (PStr raw_content))) 1500); lia.
Qed.

Lemma bounded_nil : bounded_sources [].
Proof. repeat split; [simpl; lia | constructor]. Qed.

Lemma validate_string (v : PyVal) (min_length : Z) :
  validate_ai_response v min_length = true -> exists s, v = PStr s.
Proof. destruct v; try discriminate. intros _. now eexists. Qed.

Section CallerFacts.

Variable json_loads : string -> Decoded.
Variable tavily_search : string -> option PyVal.
Variable llm : string -> option PyVal.
Variable current_date : string.

Lemma guard_keeps_bounds (search_results : PyVal) fs recs :
  (guarded <- guard_search_results search_results ;;
   process_search_results_for_ai json_loads guarded 5 1500 20) = Ok (fs, recs) ->
  bounded_sources recs.
Proof.
  destruct (guard_search_results search_results) as [guarded|]; [|discriminate].
  cbn [bind]. apply process_bounded.
Qed.

(** X19.  Whatever the search service and the model return or raise,
    [web_research] returns at most five sources, marked "[1]", "[2]", ... in
    order, each with a content of 20 to 1503 characters; it echoes the query
    as a one-element list and returns exactly one result text; and when that
    text is the error message no source is returned.  The same bounds hold
    for the sources of [research_agent]. *)
Theorem X19_caller_results_bounded (query : string) :
  let update := web_research json_loads tavily_search llm current_date query in
  let answer := research_agent json_loads tavily_search llm current_date query in
  bounded_sources (sources_gathered update) /\
  search_query update = [query] /\
  (exists m, web_research_result update = [m] /\
             forall before e after, m = ErrorText before e after ->
                                    sources_gathered update = []) /\
  bounded_sources (agent_sources_gathered answer) /\
  (exists m, messages answer = [m] /\
             forall before e after, m = ErrorText before e after ->
                                    agent_sources_gathered answer = []).
Proof.
  cbv zeta. unfold web_research, research_agent.
  pose proof bounded_nil as Hnil.
  split; [|split; [|split; [|split]]].
  - destruct (tavily_search query) as [v|]; [|exact Hnil].
    destruct (bind (guard_search_results v) _) as [[fs recs]|] eqn:E; [|exact Hnil].
    apply guard_keeps_bounds in E.
    destruct fs; [exact Hnil|]. destruct (llm _); [|exact Hnil].
    destruct (negb _); [exact E|]. destruct (cite_response _ _); [exact E | exact Hnil].
  - destruct (tavily_search query) as [v|]; [|reflexivity].
    destruct (bind (guard_search_results v) _) as [[fs recs]|]; [|reflexivity].
    destruct fs; [reflexivity|]. destruct (llm _); [|reflexivity].
    destruct (negb _); [reflexivity|]. destruct (cite_response _ _); reflexivity.
  - destruct (tavily_search query) as [v|];
      [|eexists; split; [reflexivity | reflexivity]].
    destruct (bind (guard_search_results v) _) as [[fs recs]|];
      [|eexists; split; [reflexivity | reflexivity]].
    destruct fs; [eexists; split; [reflexivity | discriminate]|].
    destruct (llm _); [|eexists; split; [reflexivity | reflexivity]].
    destruct (negb _); [eexists; split; [reflexivity | discriminate]|].
    destruct (cite_response _ _); eexists; split;
      first [reflexivity | discriminate].
  - destruct (tavily_search query) as [v|]; [|exact Hnil].
    destruct (process_search_results_for_ai json_loads v 5 1500 20) as [[fs recs]|] eqn:E;
      [|exact Hnil].
    apply process_bounded in E.
    destruct fs; [exact Hnil|]. destruct (llm _); [|exact Hnil].
    destruct (negb _); [exact E|]. destruct (cite_response _ _); [exact E | exact Hnil].
  - destruct (tavily_search query) as [v|];
      [|eexists; split; [reflexivity | reflexivity]].
    destruct (process_search_results_for_ai json_loads v 5 1500 20) as [[fs recs]|];
      [|eexists; split; [reflexivity | reflexivity]].
    destruct fs; [eexists; split; [reflexivity | discriminate]|].
    destruct (llm _); [|eexists; split; [reflexivity | reflexivity]].
    destruct (negb _); [eexists; split; [reflexivity | discriminate]|].
    destruct (cite_response _ _); eexists; split;
      first [reflexivity | discriminate].
Qed.

(** X20.  A search response that is not a dictionary (a list of results, a
    text) is discarded by [web_research], which reports that nothing was
    found without consulting the model; [research_agent] passes the same
    response on and, when it holds acceptable results and the model answers,
    returns their sources. *)
Theorem X20_shape_guard (query : string) (search_results : PyVal) :
  (forall d, search_results <> PDict d) ->
  tavily_search query = Some search_results ->
  web_research json_loads tavily_search llm current_date query
  = {| sources_gathered := [];
       search_query := [query];
       web_research_result := [Plain (not_found_text query)] |} /\
  forall fs recs response_content,
    process_search_results_for_ai json_loads search_results 5 1500 20 = Ok (fs, recs) ->
    fs <> [] ->
    llm (create_structured_search_prompt query fs current_date "answer")
    = Some response_content ->
    agent_sources_gathered (research_agent json_loads tavily_search llm current_date query) = recs.
Proof.
  intros Hshape Hsearch.
  unfold web_research, research_agent.
  rewrite Hsearch. split.
  - destruct search_results as [| b | z | s | l | d]; try reflexivity.
    now destruct (Hshape d).
  - intros fs recs response_content Hrun Hfs Hllm. rewrite Hrun.
    destruct fs as [|f fs]; [contradiction|]. rewrite Hllm.
    destruct (validate_ai_response response_content 50) eqn:Ev; [|reflexivity].
    destruct (validate_string _ _ Ev) as [s ->]. reflexivity.
Qed.

(** X21.  When the search returns a dictionary on which
    [process_search_results_for_ai] raises, for instance a result whose title
    is not a string, both callers catch the exception: they return the error
    text built from it and no source. *)
Theorem X21_processing_error_caught (query : string) (d : list (string * PyVal)) (e : exn) :
  tavily_search query = Some (PDict d) ->
  process_search_results_for_ai json_loads (PDict d) 5 1500 20 = Raise e ->
  web_research json_loads tavily_search llm current_date query = web_research_failed query (FromCode e) /\
  research_agent json_loads tavily_search llm current_date query = research_agent_failed (FromCode e).
Proof.
  intros Hsearch Hrun.
  unfold web_research, research_agent.
  rewrite Hsearch, Hrun. split; [|reflexivity].
  unfold guard_search_results, dict_get.
  destruct (dict_lookup "results" d) as [v|] eqn:Ev.
  - destruct v as [| b | z | s | l | d']; cbn [py_len bind]; try (now rewrite Hrun);
      unfold process_search_results_for_ai, extract_tavily_results in Hrun;
      rewrite Ev in Hrun; simpl in Hrun; inversion Hrun; reflexivity.
  - cbn [py_len bind]. now rewrite Hrun.
Qed.

End CallerFacts.

Lemma X20_witness :
  web_research no_json (fun _ => Some (PList [PDict [("content", PStr long_text)]]))
    (fun _ => Some (PStr "ok")) "November 03, 2026" "foxes"
  = {| sources_gathered := [];
       search_query := ["foxes"];
       web_research_result := [Plain (not_found_text "foxes")] |} /\
  forall fs recs response_content,
    process_search_results_for_ai no_json (PList [PDict [("content", PStr long_text)]])
      5 1500 20 = Ok (fs, recs) ->
    fs <> [] ->
    (fun _ : string => Some (PStr "ok"))
      (create_structured_search_prompt "foxes" fs "November 03, 2026" "answer")
    = Some response_content ->
    agent_sources_gathered
      (research_agent no_json (fun _ => Some (PList [PDict [("content", PStr long_text)]]))
         (fun _ => Some (PStr "ok")) "November 03, 2026" "foxes") = recs.
Proof.
  apply (X20_shape_guard no_json
           (fun _ => Some (PList [PDict [("content", PStr long_text)]]))
           (fun _ => Some (PStr "ok")) "November 03, 2026" "foxes"
           (PList [PDict [("content", PStr long_text)]])).
  - discriminate.
  - reflexivity.
Defined.

Lemma X21_witness :
  web_research no_json (fun _ => Some (PDict [("results", PList [untitled_result])]))
    (fun _ => None) "November 03, 2026" "foxes"
  = web_research_failed "foxes" (FromCode AttributeError) /\
  research_agent no_json (fun _ => Some (PDict [("results", PList [untitled_result])]))
    (fun _ => None) "November 03, 2026" "foxes"
  = research_agent_failed (FromCode AttributeError).
Proof.
  apply (X21_processing_error_caught no_json
           (fun _ => Some (PDict [("results", PList [untitled_result])]))
           (fun _ => None) "November 03, 2026" "foxes"
           [("results", PList [untitled_result])] AttributeError).
  - reflexivity.
  - reflexivity.
Defined.

(** ** [validate_ai_response]: the pattern [API.*?(error|failed)] *)

Lemma lit_match_exact (l : string) : forall x prev rest,
  lower x = lower l -> exists p, lit_match l prev (x ++ rest) = Some (p, rest).
Proof.
  induction l as [|a l IH]; intros x prev rest H.
  - destruct x; [|discriminate]. now exists prev.
  - destruct x as [|c x]; [discriminate|]. simpl in H. inversion H as [[Hc Hx]].
    cbn [append lit_match]. unfold ci_eqb. rewrite Hc, Ascii.eqb_refl.
    now apply IH.
Qed.

Lemma lazy_star_reaches (k : K) (u : string) :
  (forall p, k p u <> None) ->
  forall b prev, all_dot b = true -> lazy_star dot k prev (b ++ u) <> None.
Proof.
  intros Hk. induction b as [|c b IH]; intros prev Hb.
  - simpl append. specialize (Hk prev).
    destruct u; cbn [lazy_star]; destruct (k prev _); congruence.
  - simpl in Hb. apply andb_true_iff in Hb. destruct Hb as [Hc Hb].
    change (String c b ++ u) with (String c (b ++ u)). cbn [lazy_star].
    destruct (k prev (String c (b ++ u))); [discriminate|].
    rewrite Hc. now apply IH.
Qed.

Lemma search_from_later (r : re) (t : string) :
  (forall p, match_here r p t <> None) ->
  forall a prev, search_from r prev (a ++ t) = true.
Proof.
  intros Hm. induction a as [|c a IH]; intros prev.
  - simpl append. specialize (Hm prev).
    destruct t; cbn [search_from]; destruct (match_here r prev _); congruence.
  - change (String c a ++ t) with (String c (a ++ t)). cbn [search_from].
    destruct (match_here r prev (String c (a ++ t))); [reflexivity | apply IH].
Qed.

(** X22.  The second failure pattern is looked for anywhere and inside
    words: a response whose trimmed text holds the letters "api" (in any
    case), followed on the same line by "error" or "failed" (in any case), is
    rejected whatever [min_length] is. *)
Theorem X22_api_error_anywhere (s a x b u : string) (min_length : Z) :
  strip s = a ++ x ++ b ++ u ->
  lower x = "api" ->
  all_dot b = true ->
  ci_prefix "error" u = true \/ ci_prefix "failed" u = true ->
  validate_ai_response (PStr s) min_length = false.
Proof.
  intros Hs Hx Hb Hu. unfold validate_ai_response.
  destruct (is_empty s); [reflexivity|].
  destruct (len (strip s) <? min_length)%Z; [reflexivity|].
  unfold error_patterns. cbn [existsb].
  assert (Hfound : search (Seq (Lit "API") (Seq (LazyStar dot)
                                               (Alt (Lit "error") (Lit "failed"))))
                     (strip s) = true).
  { rewrite Hs. unfold search. apply search_from_later. intros p.
    unfold match_here. cbn [rmatch].
    destruct (lit_match_exact "API" x p (b ++ u) Hx) as [p' ->].
    apply lazy_star_reaches; [|assumption].
    intros q.
    destruct (lit_match "error" q u) as [[q1 r1]|] eqn:E1; [discriminate|].
    destruct (lit_match "failed" q u) as [[q2 r2]|] eqn:E2; [discriminate|].
    apply lit_match_prefix in E1, E2. destruct Hu; congruence. }
  rewrite Hfound. now rewrite orb_true_r.
Qed.

Lemma X22_witness :
  validate_ai_response
    (PStr "Therapists reported fewer errors this year, according to the annual survey.")
    20 = false.
Proof.
  apply (X22_api_error_anywhere _ "Ther" "api" "sts reported fewer "
           "errors this year, according to the annual survey.").
  - reflexivity.
  - reflexivity.
  - reflexivity.
  - now left.
Defined.

(** ** [validate_and_clean_content]: the output is made of input characters *)

Lemma chars_app (a b : string) : chars (a ++ b) = (chars a ++ chars b)%list.
Proof. induction a as [|c a IH]; simpl; [reflexivity | now rewrite <- IH]. Qed.

Lemma subseq_refl {A : Type} (l : list A) : subseq l l.
Proof. induction l; constructor; assumption. Qed.

Lemma subseq_app_l {A : Type} (u l : list A) : subseq l (u ++ l).
Proof. induction u; simpl; [apply subseq_refl | now constructor]. Qed.

Lemma subseq_app_r {A : Type} (l t : list A) : subseq l (l ++ t).
Proof. induction l; simpl; [apply subseq_nil_l | now constructor]. Qed.

Lemma subseq_trans {A : Type} (l1 l2 l3 : list A) :
  subseq l1 l2 -> subseq l2 l3 -> subseq l1 l3.
Proof.
  intros H12 H23. revert l1 H12.
  induction H23 as [|x l2 l3 H IH|x l2 l3 H IH]; intros l1 H12.
  - assumption.
  - inversion H12; subst.
    + constructor. now apply IH.
    + apply subseq_skip. now apply IH.
  - apply subseq_skip. now apply IH.
Qed.

Lemma strip_subseq (x : string) : subseq (chars (strip x)) (chars x).
Proof.
  unfold strip.
  destruct (lstrip_suffix x) as [u Hu].
  destruct (rstrip_prefix (lstrip x)) as [t Ht].
  apply subseq_trans with (l2 := chars (lstrip x)).
  - rewrite Ht at 2. rewrite chars_app. apply subseq_app_r.
  - rewrite Hu at 2. rewrite chars_app. apply subseq_app_l.
Qed.

Lemma removal_subseq (r : re) : forall s prev skip,
  subseq (chars (sub_from r "" prev s skip)) (chars s).
Proof.
  induction s as [|c s IH]; intros prev skip.
  - simpl. destruct skip; [destruct (match_here r prev "")|]; constructor.
  - destruct skip as [|k]; cbn [sub_from].
    + destruct (match_here r prev (String c s)) as [rest|].
      * destruct (String.length (String c s) - String.length rest) as [|n].
        -- simpl. constructor. apply IH.
        -- simpl. apply subseq_skip. apply IH.
      * simpl. constructor. apply IH.
    + simpl. apply subseq_skip. apply IH.
Qed.

(** X23.  Noise removal only deletes: the characters of the output of
    [validate_and_clean_content] are characters of the raw content after
    trimming and whitespace collapsing, in the same order. *)
Theorem X23_sanitizer_only_deletes (c : string) :
  subseq (chars (validate_and_clean_content (PStr c)))
         (chars (collapse_whitespace (strip c))).
Proof.
  rewrite validate_and_clean_content_str.
  destruct (is_empty c); [apply subseq_nil_l|].
  eapply subseq_trans; [apply strip_subseq|].
  unfold sub.
  eapply subseq_trans; [apply removal_subseq|].
  eapply subseq_trans; [apply removal_subseq|].
  eapply subseq_trans; [apply removal_subseq|].
  eapply subseq_trans; [apply removal_subseq|].
  apply removal_subseq.
Qed.

(** ** [finalize_answer] against the finalization of the specification *)

Lemma finalize_loop_skip : forall pre rest content unique_sources citation_map,
  Forall (fun s => exists short_url,
            dict_lookup "short_url" s = Some short_url /\
            contains short_url content = false) pre ->
  finalize_loop (pre ++ rest) content unique_sources citation_map
  = finalize_loop rest content unique_sources citation_map.
Proof.
  induction pre as [|s pre IH]; intros rest content u cm H; [reflexivity|].
  inversion H as [|? ? (m & Hm & Hno) Hpre]; subst.
  simpl. unfold dict_getitem. rewrite Hm. cbn [bind]. rewrite Hno. now apply IH.
Qed.

Lemma cited_skip (answer : string) : forall pre rest,
  Forall (fun s => exists short_url,
            dict_lookup "short_url" s = Some short_url /\
            contains short_url answer = false) pre ->
  FinalizeSpec.cited answer (pre ++ rest) = FinalizeSpec.cited answer rest.
Proof.
  induction pre as [|s pre IH]; intros rest H; [reflexivity|].
  inversion H as [|? ? (m & Hm & Hno) Hpre]; subst.
  simpl. unfold FinalizeSpec.citation_marker, dict_get. rewrite Hm, Hno.
  now apply IH.
Qed.

(** Replacing a text that occurs leaves its replacement in the result. *)
Lemma contains_replaced (c0 : ascii) (o new : string) : forall s,
  contains (String c0 o) s = true ->
  contains new (replace_from (String c0 o) new s 0) = true.
Proof.
  induction s as [|c s IH]; intros H.
  - discriminate.
  - cbn [contains] in H. cbn [replace_from].
    destruct (String.prefix (String c0 o) (String c s)).
    + apply contains_head.
    + apply contains_tail. now apply IH.
Qed.

(** C8.  The membership test of [finalize_answer] reads the text that the
    loop has already rewritten, not the answer text.  Let the sources end
    with [A], whose marker occurs in the answer, followed by [B], whose
    marker is "[1]" and does not occur in the answer, the sources before them
    not being cited.  The finalization of the specification accepts [A]
    alone and writes "[1]" for its marker.  [finalize_answer] writes "[1]"
    for the marker of [A], then finds "[1]" in the text at [B]: it accepts
    [B] as well, rewrites the citations of [A] to "[2]", the number of [B],
    and lists both sources. *)
Theorem C8_display_number_collides (content m : string)
  (pre : list SourceMeta) (A B : SourceMeta) :
  Forall (fun s => exists short_url,
            dict_lookup "short_url" s = Some short_url /\
            contains short_url content = false) pre ->
  dict_lookup "short_url" A = Some m ->
  m <> "" ->
  contains m content = true ->
  dict_lookup "short_url" B = Some "[1]" ->
  contains "[1]" content = false ->
  FinalizeSpec.finalize content (pre ++ [A; B])
  = (replace m "[1]" content ++ references_header
       ++ FinalizeSpec.reference_entry (1, A) ++ nl,
     [A]) /\
  finalize_answer content (pre ++ [A; B])
  = Ok (replace "[1]" "[2]" (replace m "[1]" content) ++ references_header
          ++ reference_line 1 A ++ reference_line 2 B,
        [A; B]).
Proof.
  intros Hpre HA Hm HmA HB HnB. split.
  - unfold FinalizeSpec.finalize. rewrite cited_skip by assumption.
    assert (Hcited : FinalizeSpec.cited content [A; B] = [A]).
    { cbn [FinalizeSpec.cited filter]. unfold FinalizeSpec.citation_marker, dict_get.
      now rewrite HA, HB, HmA, HnB. }
    rewrite Hcited.
    cbn [FinalizeSpec.numbered List.length seq combine FinalizeSpec.renumber fold_left
           fst snd map FinalizeSpec.lines fold_right].
    unfold FinalizeSpec.citation_marker at 1. unfold dict_get at 1. rewrite HA.
    change (marker 1) with "[1]".
    unfold references_header. now rewrite !str_app_assoc.
  - unfold finalize_answer. rewrite finalize_loop_skip by assumption.
    cbn [finalize_loop]. unfold dict_getitem. rewrite HA, HB. cbn [bind].
    rewrite HmA. cbn [List.length Nat.add app].
    change ("[" ++ of_nat 1 ++ "]") with "[1]".
    assert (Hfound : contains "[1]" (replace m "[1]" content) = true).
    { destruct m as [|c0 o]; [now destruct Hm|]. now apply contains_replaced. }
    rewrite Hfound. cbn [List.length Nat.add app dict_set Nat.eqb bind fold_left fst snd].
    change ("[" ++ of_nat 2 ++ "]") with "[2]".
    now rewrite !str_app_assoc.
Qed.

(** The sources of two search steps: the records "[1]" and "[2]" of the
    first, the record "[1]" of the second; the answer cites "[2]". *)
Lemma C8_witness :
  FinalizeSpec.finalize "See [2]."
    [source_meta "Alpha" "http://a.org" "text of alpha" "[1]";
     source_meta "Beta" "http://b.org" "text of beta" "[2]";
     source_meta "Gamma" "http://c.org" "text of gamma" "[1]"]
  = ("See [1]." ++ nl ++ nl ++ "## References" ++ nl ++ nl
       ++ "1. [Beta](http://b.org)" ++ nl,
     [source_meta "Beta" "http://b.org" "text of beta" "[2]"]) /\
  finalize_answer "See [2]."
    [source_meta "Alpha" "http://a.org" "text of alpha" "[1]";
     source_meta "Beta" "http://b.org" "text of beta" "[2]";
     source_meta "Gamma" "http://c.org" "text of gamma" "[1]"]
  = Ok ("See [2]." ++ nl ++ nl ++ "## References" ++ nl ++ nl
          ++ "1. [Beta](http://b.org)" ++ nl ++ "2. [Gamma](http://c.org)" ++ nl,
        [source_meta "Beta" "http://b.org" "text of beta" "[2]";
         source_meta "Gamma" "http://c.org" "text of gamma" "[1]"]).
Proof.
  refine (C8_display_number_collides "See [2]." "[2]"
            [source_meta "Alpha" "http://a.org" "text of alpha" "[1]"]
            (source_meta "Beta" "http://b.org" "text of beta" "[2]")
            (source_meta "Gamma" "http://c.org" "text of gamma" "[1]")
            _ eq_refl _ eq_refl eq_refl eq_refl).
  - constructor; [|constructor]. exists "[1]". split; reflexivity.
  - discriminate.
Defined.
